(** * wmr200.c: Oregon Scientific WMR200 protocol core

    A shallow embedding of [src/wmr200.c]: the frame reader, the packet
    framer ([mainloop]), the checksum verifier, the per-kind decoders, the
    latest-reading store and the heartbeat's meta emission, followed by the
    properties proved about them.

    Conventions.
    - [uchar] is [Byte.byte]; [uc] is the integer promotion of a byte.
    - [uint_t] is a 32-bit unsigned integer: a [Z] reduced by [uint].
    - [int] expressions of the decoders stay below 2^16, so they are plain
      [Z] expressions.
    - [float] and [double] are IEEE binary32 and binary64 values of
      [SpecFloat], with round-to-nearest-even operations.
    - A [uchar *data] argument is an offset into the one buffer it can point
      into, [wmr->packet]; an access outside the buffer is undefined
      behaviour and ends the run as [Undefined]. *)

From Stdlib Require Import ZArith String Lia Bool QArith Qabs.
From Stdlib Require Import Floats.SpecFloat.
From Stdlib Require Import Strings.Byte.
From Stdlib Require Import List.
Import ListNotations.
Open Scope string_scope.
Open Scope list_scope.
Open Scope Z_scope.

(* ================================================================= *)
(** ** Machine integers and bytes *)

Abbreviation uchar := Byte.byte (only parsing).
Abbreviation uint_t := Z (only parsing).
Abbreviation time_t := Z (only parsing).

(** The typedef uint_t of common.h (not among the sources), taken as
    unsigned int, 32 bits wide. *)
Definition UINT_BITS : Z := 32.

(** Conversion to [uint_t] (wrap-around modulo 2^32). *)
Definition uint (z : Z) : uint_t := z mod 2 ^ UINT_BITS.

(** Integer promotion of a [uchar]. *)
Definition uc (b : uchar) : Z := Z.of_N (Byte.to_N b).

(** Conversion of an integer to [uchar] (modulo 256). *)
Definition to_uchar (z : Z) : uchar :=
  match Byte.of_N (Z.to_N (z mod 256)) with
  | Some b => b
  | None => Byte.x00
  end.

(** #define NTH_BIT(n, val) (((val) >> (n)) & 1) *)
Definition NTH_BIT (n val : Z) : Z := Z.land (Z.shiftr val n) 1.
(** #define LOW(b) ((b) & 0xF) *)
Definition LOW (b : Z) : Z := Z.land b 0xF.
(** #define HIGH(b) LOW((b) >> 4) *)
Definition HIGH (b : Z) : Z := LOW (Z.shiftr b 4).

Definition HEARTBEAT_INTERVAL_SEC : Z := 30.

(** enum command *)
Definition HEARTBEAT : Z := 0xD0.
Definition HISTORIC_DATA_NOTIF : Z := 0xD1.
Definition HISTORIC_DATA : Z := 0xD2.
Definition REQUEST_HISTORIC_DATA : Z := 0xDA.
Definition LOGGER_DATA_ERASE : Z := 0xDB.
Definition COMMUNICATION_STOP : Z := 0xDF.

Definition SIGN_NEGATIVE : Z := 0x8.

(* ================================================================= *)
(** ** Floating point: C [double] and [float] *)

Abbreviation double := spec_float (only parsing).
Abbreviation float := spec_float (only parsing).

(** int -> double; exact for every |z| < 2^53. *)
Definition int_to_double (z : Z) : double := binary_normalize 53 1024 z 0 false.

(** double -> float: rounding to binary32. *)
Definition double_to_float (d : double) : float :=
  match d with
  | S754_finite s m e => binary_normalize 24 128 (cond_Zopp s (Zpos m)) e s
  | _ => d
  end.

(** int -> float; exact for every |z| < 2^24. *)
Definition int_to_float (z : Z) : float := binary_normalize 24 128 z 0 false.

Definition double_div (x y : double) : double := SFdiv 53 1024 x y.
Definition double_mul (x y : double) : double := SFmul 53 1024 x y.
Definition float_neg (x : float) : float := SFopp x.

(** The literal [10.0]. *)
Definition lit_10_0 : double := int_to_double 10.

(** #define TENTH_OF_INCH 0.0254: the double nearest to 254/10000, which
    is what the correctly rounded quotient of the two integers is. *)
Definition TENTH_OF_INCH : double :=
  double_div (int_to_double 254) (int_to_double 10000).

(** The rational a finite float stands for; 0 for the others. *)
Definition float_value (f : spec_float) : Q :=
  match f with
  | S754_finite s m e =>
      let n := cond_Zopp s (Zpos m) in
      if 0 <=? e then inject_Z (n * 2 ^ e) else n # Z.to_pos (2 ^ (- e))
  | _ => 0%Q
  end.

(* ================================================================= *)
(** ** wmrdata.h: readings

    The header is not among the sources; the structures are rebuilt from
    the designated initialisers of wmr200.c, each field with the type of
    the local it is initialised from. The counters of wmr_meta, which
    wmr200.c only increments, are taken as uint_t. *)

Record wmr_wind := {
  dir : string;
  gust_speed : float;
  avg_speed : float;
  chill : float
}.

Record wmr_rain := {
  rate : float;
  accum_hour : float;
  accum_24h : float;
  accum_2007 : float
}.

Record wmr_uvi := { index : uint_t }.

Record wmr_baro := {
  pressure : uint_t;
  alt_pressure : uint_t;
  forecast : string
}.

Record wmr_temp := {
  humidity : uint_t;
  heat_index : uint_t;
  temp : float;
  dew_point : float;
  sensor_id : Z
}.

Record wmr_status := {
  wind_bat : string;
  temp_bat : string;
  rain_bat : string;
  uv_bat : string;
  wind_sensor : string;
  temp_sensor : string;
  rain_sensor : string;
  uv_sensor : string;
  rtc_signal_level : string
}.

Record wmr_meta := {
  num_packets : uint_t;
  num_failed : uint_t;
  num_frames : uint_t;
  num_bytes : uint_t;
  latest_packet : time_t;
  uptime : time_t
}.

(** The union of a reading; [Zeroed] is the all-zero union that
    [memset] leaves in a fresh store. *)
Inductive wmr_union :=
| Zeroed
| Wind (x : wmr_wind)
| Rain (x : wmr_rain)
| Uvi (x : wmr_uvi)
| Baro (x : wmr_baro)
| Temp (x : wmr_temp)
| Status (x : wmr_status)
| Meta (x : wmr_meta).

Record wmr_reading := {
  type : Z;
  time : time_t;
  body : wmr_union
}.

(** wmr->latest *)
Record wmr_latest_data := {
  latest_wind : wmr_reading;
  latest_rain : wmr_reading;
  latest_uvi : wmr_reading;
  latest_baro : wmr_reading;
  latest_temp : list wmr_reading;
  latest_status : wmr_reading;
  latest_meta : wmr_reading
}.

(* ================================================================= *)
(** ** wmr200.h, libc and the device: what wmr200.c is compiled against *)

(** The constants wmr200.c takes from wmr200.h and wmrdata.h. The two
    headers are not among the sources, so their values stay parameters. *)
Record header := {
  WMR200_FRAME_SIZE : Z;
  WMR200_MAX_TEMP_SENSORS : Z;
  WMR_WIND : Z;
  WMR_RAIN : Z;
  WMR_UVI : Z;
  WMR_BARO : Z;
  WMR_TEMP : Z;
  WMR_STATUS : Z;
  WMR_META : Z
}.

(** struct tm, as far as get_reading_time_from_packet fills it. *)
Record tm := {
  tm_year : Z;
  tm_mon : Z;
  tm_mday : Z;
  tm_hour : Z;
  tm_min : Z;
  tm_sec : Z;
  tm_isdst : Z
}.

(** The C library and the HID layer, seen from wmr200.c: [mktime] (it
    depends on the time zone), the wall clock ([time_NULL n] is what the
    n-th call of [time(NULL)] returns; nothing makes it monotone) and the
    return value of the n-th [hid_write]. *)
Record libc := {
  mktime : tm -> time_t;
  time_NULL : nat -> time_t;
  hid_write_ret : nat -> Z
}.

(** struct wmr_handler: a callback and its context, both opaque. *)
Record wmr_handler := {
  handler_fn : Z;
  arg : Z
}.

Inductive level := Debug | Info | Warning | Error.

(** What a run does to the outside, in order. *)
Inductive event :=
| Log (l : level) (fmt : string) (args : list Z)
| Stderr (fmt : string) (args : list Z)
| HidWrite (data : list uchar)
| Invoke (h : wmr_handler) (r : wmr_reading)
| Malloc (n : Z)
| Free.

(** The wmr200 structure, followed by the three pieces of the outside that
    a run consumes or produces: the reports [hid_read] is still to
    deliver ([Some bytes] is a report, [None] a failed read), the number
    of [time(NULL)] and [hid_write] calls made, and the events so far. *)
Record wmr200 := {
  latest : wmr_latest_data;
  handler : list wmr_handler;
  meta : wmr_meta;
  conn_since : time_t;
  buf : list uchar;
  buf_avail : uint_t;
  buf_pos : uint_t;
  packet : list uchar;
  packet_type : Z;
  packet_len : uint_t;
  dev : list (option (list uchar));
  clock : nat;
  writes : nat;
  out : list event
}.

Definition set_latest (x : wmr_latest_data) (w : wmr200) : wmr200 :=
  {| latest := x; handler := handler w; meta := meta w;
     conn_since := conn_since w; buf := buf w; buf_avail := buf_avail w;
     buf_pos := buf_pos w; packet := packet w; packet_type := packet_type w;
     packet_len := packet_len w; dev := dev w; clock := clock w;
     writes := writes w; out := out w |}.

Definition set_meta (x : wmr_meta) (w : wmr200) : wmr200 :=
  {| latest := latest w; handler := handler w; meta := x;
     conn_since := conn_since w; buf := buf w; buf_avail := buf_avail w;
     buf_pos := buf_pos w; packet := packet w; packet_type := packet_type w;
     packet_len := packet_len w; dev := dev w; clock := clock w;
     writes := writes w; out := out w |}.

Definition set_buf (x : list uchar) (w : wmr200) : wmr200 :=
  {| latest := latest w; handler := handler w; meta := meta w;
     conn_since := conn_since w; buf := x; buf_avail := buf_avail w;
     buf_pos := buf_pos w; packet := packet w; packet_type := packet_type w;
     packet_len := packet_len w; dev := dev w; clock := clock w;
     writes := writes w; out := out w |}.

Definition set_buf_avail (x : uint_t) (w : wmr200) : wmr200 :=
  {| latest := latest w; handler := handler w; meta := meta w;
     conn_since := conn_since w; buf := buf w; buf_avail := x;
     buf_pos := buf_pos w; packet := packet w; packet_type := packet_type w;
     packet_len := packet_len w; dev := dev w; clock := clock w;
     writes := writes w; out := out w |}.

Definition set_buf_pos (x : uint_t) (w : wmr200) : wmr200 :=
  {| latest := latest w; handler := handler w; meta := meta w;
     conn_since := conn_since w; buf := buf w; buf_avail := buf_avail w;
     buf_pos := x; packet := packet w; packet_type := packet_type w;
     packet_len := packet_len w; dev := dev w; clock := clock w;
     writes := writes w; out := out w |}.

Definition set_packet (x : list uchar) (w : wmr200) : wmr200 :=
  {| latest := latest w; handler := handler w; meta := meta w;
     conn_since := conn_since w; buf := buf w; buf_avail := buf_avail w;
     buf_pos := buf_pos w; packet := x; packet_type := packet_type w;
     packet_len := packet_len w; dev := dev w; clock := clock w;
     writes := writes w; out := out w |}.

Definition set_packet_type (x : Z) (w : wmr200) : wmr200 :=
  {| latest := latest w; handler := handler w; meta := meta w;
     conn_since := conn_since w; buf := buf w; buf_avail := buf_avail w;
     buf_pos := buf_pos w; packet := packet w; packet_type := x;
     packet_len := packet_len w; dev := dev w; clock := clock w;
     writes := writes w; out := out w |}.

Definition set_packet_len (x : uint_t) (w : wmr200) : wmr200 :=
  {| latest := latest w; handler := handler w; meta := meta w;
     conn_since := conn_since w; buf := buf w; buf_avail := buf_avail w;
     buf_pos := buf_pos w; packet := packet w; packet_type := packet_type w;
     packet_len := x; dev := dev w; clock := clock w;
     writes := writes w; out := out w |}.

Definition set_dev (x : list (option (list uchar))) (w : wmr200) : wmr200 :=
  {| latest := latest w; handler := handler w; meta := meta w;
     conn_since := conn_since w; buf := buf w; buf_avail := buf_avail w;
     buf_pos := buf_pos w; packet := packet w; packet_type := packet_type w;
     packet_len := packet_len w; dev := x; clock := clock w;
     writes := writes w; out := out w |}.

Definition set_clock (x : nat) (w : wmr200) : wmr200 :=
  {| latest := latest w; handler := handler w; meta := meta w;
     conn_since := conn_since w; buf := buf w; buf_avail := buf_avail w;
     buf_pos := buf_pos w; packet := packet w; packet_type := packet_type w;
     packet_len := packet_len w; dev := dev w; clock := x;
     writes := writes w; out := out w |}.

Definition set_writes (x : nat) (w : wmr200) : wmr200 :=
  {| latest := latest w; handler := handler w; meta := meta w;
     conn_since := conn_since w; buf := buf w; buf_avail := buf_avail w;
     buf_pos := buf_pos w; packet := packet w; packet_type := packet_type w;
     packet_len := packet_len w; dev := dev w; clock := clock w;
     writes := x; out := out w |}.

Definition set_out (x : list event) (w : wmr200) : wmr200 :=
  {| latest := latest w; handler := handler w; meta := meta w;
     conn_since := conn_since w; buf := buf w; buf_avail := buf_avail w;
     buf_pos := buf_pos w; packet := packet w; packet_type := packet_type w;
     packet_len := packet_len w; dev := dev w; clock := clock w;
     writes := writes w; out := x |}.

Definition set_handler (x : list wmr_handler) (w : wmr200) : wmr200 :=
  {| latest := latest w; handler := x; meta := meta w;
     conn_since := conn_since w; buf := buf w; buf_avail := buf_avail w;
     buf_pos := buf_pos w; packet := packet w; packet_type := packet_type w;
     packet_len := packet_len w; dev := dev w; clock := clock w;
     writes := writes w; out := out w |}.

Definition set_latest_wind (r : wmr_reading) (l : wmr_latest_data) :=
  {| latest_wind := r; latest_rain := latest_rain l; latest_uvi := latest_uvi l;
     latest_baro := latest_baro l; latest_temp := latest_temp l;
     latest_status := latest_status l; latest_meta := latest_meta l |}.

Definition set_latest_rain (r : wmr_reading) (l : wmr_latest_data) :=
  {| latest_wind := latest_wind l; latest_rain := r; latest_uvi := latest_uvi l;
     latest_baro := latest_baro l; latest_temp := latest_temp l;
     latest_status := latest_status l; latest_meta := latest_meta l |}.

Definition set_latest_uvi (r : wmr_reading) (l : wmr_latest_data) :=
  {| latest_wind := latest_wind l; latest_rain := latest_rain l; latest_uvi := r;
     latest_baro := latest_baro l; latest_temp := latest_temp l;
     latest_status := latest_status l; latest_meta := latest_meta l |}.

Definition set_latest_baro (r : wmr_reading) (l : wmr_latest_data) :=
  {| latest_wind := latest_wind l; latest_rain := latest_rain l;
     latest_uvi := latest_uvi l; latest_baro := r; latest_temp := latest_temp l;
     latest_status := latest_status l; latest_meta := latest_meta l |}.

Definition set_latest_temp (t : list wmr_reading) (l : wmr_latest_data) :=
  {| latest_wind := latest_wind l; latest_rain := latest_rain l;
     latest_uvi := latest_uvi l; latest_baro := latest_baro l; latest_temp := t;
     latest_status := latest_status l; latest_meta := latest_meta l |}.

Definition set_latest_status (r : wmr_reading) (l : wmr_latest_data) :=
  {| latest_wind := latest_wind l; latest_rain := latest_rain l;
     latest_uvi := latest_uvi l; latest_baro := latest_baro l;
     latest_temp := latest_temp l; latest_status := r;
     latest_meta := latest_meta l |}.

Definition set_latest_meta (r : wmr_reading) (l : wmr_latest_data) :=
  {| latest_wind := latest_wind l; latest_rain := latest_rain l;
     latest_uvi := latest_uvi l; latest_baro := latest_baro l;
     latest_temp := latest_temp l; latest_status := latest_status l;
     latest_meta := r |}.

Definition set_num_packets (x : uint_t) (m : wmr_meta) :=
  {| num_packets := x; num_failed := num_failed m; num_frames := num_frames m;
     num_bytes := num_bytes m; latest_packet := latest_packet m;
     uptime := uptime m |}.

Definition set_num_failed (x : uint_t) (m : wmr_meta) :=
  {| num_packets := num_packets m; num_failed := x; num_frames := num_frames m;
     num_bytes := num_bytes m; latest_packet := latest_packet m;
     uptime := uptime m |}.

Definition set_num_frames (x : uint_t) (m : wmr_meta) :=
  {| num_packets := num_packets m; num_failed := num_failed m; num_frames := x;
     num_bytes := num_bytes m; latest_packet := latest_packet m;
     uptime := uptime m |}.

Definition set_num_bytes (x : uint_t) (m : wmr_meta) :=
  {| num_packets := num_packets m; num_failed := num_failed m;
     num_frames := num_frames m; num_bytes := x;
     latest_packet := latest_packet m; uptime := uptime m |}.

Definition set_latest_packet (x : time_t) (m : wmr_meta) :=
  {| num_packets := num_packets m; num_failed := num_failed m;
     num_frames := num_frames m; num_bytes := num_bytes m; latest_packet := x;
     uptime := uptime m |}.

Definition set_uptime (x : time_t) (m : wmr_meta) :=
  {| num_packets := num_packets m; num_failed := num_failed m;
     num_frames := num_frames m; num_bytes := num_bytes m;
     latest_packet := latest_packet m; uptime := x |}.

(* ================================================================= *)
(** ** The monad of a run *)

(** How a piece of wmr200.c ends: it returns a value, the process exits,
    the thread waits for a report that never comes, or the behaviour is
    undefined (an access outside an array or a buffer). *)
Inductive result (A : Type) : Type :=
| Val (a : A)
| Exited (code : Z)
| Blocked
| Undefined.

Arguments Val {A} a.
Arguments Exited {A} code.
Arguments Blocked {A}.
Arguments Undefined {A}.

(** A piece of wmr200.c: from the state it starts in to how it ends and
    the state it has reached by then. *)
Definition M (A : Type) : Type := wmr200 -> result A * wmr200.

Definition ret {A} (a : A) : M A := fun w => (Val a, w).

Definition bind {A B} (c : M A) (k : A -> M B) : M B :=
  fun w =>
    match c w with
    | (Val a, w') => k a w'
    | (Exited code, w') => (Exited code, w')
    | (Blocked, w') => (Blocked, w')
    | (Undefined, w') => (Undefined, w')
    end.

Notation "x <- c ;; k" := (bind c (fun x => k))
  (at level 61, c at next level, right associativity).
Notation "c ;; k" := (bind c (fun _ => k))
  (at level 61, right associativity).

Definition gets {A} (f : wmr200 -> A) : M A := fun w => (Val (f w), w).
Definition modify (f : wmr200 -> wmr200) : M unit := fun w => (Val tt, f w).
Definition exit {A} (code : Z) : M A := fun w => (Exited code, w).
Definition undefined {A} : M A := fun w => (Undefined, w).
Definition when (b : bool) (c : M unit) : M unit := if b then c else ret tt.

Definition emit (e : event) : M unit :=
  modify (fun w => set_out (out w ++ [e]) w).

(** [l[i]] for an array or a buffer [l]: nothing outside it. *)
Definition at_Z {A} (l : list A) (i : Z) : option A :=
  if i <? 0 then None else nth_error l (Z.to_nat i).

(** [l[i] = x]. *)
Fixpoint upd {A} (l : list A) (n : nat) (x : A) : list A :=
  match l, n with
  | [], _ => []
  | _ :: t, O => x :: t
  | a :: t, S n' => a :: upd t n' x
  end.

Definition elem {A} (l : list A) (i : Z) : M A :=
  match at_Z l i with
  | Some x => ret x
  | None => undefined
  end.

(** wmr->packet[i], promoted. *)
Definition packet_at (i : Z) : M Z :=
  p <- gets packet ;; b <- elem p i ;; ret (uc b).

(** data[i] for [data] at offset [data] of wmr->packet. *)
Definition data_at (data i : Z) : M Z := packet_at (data + i).

(** wmr->packet[i] = b. *)
Definition packet_store (i : Z) (b : uchar) : M unit :=
  p <- gets packet ;;
  match at_Z p i with
  | Some _ => modify (set_packet (upd p (Z.to_nat i) b))
  | None => undefined
  end.

(** Modelled from the spec: the log sink of the absent log.h accepts
    leveled messages; a message is recorded with its level, its format
    and its arguments. *)
Definition log_debug (fmt : string) (args : list Z) : M unit :=
  emit (Log Debug fmt args).
Definition log_info (fmt : string) (args : list Z) : M unit :=
  emit (Log Info fmt args).
Definition log_warning (fmt : string) (args : list Z) : M unit :=
  emit (Log Warning fmt args).
Definition log_error (fmt : string) (args : list Z) : M unit :=
  emit (Log Error fmt args).
(** fprintf(stderr, fmt, args...) *)
Definition fprintf_stderr (fmt : string) (args : list Z) : M unit :=
  emit (Stderr fmt args).

(** Modelled from the spec: MIN of the absent common.h, by which the
    historic decoder clamps the sensor count to the supported maximum. *)
Definition MIN (a b : Z) : Z := if a <? b then a else b.

(** [for (uint_t i = from; i < until; i++) body(i)], for a bound that the
    body leaves alone; [i] stays below 2^32. *)
Fixpoint for_loop (n : nat) (i : Z) (body : Z -> M unit) : M unit :=
  match n with
  | O => ret tt
  | S n' => body i ;; for_loop n' (i + 1) body
  end.

Definition for_lt (from until : Z) (body : Z -> M unit) : M unit :=
  for_loop (Z.to_nat (until - from)) from body.

(* ================================================================= *)
(** ** wmr200.c *)

(** flag-to-string arrays *)
Definition LEVEL_STRING : list string := ["ok"; "low"].

Definition STATUS_STRING : list string := ["ok"; "failed"].

Definition FORECAST_STRING : list string :=
  ["partly_cloudy-day"; "rainy"; "cloudy";
   "sunny"; "clear"; "snowy";
   "partly_cloudy-night"].

Definition WIND_DIR_STRING : list string :=
  ["N"; "NNE"; "NE"; "ENE";
   "E"; "ESE"; "SE"; "SSE";
   "S"; "SSW"; "SW"; "WSW";
   "W"; "WNW"; "NW"; "NNW"].

(** static void update_if_newer(wmr_reading *old, wmr_reading *new): the
    value of [*old] afterwards. *)
Definition update_if_newer (old new : wmr_reading) : wmr_reading :=
  if time new >=? time old then new else old.

Section Wmr200.

Variable h : header.
Variable env : libc.

(** time(NULL) *)
Definition time_now : M time_t :=
  n <- gets clock ;;
  modify (set_clock (S n)) ;;
  ret (time_NULL env n).

(** hid_read(wmr->dev, wmr->buf, WMR200_FRAME_SIZE): the next report is
    copied to the front of [buf], at most WMR200_FRAME_SIZE bytes of it;
    the result is the number of bytes copied, or -1. *)
Definition hid_read : M Z :=
  fun w =>
    match dev w with
    | [] => (Blocked, w)
    | None :: rest => (Val (-1), set_dev rest w)
    | Some report :: rest =>
        let got := firstn (Z.to_nat (WMR200_FRAME_SIZE h)) report in
        (Val (Z.of_nat (length got)),
         set_dev rest (set_buf (got ++ skipn (length got) (buf w)) w))
    end.

(** hid_write(wmr->dev, data, WMR200_FRAME_SIZE) *)
Definition hid_write (data : list uchar) : M Z :=
  n <- gets writes ;;
  modify (set_writes (S n)) ;;
  emit (HidWrite data) ;;
  ret (hid_write_ret env n).

(** Modelled from the spec: malloc_safe of the absent common.c allocates
    a buffer of the declared length. Its contents are indeterminate in C;
    [mainloop] writes every cell before anything reads it, so the zeros
    here are never observed. *)
Definition malloc_safe (n : Z) : M (list uchar) :=
  emit (Malloc n) ;;
  ret (repeat Byte.x00 (Z.to_nat n)).

(** free(wmr->packet): the pointer dangles until the next malloc_safe, so
    nothing of the old buffer can be accessed. *)
Definition free_packet : M unit :=
  emit Free ;;
  modify (set_packet []).

(** sending and receiving data *)

Definition read_byte : M uchar :=
  avail <- gets buf_avail ;;
  when (avail =? 0) (
    ret_ <- hid_read ;;
    modify (fun w => set_meta (set_num_frames (uint (num_frames (meta w) + 1)) (meta w)) w) ;;
    when (negb (ret_ =? WMR200_FRAME_SIZE h)) (
      log_warning "Cannot read frame\n" []
    ) ;;
    b <- gets buf ;;
    b0 <- elem b 0 ;;
    modify (set_buf_avail (uc b0)) ;;
    modify (set_buf_pos 1)
  ) ;;
  modify (fun w => set_meta (set_num_bytes (uint (num_bytes (meta w) + 1)) (meta w)) w) ;;
  modify (fun w => set_buf_avail (uint (buf_avail w - 1)) w) ;;
  pos <- gets buf_pos ;;
  modify (set_buf_pos (uint (pos + 1))) ;;
  b <- gets buf ;;
  elem b pos.

Definition send_cmd_frame (cmd : Z) : M unit :=
  let data := [Byte.x01; to_uchar cmd]
              ++ repeat Byte.x00 (Z.to_nat (WMR200_FRAME_SIZE h - 2)) in
  ret_ <- hid_write data ;;
  when (negb (ret_ =? WMR200_FRAME_SIZE h)) (
    fprintf_stderr "hid_write: cannot send %02x command frame, return was %i"
                   [cmd; ret_] ;;
    exit 1
  ).

Definition send_heartbeat : M unit :=
  log_debug "Sending heartbeat to WMR200" [] ;;
  send_cmd_frame HEARTBEAT.

(** data processing *)

Definition get_reading_time_from_packet : M time_t :=
  p6 <- packet_at 6 ;;
  p5 <- packet_at 5 ;;
  p4 <- packet_at 4 ;;
  p3 <- packet_at 3 ;;
  p2 <- packet_at 2 ;;
  ret (mktime env {|
    tm_year := (2000 + p6) - 1900;
    tm_mon := p5;
    tm_mday := p4;
    tm_hour := p3;
    tm_min := p2;
    tm_sec := 0;
    tm_isdst := -1
  |}).

Fixpoint invoke_list (hs : list wmr_handler) (reading : wmr_reading) : M unit :=
  match hs with
  | [] => ret tt
  | handler :: next => emit (Invoke handler reading) ;; invoke_list next reading
  end.

Definition invoke_handlers (reading : wmr_reading) : M unit :=
  hs <- gets handler ;;
  invoke_list hs reading.

Definition process_wind_data (data : Z) : M unit :=
  d7 <- data_at data 7 ;;
  let dir_flag := uint (LOW d7) in
  d10 <- data_at data 10 ;;
  d9 <- data_at data 9 ;;
  let gust_speed :=
    double_to_float (double_div (int_to_double (256 * LOW d10 + d9)) lit_10_0) in
  d11 <- data_at data 11 ;;
  let avg_speed :=
    double_to_float (double_div (int_to_double (16 * LOW d11 + HIGH d10)) lit_10_0) in
  d12 <- data_at data 12 ;;
  let chill := int_to_float d12 in
  t <- get_reading_time_from_packet ;;
  dir_ <- elem WIND_DIR_STRING dir_flag ;;
  let reading := {|
    type := WMR_WIND h;
    time := t;
    body := Wind {|
      dir := dir_;
      gust_speed := gust_speed;
      avg_speed := avg_speed;
      chill := chill
    |}
  |} in
  modify (fun w => set_latest (set_latest_wind
    (update_if_newer (latest_wind (latest w)) reading) (latest w)) w) ;;
  invoke_handlers reading.

Definition process_rain_data (data : Z) : M unit :=
  d8 <- data_at data 8 ;;
  d7 <- data_at data 7 ;;
  let rate := double_to_float
    (double_mul (int_to_double (Z.shiftl d8 8 + d7)) TENTH_OF_INCH) in
  d10 <- data_at data 10 ;;
  d9 <- data_at data 9 ;;
  let accum_hour := double_to_float
    (double_mul (int_to_double (Z.shiftl d10 8 + d9)) TENTH_OF_INCH) in
  d12 <- data_at data 12 ;;
  d11 <- data_at data 11 ;;
  let accum_24h := double_to_float
    (double_mul (int_to_double (Z.shiftl d12 8 + d11)) TENTH_OF_INCH) in
  d14 <- data_at data 14 ;;
  d13 <- data_at data 13 ;;
  let accum_2007 := double_to_float
    (double_mul (int_to_double (Z.shiftl d14 8 + d13)) TENTH_OF_INCH) in
  t <- get_reading_time_from_packet ;;
  let reading := {|
    type := WMR_RAIN h;
    time := t;
    body := Rain {|
      rate := rate;
      accum_hour := accum_hour;
      accum_24h := accum_24h;
      accum_2007 := accum_2007
    |}
  |} in
  modify (fun w => set_latest (set_latest_rain
    (update_if_newer (latest_rain (latest w)) reading) (latest w)) w) ;;
  invoke_handlers reading.

Definition process_uvi_data (data : Z) : M unit :=
  d7 <- data_at data 7 ;;
  let index := uint (LOW d7) in
  t <- get_reading_time_from_packet ;;
  let reading := {|
    type := WMR_UVI h;
    time := t;
    body := Uvi {| index := index |}
  |} in
  modify (fun w => set_latest (set_latest_uvi
    (update_if_newer (latest_uvi (latest w)) reading) (latest w)) w) ;;
  invoke_handlers reading.

Definition process_baro_data (data : Z) : M unit :=
  d8 <- data_at data 8 ;;
  d7 <- data_at data 7 ;;
  let pressure := uint (256 * LOW d8 + d7) in
  d10 <- data_at data 10 ;;
  d9 <- data_at data 9 ;;
  let alt_pressure := uint (256 * LOW d10 + d9) in
  let forecast_flag := uint (HIGH d8) in
  t <- get_reading_time_from_packet ;;
  forecast_ <- elem FORECAST_STRING forecast_flag ;;
  let reading := {|
    type := WMR_BARO h;
    time := t;
    body := Baro {|
      pressure := pressure;
      alt_pressure := alt_pressure;
      forecast := forecast_
    |}
  |} in
  modify (fun w => set_latest (set_latest_baro
    (update_if_newer (latest_baro (latest w)) reading) (latest w)) w) ;;
  invoke_handlers reading.

Definition process_temp_data (data : Z) : M unit :=
  d7 <- data_at data 7 ;;
  let sensor_id := LOW d7 in
  when (sensor_id >? 1) (
    fprintf_stderr "Unknown sensor, ID: %i\n" [sensor_id] ;;
    exit 1
  ) ;;
  d10 <- data_at data 10 ;;
  let humidity := uint d10 in
  d13 <- data_at data 13 ;;
  let heat_index := uint d13 in
  d9 <- data_at data 9 ;;
  d8 <- data_at data 8 ;;
  let temp := double_to_float
    (double_div (int_to_double (256 * LOW d9 + d8)) lit_10_0) in
  let temp := if HIGH d9 =? SIGN_NEGATIVE then float_neg temp else temp in
  d12 <- data_at data 12 ;;
  d11 <- data_at data 11 ;;
  let dew_point := double_to_float
    (double_div (int_to_double (256 * LOW d12 + d11)) lit_10_0) in
  let dew_point :=
    if HIGH d12 =? SIGN_NEGATIVE then float_neg dew_point else dew_point in
  t <- get_reading_time_from_packet ;;
  let reading := {|
    type := WMR_TEMP h;
    time := t;
    body := Temp {|
      humidity := humidity;
      heat_index := heat_index;
      temp := temp;
      dew_point := dew_point;
      sensor_id := sensor_id
    |}
  |} in
  slots <- gets (fun w => latest_temp (latest w)) ;;
  old <- elem slots sensor_id ;;
  modify (fun w => set_latest (set_latest_temp
    (upd slots (Z.to_nat sensor_id) (update_if_newer old reading)) (latest w)) w) ;;
  invoke_handlers reading.

Definition process_status_data (data : Z) : M unit :=
  d4 <- data_at data 4 ;;
  let wind_bat_flag := uint (NTH_BIT 0 d4) in
  let temp_bat_flag := uint (NTH_BIT 1 d4) in
  d5 <- data_at data 5 ;;
  let rain_bat_flag := uint (NTH_BIT 4 d5) in
  let uv_bat_flag := uint (NTH_BIT 5 d5) in
  d2 <- data_at data 2 ;;
  let wind_sensor_flag := uint (NTH_BIT 0 d2) in
  let temp_sensor_flag := uint (NTH_BIT 1 d2) in
  d3 <- data_at data 3 ;;
  let rain_sensor_flag := uint (NTH_BIT 4 d3) in
  let uv_sensor_flag := uint (NTH_BIT 5 d3) in
  let rtc_signal_flag := uint (NTH_BIT 8 d4) in
  t <- get_reading_time_from_packet ;;
  wind_bat_ <- elem LEVEL_STRING wind_bat_flag ;;
  temp_bat_ <- elem LEVEL_STRING temp_bat_flag ;;
  rain_bat_ <- elem LEVEL_STRING rain_bat_flag ;;
  uv_bat_ <- elem LEVEL_STRING uv_bat_flag ;;
  wind_sensor_ <- elem STATUS_STRING wind_sensor_flag ;;
  temp_sensor_ <- elem STATUS_STRING temp_sensor_flag ;;
  rain_sensor_ <- elem STATUS_STRING rain_sensor_flag ;;
  uv_sensor_ <- elem STATUS_STRING uv_sensor_flag ;;
  rtc_signal_level_ <- elem LEVEL_STRING rtc_signal_flag ;;
  let reading := {|
    type := WMR_STATUS h;
    time := t;
    body := Status {|
      wind_bat := wind_bat_;
      temp_bat := temp_bat_;
      rain_bat := rain_bat_;
      uv_bat := uv_bat_;
      wind_sensor := wind_sensor_;
      temp_sensor := temp_sensor_;
      rain_sensor := rain_sensor_;
      uv_sensor := uv_sensor_;
      rtc_signal_level := rtc_signal_level_
    |}
  |} in
  modify (fun w => set_latest (set_latest_status
    (update_if_newer (latest_status (latest w)) reading) (latest w)) w) ;;
  invoke_handlers reading.

Definition process_historic_data (data : Z) : M unit :=
  process_rain_data data ;;
  process_wind_data (data + 13) ;;
  process_uvi_data (data + 20) ;;
  process_baro_data (data + 21) ;;
  process_temp_data (data + 26) ;;
  d32 <- data_at data 32 ;;
  let ext_sensor_count := uint d32 in
  when (ext_sensor_count >? uint (WMR200_MAX_TEMP_SENSORS h)) (
    log_warning
      "process_historic_data: too many external sensors, skipping extraneous sensors"
      []
  ) ;;
  let ext_sensor_count :=
    MIN ext_sensor_count (uint (WMR200_MAX_TEMP_SENSORS h)) in
  for_lt 0 ext_sensor_count (fun i =>
    process_temp_data (data + 33 + (7 * i))
  ).

Definition emit_meta_packet : M unit :=
  log_debug "Emitting system META packet 0x%02X" [WMR_META h] ;;
  now <- time_now ;;
  modify (fun w => set_meta (set_uptime (now - conn_since w) (meta w)) w) ;;
  now' <- time_now ;;
  m <- gets meta ;;
  let reading := {|
    type := WMR_META h;
    time := now';
    body := Meta m
  |} in
  modify (fun w => set_latest (set_latest_meta reading (latest w)) w) ;;
  invoke_handlers reading.

(** packet processing *)

(** The summing loop of verify_packet, [n] iterations from index [i]. *)
Fixpoint verify_packet_sum (n : nat) (i : uint_t) (sum : uint_t) : M uint_t :=
  match n with
  | O => ret sum
  | S n' =>
      b <- packet_at i ;;
      verify_packet_sum n' (uint (i + 1)) (uint (sum + b))
  end.

Definition verify_packet : M uint_t :=
  len <- gets packet_len ;;
  if len <=? 2 then ret (uint (-1))
  else
    sum <- verify_packet_sum (Z.to_nat (uint (len - 2))) 0 0 ;;
    hi <- packet_at (uint (len - 1)) ;;
    lo <- packet_at (uint (len - 2)) ;;
    let checksum := uint (256 * hi + lo) in
    if negb (sum =? checksum) then ret (uint (-1))
    else ret 0.

Definition dispatch_packet : M unit :=
  t <- gets packet_type ;;
  if t =? HISTORIC_DATA then process_historic_data 0
  else if t =? WMR_WIND h then process_wind_data 0
  else if t =? WMR_RAIN h then process_rain_data 0
  else if t =? WMR_UVI h then process_uvi_data 0
  else if t =? WMR_BARO h then process_baro_data 0
  else if t =? WMR_TEMP h then process_temp_data 0
  else if t =? WMR_STATUS h then process_status_data 0
  else log_warning "Ignoring unknown packet 0x%02X" [t].

(** The program points of mainloop between which control moves: the top
    of the [while] body, the label [act_on_packet_type], the statement
    after the [switch], the test of the [for] loop with its counter, and
    the statement after that loop. *)
Inductive label :=
| top
| act_on_packet_type
| read_len
| payload (i : uint_t)
| received.

(** One move of mainloop, from a program point to the next. *)
Definition mainloop_step (l : label) : M label :=
  match l with
  | top =>
      b <- read_byte ;;
      modify (set_packet_type (uc b)) ;;
      ret act_on_packet_type
  | act_on_packet_type =>
      t <- gets packet_type ;;
      if t =? HISTORIC_DATA_NOTIF then
        log_info "Data logger contains some unprocessed historic records" [] ;;
        log_info "Issuing REQUEST_HISTORIC_DATA command" [] ;;
        send_cmd_frame REQUEST_HISTORIC_DATA ;;
        ret top
      else if t =? LOGGER_DATA_ERASE then
        log_info "Data logger database purge successful" [] ;;
        ret top
      else if t =? COMMUNICATION_STOP then
        log_debug "Ignoring COMMUNICATION_STOP packet" [] ;;
        ret read_len
      else ret read_len
  | read_len =>
      b <- read_byte ;;
      modify (set_packet_len (uc b)) ;;
      len <- gets packet_len ;;
      if (len >=? 0xD0) && (len <=? 0xDF) then
        modify (set_packet_type len) ;;
        ret act_on_packet_type
      else
        p <- malloc_safe len ;;
        modify (set_packet p) ;;
        t <- gets packet_type ;;
        packet_store 0 (to_uchar t) ;;
        packet_store 1 (to_uchar len) ;;
        ret (payload 2)
  | payload i =>
      len <- gets packet_len ;;
      if i <? len then
        b <- read_byte ;;
        packet_store i b ;;
        ret (payload (uint (i + 1)))
      else ret received
  | received =>
      modify (fun w => set_meta (set_num_packets (uint (num_packets (meta w) + 1)) (meta w)) w) ;;
      v <- verify_packet ;;
      if negb (v =? 0) then
        log_warning "Received incorrect packet, dropping" [] ;;
        modify (fun w => set_meta (set_num_failed (uint (num_failed (meta w) + 1)) (meta w)) w) ;;
        ret top
      else
        t <- gets packet_type ;;
        len <- gets packet_len ;;
        log_debug "Packet 0x%02X (%u bytes)" [t; len] ;;
        now <- time_now ;;
        modify (fun w => set_meta (set_latest_packet now (meta w)) w) ;;
        dispatch_packet ;;
        free_packet ;;
        ret top
  end.

(** mainloop, for as many moves as there is fuel. *)
Fixpoint mainloop_from (fuel : nat) (l : label) : M label :=
  match fuel with
  | O => ret l
  | S fuel' => l' <- mainloop_step l ;; mainloop_from fuel' l'
  end.

(** One turn of heartbeat_loop, up to the call of usleep. *)
Definition heartbeat_loop_turn : M unit :=
  send_heartbeat ;;
  emit_meta_packet.

(** public interface *)

(** sizeof (struct wmr_handler), which the C implementation fixes: the
    structure holds a function pointer and two object pointers. *)
Variable sizeof_wmr_handler : Z.

Definition wmr_add_handler (handler_ arg_ : Z) : M unit :=
  malloc_safe sizeof_wmr_handler ;;
  modify (fun w =>
    set_handler ({| handler_fn := handler_; arg := arg_ |} :: handler w) w).

Definition zero_reading : wmr_reading :=
  {| type := 0; time := 0; body := Zeroed |}.

(** Modelled from the spec: the number of slots of the array
    [latest.temp], which the absent wmrdata.h declares: one slot per
    temperature sensor index, WMR200_MAX_TEMP_SENSORS of them. *)
Definition latest_temp_slots : nat :=
  Z.to_nat (WMR200_MAX_TEMP_SENSORS h).

(** The structure wmr_open fills in. [buf] and [packet_type] are
    indeterminate in C until first written. *)
Definition wmr_opened (reports : list (option (list uchar))) : wmr200 :=
  let abracadabra :=
    [Byte.x20; Byte.x00; Byte.x08; Byte.x01;
     Byte.x00; Byte.x00; Byte.x00; Byte.x00] in
  {|
    latest := {|
      latest_wind := zero_reading;
      latest_rain := zero_reading;
      latest_uvi := zero_reading;
      latest_baro := zero_reading;
      latest_temp := repeat zero_reading latest_temp_slots;
      latest_status := zero_reading;
      latest_meta := zero_reading
    |};
    handler := [];
    meta := {| num_packets := 0; num_failed := 0; num_frames := 0;
               num_bytes := 0; latest_packet := 0; uptime := 0 |};
    conn_since := time_NULL env 0;
    buf := repeat Byte.x00 (Z.to_nat (WMR200_FRAME_SIZE h));
    buf_avail := 0;
    buf_pos := 0;
    packet := [];
    packet_type := 0;
    packet_len := 0;
    dev := reports;
    clock := 1;
    writes := 1;
    out := [HidWrite abracadabra]
  |}.

(** wmr_open, for a device that opens: NULL when the wake-up write fails. *)
Definition wmr_open (reports : list (option (list uchar))) : option wmr200 :=
  if negb (hid_write_ret env 0 =? 8) then None
  else Some (wmr_opened reports).

End Wmr200.

(* ================================================================= *)
(** * Vocabulary of the statements *)

(** ** Buffers, readings and commits *)

(** The byte at index [i] of a buffer, promoted; 0 outside. For
    statements only: the code reads through [packet_at]. *)
Definition byte_at (p : list uchar) (i : Z) : Z :=
  uc (nth (Z.to_nat i) p Byte.x00).

Definition byte_sum (l : list uchar) : Z :=
  fold_right (fun b acc => uc b + acc) 0 l.

(** The state after every registered handler was called with [r]. *)
Definition deliver (r : wmr_reading) (w : wmr200) : wmr200 :=
  set_out (out w ++ map (fun hd => Invoke hd r) (handler w)) w.

Section Readings.

Variable h : header.
Variable env : libc.

(** The timestamp get_reading_time_from_packet computes from a buffer. *)
Definition reading_time (p : list uchar) : time_t :=
  mktime env {|
    tm_year := (2000 + byte_at p 6) - 1900;
    tm_mon := byte_at p 5;
    tm_mday := byte_at p 4;
    tm_hour := byte_at p 3;
    tm_min := byte_at p 2;
    tm_sec := 0;
    tm_isdst := -1
  |}.

(** [n / 10.0] stored in a float, as the decoders compute it. *)
Definition float_div10 (n : Z) : float :=
  double_to_float (double_div (int_to_double n) lit_10_0).

(** The state after a reading was committed to a slot and delivered. *)
Definition commit_wind (r : wmr_reading) (w : wmr200) : wmr200 :=
  deliver r (set_latest (set_latest_wind
    (update_if_newer (latest_wind (latest w)) r) (latest w)) w).

Definition commit_rain (r : wmr_reading) (w : wmr200) : wmr200 :=
  deliver r (set_latest (set_latest_rain
    (update_if_newer (latest_rain (latest w)) r) (latest w)) w).

Definition commit_uvi (r : wmr_reading) (w : wmr200) : wmr200 :=
  deliver r (set_latest (set_latest_uvi
    (update_if_newer (latest_uvi (latest w)) r) (latest w)) w).

Definition commit_baro (r : wmr_reading) (w : wmr200) : wmr200 :=
  deliver r (set_latest (set_latest_baro
    (update_if_newer (latest_baro (latest w)) r) (latest w)) w).

Definition commit_status (r : wmr_reading) (w : wmr200) : wmr200 :=
  deliver r (set_latest (set_latest_status
    (update_if_newer (latest_status (latest w)) r) (latest w)) w).

Definition commit_temp (id : Z) (r : wmr_reading) (w : wmr200) : wmr200 :=
  deliver r (set_latest (set_latest_temp
    (upd (latest_temp (latest w)) (Z.to_nat id)
       (update_if_newer (nth (Z.to_nat id) (latest_temp (latest w)) zero_reading) r))
    (latest w)) w).

(** The readings the decoders build from the buffer [p] at offset
    [data], when every index they touch is inside it. *)
Definition wind_reading (p : list uchar) (data : Z) : wmr_reading :=
  {| type := WMR_WIND h;
     time := reading_time p;
     body := Wind {|
       dir := nth (Z.to_nat (LOW (byte_at p (data + 7)))) WIND_DIR_STRING
                  EmptyString;
       gust_speed :=
         float_div10 (256 * LOW (byte_at p (data + 10)) + byte_at p (data + 9));
       avg_speed :=
         float_div10 (16 * LOW (byte_at p (data + 11))
                      + HIGH (byte_at p (data + 10)));
       chill := int_to_float (byte_at p (data + 12))
     |}
  |}.

(** [n * TENTH_OF_INCH] stored in a float. *)
Definition float_tenths_of_inch (n : Z) : float :=
  double_to_float (double_mul (int_to_double n) TENTH_OF_INCH).

Definition rain_reading (p : list uchar) (data : Z) : wmr_reading :=
  {| type := WMR_RAIN h;
     time := reading_time p;
     body := Rain {|
       rate := float_tenths_of_inch
         (Z.shiftl (byte_at p (data + 8)) 8 + byte_at p (data + 7));
       accum_hour := float_tenths_of_inch
         (Z.shiftl (byte_at p (data + 10)) 8 + byte_at p (data + 9));
       accum_24h := float_tenths_of_inch
         (Z.shiftl (byte_at p (data + 12)) 8 + byte_at p (data + 11));
       accum_2007 := float_tenths_of_inch
         (Z.shiftl (byte_at p (data + 14)) 8 + byte_at p (data + 13))
     |}
  |}.

Definition uvi_reading (p : list uchar) (data : Z) : wmr_reading :=
  {| type := WMR_UVI h;
     time := reading_time p;
     body := Uvi {| index := LOW (byte_at p (data + 7)) |}
  |}.

Definition baro_reading (p : list uchar) (data : Z) : wmr_reading :=
  {| type := WMR_BARO h;
     time := reading_time p;
     body := Baro {|
       pressure := 256 * LOW (byte_at p (data + 8)) + byte_at p (data + 7);
       alt_pressure :=
         256 * LOW (byte_at p (data + 10)) + byte_at p (data + 9);
       forecast := nth (Z.to_nat (HIGH (byte_at p (data + 8)))) FORECAST_STRING
                       EmptyString
     |}
  |}.

Definition float_signed (sign : Z) (x : float) : float :=
  if sign =? SIGN_NEGATIVE then float_neg x else x.

Definition temp_reading (p : list uchar) (data : Z) : wmr_reading :=
  {| type := WMR_TEMP h;
     time := reading_time p;
     body := Temp {|
       humidity := byte_at p (data + 10);
       heat_index := byte_at p (data + 13);
       temp := float_signed (HIGH (byte_at p (data + 9)))
         (float_div10 (256 * LOW (byte_at p (data + 9)) + byte_at p (data + 8)));
       dew_point := float_signed (HIGH (byte_at p (data + 12)))
         (float_div10 (256 * LOW (byte_at p (data + 12)) + byte_at p (data + 11)));
       sensor_id := LOW (byte_at p (data + 7))
     |}
  |}.

Definition status_reading (p : list uchar) (data : Z) : wmr_reading :=
  let level n i := nth (Z.to_nat (NTH_BIT n (byte_at p (data + i))))
                       LEVEL_STRING EmptyString in
  let status n i := nth (Z.to_nat (NTH_BIT n (byte_at p (data + i))))
                        STATUS_STRING EmptyString in
  {| type := WMR_STATUS h;
     time := reading_time p;
     body := Status {|
       wind_bat := level 0 4;
       temp_bat := level 1 4;
       rain_bat := level 4 5;
       uv_bat := level 5 5;
       wind_sensor := status 0 2;
       temp_sensor := status 1 2;
       rain_sensor := status 4 3;
       uv_sensor := status 5 3;
       rtc_signal_level := level 8 4
     |}
  |}.

End Readings.

(** ** Encodings, events and the order of the store *)


(** The binary32 number nearest to 12.3. *)
Definition float_12_3 : float := S754_finite false 12897485 (-20).

(** A float [f] is the rounding of the rational [q]: within half a unit
    in the last place of binary32, that is a relative error of 2^-24. *)
Definition float_rounds (f : float) (q : Q) : Prop :=
  (Qabs (float_value f - q) <= (1 # 2 ^ 24) * Qabs q)%Q.

Definition float_rounds_b (f : float) (q : Q) : bool :=
  Qle_bool (Qabs (float_value f - q)) ((1 # 2 ^ 24) * Qabs q).

(** The calls the handlers [hs] receive for the readings [rs], in order. *)
Definition calls (hs : list wmr_handler) (rs : list wmr_reading) : list event :=
  flat_map (fun r => map (fun hd => Invoke hd r) hs) rs.

(** [n] consecutive integers from [i]. *)
Definition Zseq (i : Z) (n : nat) : list Z :=
  map (fun k => i + Z.of_nat k) (seq 0 n).

Definition count_events (f : event -> bool) (l : list event) : nat :=
  length (filter f l).

Definition is_warning (e : event) : bool :=
  match e with
  | Log Warning _ _ => true
  | _ => false
  end.

Definition is_call_of (ty : Z) (e : event) : bool :=
  match e with
  | Invoke _ r => type r =? ty
  | _ => false
  end.

(** A decoder leaves the buffer, the handlers and the number of
    temperature slots as they are. *)
Definition same_session (w w' : wmr200) : Prop :=
  packet w' = packet w /\
  handler w' = handler w /\
  length (latest_temp (latest w')) = length (latest_temp (latest w)).

(** [c] decodes the reading [r] in [w]: it returns, having delivered [r]
    and nothing else. *)
Definition decodes (c : M unit) (r : wmr_reading) (w w' : wmr200) : Prop :=
  c w = (Val tt, w') /\
  same_session w w' /\
  out w' = out w ++ calls (handler w) [r].

(** What a slot may hold after an operation, given what it held before:
    the same reading, or one whose timestamp is not older. *)
Definition kept_or_newer (old new : wmr_reading) : Prop :=
  new = old \/ time new >= time old.

Definition store_kept_or_newer (l l' : wmr_latest_data) : Prop :=
  kept_or_newer (latest_wind l) (latest_wind l') /\
  kept_or_newer (latest_rain l) (latest_rain l') /\
  kept_or_newer (latest_uvi l) (latest_uvi l') /\
  kept_or_newer (latest_baro l) (latest_baro l') /\
  Forall2 kept_or_newer (latest_temp l) (latest_temp l') /\
  kept_or_newer (latest_status l) (latest_status l') /\
  kept_or_newer (latest_meta l) (latest_meta l').

(** However [c] ends, the store it leaves is the one it found, up to
    slots overwritten by readings that were not older. *)
Definition keeps_store_order {A} (c : M A) : Prop :=
  forall w : wmr200, store_kept_or_newer (latest w) (latest (snd (c w))).

(** The value of a byte of the command-marker range. *)
Definition is_packet_type_mark (len : Z) : Prop := 0xD0 <= len <= 0xDF.

(* ================================================================= *)
(** * Example data *)

(** Frames of eight bytes (the size of wmr_open's wake-up frame), two
    temperature sensors, and the packet types of the WMR200 protocol. *)
Definition example_header : header :=
  {| WMR200_FRAME_SIZE := 8;
     WMR200_MAX_TEMP_SENSORS := 2;
     WMR_WIND := 0xD3;
     WMR_RAIN := 0xD4;
     WMR_UVI := 0xD5;
     WMR_BARO := 0xD6;
     WMR_TEMP := 0xD7;
     WMR_STATUS := 0xD9;
     WMR_META := 0xFF |}.

(** A time zone without offsets and with months of 31 days; a clock that
    starts at 1000 and advances by one second per call; writes succeed. *)
Definition example_libc : libc :=
  {| mktime := fun t =>
       ((((tm_year t * 12 + tm_mon t) * 31 + tm_mday t) * 24 + tm_hour t) * 60
        + tm_min t) * 60 + tm_sec t;
     time_NULL := fun n => 1000 + Z.of_nat n;
     hid_write_ret := fun _ => 8 |}.

(** A wall clock that is set back by a minute after its third reading. *)
Definition libc_clock_set_back : libc :=
  {| mktime := mktime example_libc;
     time_NULL := fun n => if (n <? 3)%nat then 1000 else 940;
     hid_write_ret := fun _ => 8 |}.

(** The packet of type [ty] around [payload]: type, length, payload and
    the little-endian sum of all of these. *)
Definition framed (ty : Z) (payload : list Z) : list Z :=
  let len := Z.of_nat (length payload) + 4 in
  let body := ty :: len :: payload in
  let sum := fold_right Z.add 0 body in
  body ++ [sum mod 256; sum / 256].

(** A session with one handler, holding the received packet [p]. *)
Definition example_session (p : list Z) : wmr200 :=
  set_packet_len (Z.of_nat (length p))
    (set_packet (map to_uchar p)
       (set_handler [{| handler_fn := 1; arg := 0 |}]
          (wmr_opened example_header example_libc []))).

(** A session that has read the type byte 0xD3 and whose device will
    deliver the reports [reports] next. *)
Definition framer_session (reports : list (list Z)) : wmr200 :=
  set_packet_type 0xD3
    (set_handler [{| handler_fn := 1; arg := 0 |}]
       (wmr_opened example_header example_libc
          (map (fun r => Some (map to_uchar r)) reports))).

(** The reports that carry the bytes [l], seven to a report. *)
Fixpoint reports_of (fuel : nat) (l : list Z) : list (list Z) :=
  match fuel, l with
  | O, _ | _, [] => []
  | S fuel', _ =>
      let chunk := firstn 7 l in
      (Z.of_nat (length chunk) :: chunk ++ repeat 0 (7 - length chunk))
      :: reports_of fuel' (skipn 7 l)
  end.

(** A reading that arrives twice: UV index 3, stamped 750. *)
Definition uvi_reading_750 : wmr_reading :=
  {| type := 0xD5; time := 750; body := Uvi {| index := 3 |} |}.

(** A temperature packet of sensor 1: humidity 55, both temperature and
    dew point 12.3, the first below zero and the second above. *)
Definition temp_packet_12_3 : list Z :=
  framed 0xD7 [30; 12; 15; 6; 15; 0x01; 0x7B; 0x80; 55; 0x7B; 0x00; 0].

(** A wind packet: direction nibble 0, gust bytes 0x64 0x03 (86.8),
    average nibble 1, chill 5. *)
Definition wind_packet : list Z :=
  framed 0xD3 [30; 12; 15; 6; 15; 0x00; 0; 0x64; 0x03; 0x01; 5; 0].

(** A temperature packet of sensor 2. *)
Definition temp_packet_sensor_2 : list Z :=
  framed 0xD7 [30; 12; 15; 6; 15; 0x02; 0x7B; 0x00; 55; 0x7B; 0x00; 0].

(** A barometric packet whose byte 8 is 0x73: forecast nibble 7. *)
Definition baro_packet_forecast_7 : list Z :=
  framed 0xD6 [30; 12; 15; 6; 15; 0xF5; 0x73; 0xF5; 0x03].

(** Two status packets: every flag byte 0x00 in the first, 0xFF in the
    second. *)
Definition status_packet_clear : list Z :=
  framed 0xD9 [0x00; 0x00; 0x00; 0x00; 0x00].

Definition status_packet_set : list Z :=
  framed 0xD9 [0xFF; 0xFF; 0xFF; 0xFF; 0xFF].

(** A historic record: rain, wind, UV index 3, barometer with forecast
    nibble 2, a count byte of 200, the primary temperature record of
    sensor 0 and two external records, of sensor 1 and of sensor [id]. *)
Definition historic_packet (id : Z) : list Z :=
  framed 0xD2
    ([30; 12; 15; 6; 15]
     ++ [10; 0; 20; 0; 30; 0; 40; 0] ++ [0; 0; 0; 0; 0]
     ++ [0x04; 0; 0x64; 0x03; 0x01; 5; 0]
     ++ [0x03]
     ++ [0xF5; 0x23; 0xF5; 0x03]
     ++ [200]
     ++ [0x00; 0x7B; 0x00; 55; 0x32; 0x00; 0]
     ++ [0x01; 0x7B; 0x80; 60; 0x32; 0x80; 0]
     ++ [id; 0x10; 0x00; 40; 0x05; 0x00; 0]).

(* ================================================================= *)
(** * Vocabulary of the further properties *)

(** ** The frame reader *)

(** [n] successive calls of read_byte and the bytes they return. *)
Fixpoint read_bytes (h : header) (n : nat) : M (list uchar) :=
  match n with
  | O => ret []
  | S n' =>
      b <- read_byte h ;;
      bs <- read_bytes h n' ;;
      ret (b :: bs)
  end.

(** The bytes a report declares valid: as many as its first byte says,
    from its second byte on. *)
Definition payload_of (report : list uchar) : list uchar :=
  firstn (Z.to_nat (byte_at report 0)) (skipn 1 report).

(** A report of WMR200_FRAME_SIZE bytes whose count byte lies between 1
    and WMR200_FRAME_SIZE - 1; the bytes after the declared ones are
    anything. *)
Definition whole_frame (h : header) (report : list uchar) : Prop :=
  Z.of_nat (length report) = WMR200_FRAME_SIZE h /\
  1 <= byte_at report 0 <= WMR200_FRAME_SIZE h - 1.

(** The state after read_byte handed out the byte under the cursor. *)
Definition consumed (w : wmr200) : wmr200 :=
  set_buf_pos (uint (buf_pos w + 1))
    (set_buf_avail (uint (buf_avail w - 1))
       (set_meta (set_num_bytes (uint (num_bytes (meta w) + 1)) (meta w)) w)).

(** The state after read_byte took [report] from the device, which then
    still holds [rest], and set the cursor to its first byte. *)
Definition refilled (report : list uchar) (rest : list (option (list uchar)))
    (w : wmr200) : wmr200 :=
  let w1 := set_dev rest (set_buf (report ++ skipn (length report) (buf w)) w) in
  let w2 := set_meta (set_num_frames (uint (num_frames (meta w1) + 1)) (meta w1)) w1 in
  set_buf_pos 1 (set_buf_avail (byte_at (buf w2) 0) w2).

(** The state after read_byte found the device failing, the device then
    holding [rest]: the failure is logged, the buffer is as it was and
    the cursor is set to its first byte. *)
Definition read_failed (rest : list (option (list uchar))) (w : wmr200)
    : wmr200 :=
  let w1 := set_dev rest w in
  let w2 := set_meta (set_num_frames (uint (num_frames (meta w1) + 1)) (meta w1)) w1 in
  let w3 := set_out (out w2 ++ [Log Warning "Cannot read frame\n" []]) w2 in
  set_buf_pos 1 (set_buf_avail (byte_at (buf w3) 0) w3).

(** ** Handlers, the checksum and the log *)

(** wmr_add_handler for each callback and context of a list, in order,
    where a struct wmr_handler takes [size] bytes. *)
Fixpoint add_handlers (size : Z) (l : list (Z * Z)) : M unit :=
  match l with
  | [] => ret tt
  | (handler_, arg_) :: l' =>
      wmr_add_handler size handler_ arg_ ;; add_handlers size l'
  end.

(** [f] holds for each of the [fuel] integers from [n] on. *)
Fixpoint all_from (fuel : nat) (n : Z) (f : Z -> bool) : bool :=
  match fuel with
  | O => true
  | S fuel' => f n && all_from fuel' (n + 1) f
  end.

(** The handler record wmr_add_handler makes of a callback and its
    context. *)
Definition handler_of (x : Z * Z) : wmr_handler :=
  {| handler_fn := fst x; arg := snd x |}.

(** What verify_packet checks, as a property of the buffer. *)
Definition checksum_ok (p : list uchar) : bool :=
  let len := Z.of_nat (length p) in
  (2 <? len)
  && (byte_sum (firstn (Z.to_nat (len - 2)) p)
      =? 256 * byte_at p (len - 1) + byte_at p (len - 2)).

(** The session in which mainloop dispatches a verified packet: the
    packet is counted, one line is logged, the clock is read and its
    value recorded as the time of the latest packet. *)
Definition counted (env : libc) (w : wmr200) : wmr200 :=
  let w1 := set_meta (set_num_packets (uint (num_packets (meta w) + 1)) (meta w)) w in
  let w2 := set_out (out w1 ++ [Log Debug "Packet 0x%02X (%u bytes)"
                                    [packet_type w1; packet_len w1]]) w1 in
  let w3 := set_clock (S (clock w2)) w2 in
  set_meta (set_latest_packet (time_NULL env (clock w2)) (meta w3)) w3.

(** A piece of the program that neither reads nor writes the field
    behind the setter [set]: it runs the same whatever the field holds,
    and leaves it. *)
Definition ignores {X A} (set : X -> wmr200 -> wmr200) (c : M A) : Prop :=
  forall (x : X) (w : wmr200), c (set x w) = (fst (c w), set x (snd (c w))).

(** The log with the lines [o] put before it. *)
Definition log_before (o : list event) (w : wmr200) : wmr200 :=
  set_out (o ++ out w) w.

(** An event that is a line of the log. *)
Definition is_log (e : event) : bool :=
  match e with
  | Log _ _ _ => true
  | _ => false
  end.

(** ** Example data of the further properties *)

(** A full frame, and a frame that declares two bytes and carries
    leftovers after them. *)
Definition two_frames : list (list uchar) :=
  [map to_uchar [7; 0xD3; 0x10; 1; 2; 3; 4; 5];
   map to_uchar [2; 6; 7; 0xAA; 0xBB; 0xCC; 0xDD; 0xEE]].

(** A session whose device will deliver these two frames. *)
Definition two_frames_session : wmr200 :=
  wmr_opened example_header example_libc (map Some two_frames).

(** A session whose device will deliver a frame that declares no valid
    byte. *)
Definition empty_frame_session : wmr200 :=
  wmr_opened example_header example_libc
    [Some (map to_uchar [0; 1; 2; 3; 4; 5; 6; 7]); Some (map to_uchar [1; 9; 0; 0; 0; 0; 0; 0])].

(** A session that has used up a frame declaring the three bytes
    0xD3 0x10 0x01, with leftovers after them, and whose device fails the
    next read. *)
Definition failed_read_session : wmr200 :=
  set_buf (map to_uchar [3; 0xD3; 0x10; 1; 0xAA; 0xBB; 0xCC; 0xDD])
    (wmr_opened example_header example_libc [None]).

(** A status packet whose wind battery is low and whose rain sensor has
    failed. *)
Definition status_packet_flags : list Z :=
  framed 0xD9 [0x00; 0x10; 0x01; 0x00; 0x00].

(** A barometric packet: pressure 0x3F5, forecast nibble 2. *)
Definition baro_packet : list Z :=
  framed 0xD6 [30; 12; 15; 6; 15; 0xF5; 0x23; 0xF0; 0x03].

(** A rain packet. *)
Definition rain_packet : list Z :=
  framed 0xD4 [30; 12; 15; 6; 15; 10; 0; 20; 0; 30; 0; 0x34; 0x12; 0; 0; 0; 0; 0].

(** A session whose store holds a rain reading from the far future. *)
Definition late_rain_session : wmr200 :=
  set_latest
    (set_latest_rain {| type := 0xD4; time := 2 ^ 40; body := Zeroed |}
       (latest (example_session rain_packet)))
    (example_session rain_packet).

(** The shortest wind packet with a valid checksum: four bytes. *)
Definition wind_packet_short : list Z := framed 0xD3 [].

(** A wind packet whose last byte was corrupted. *)
Definition wind_packet_corrupted : list Z :=
  firstn 15 wind_packet ++ [0x7F].

(** The session at the top of the loop, with a wind packet waiting in
    reports of seven bytes. *)
Definition wind_frames_session : wmr200 :=
  framer_session (reports_of 3 wind_packet).

(** A historic record with a count byte of 1: the primary temperature
    record of sensor 0 and one external record, of sensor 1. *)
Definition historic_packet_one_sensor : list Z :=
  framed 0xD2
    ([30; 12; 15; 6; 15]
     ++ [10; 0; 20; 0; 30; 0; 40; 0] ++ [0; 0; 0; 0; 0]
     ++ [0x04; 0; 0x64; 0x03; 0x01; 5; 0]
     ++ [0x03]
     ++ [0xF5; 0x23; 0xF5; 0x03]
     ++ [1]
     ++ [0x00; 0x7B; 0x00; 55; 0x32; 0x00; 0]
     ++ [0x01; 0x7B; 0x80; 60; 0x32; 0x80; 0]).

(* ================================================================= *)
(** * Properties *)

(** ** Bytes, nibbles and bits *)

Lemma uc_range (b : uchar) : 0 <= uc b < 256.
Proof.
  unfold uc. pose proof (Byte.to_N_bounded b). lia.
Qed.

Lemma uint_small (z : Z) : 0 <= z < 2 ^ 32 -> uint z = z.
Proof.
  intros Hz. unfold uint, UINT_BITS. now apply Z.mod_small.
Qed.

Lemma LOW_mod (b : Z) : LOW b = b mod 16.
Proof.
  unfold LOW. change 0xF with (Z.ones 4). now rewrite Z.land_ones.
Qed.

Lemma HIGH_div (b : Z) : HIGH b = (b / 16) mod 16.
Proof.
  unfold HIGH. rewrite LOW_mod, Z.shiftr_div_pow2 by lia. reflexivity.
Qed.

Lemma NTH_BIT_div (n val : Z) : 0 <= n -> NTH_BIT n val = (val / 2 ^ n) mod 2.
Proof.
  intros Hn. unfold NTH_BIT. change 1 with (Z.ones 1).
  rewrite Z.land_ones, Z.shiftr_div_pow2 by lia. reflexivity.
Qed.

Lemma LOW_range (b : Z) : 0 <= LOW b < 16.
Proof.
  rewrite LOW_mod. apply Z.mod_pos_bound. lia.
Qed.

Lemma HIGH_range (b : Z) : 0 <= HIGH b < 16.
Proof.
  unfold HIGH. apply LOW_range.
Qed.

Lemma NTH_BIT_range (n val : Z) : 0 <= n -> 0 <= NTH_BIT n val < 2.
Proof.
  intros Hn. rewrite NTH_BIT_div by assumption. apply Z.mod_pos_bound. lia.
Qed.

(** A bit beyond the eighth of a promoted byte is 0. *)
Lemma NTH_BIT_beyond_byte (n : Z) (b : uchar) : 8 <= n -> NTH_BIT n (uc b) = 0.
Proof.
  intros Hn. rewrite NTH_BIT_div by lia.
  pose proof (uc_range b) as Hb.
  assert (H256 : 2 ^ 8 <= 2 ^ n) by (apply Z.pow_le_mono_r; lia).
  rewrite Z.div_small by (change (2 ^ 8) with 256 in H256; lia).
  reflexivity.
Qed.

(** ** Arrays and buffers *)

Lemma at_Z_Some {A} (l : list A) (i : Z) (d : A) :
  0 <= i < Z.of_nat (length l) -> at_Z l i = Some (nth (Z.to_nat i) l d).
Proof.
  intros Hi. unfold at_Z.
  destruct (Z.ltb_spec i 0) as [Hneg | _]; [lia |].
  apply nth_error_nth'. lia.
Qed.

Lemma at_Z_None {A} (l : list A) (i : Z) :
  i < 0 \/ Z.of_nat (length l) <= i -> at_Z l i = None.
Proof.
  intros Hi. unfold at_Z.
  destruct (Z.ltb_spec i 0) as [Hneg | Hpos]; [reflexivity |].
  apply nth_error_None. lia.
Qed.

Lemma at_Z_inv {A} (l : list A) (i : Z) (x : A) :
  at_Z l i = Some x -> 0 <= i < Z.of_nat (length l).
Proof.
  unfold at_Z. destruct (Z.ltb_spec i 0) as [Hneg | Hpos]; [discriminate |].
  intros Hx. assert (Hn : nth_error l (Z.to_nat i) <> None) by congruence.
  apply nth_error_Some in Hn. lia.
Qed.

Lemma upd_length {A} (l : list A) (n : nat) (x : A) :
  length (upd l n x) = length l.
Proof.
  revert n. induction l as [| a t IH]; intros [| n]; simpl; auto.
Qed.

Lemma upd_nth_same {A} (l : list A) (n : nat) (x d : A) :
  (n < length l)%nat -> nth n (upd l n x) d = x.
Proof.
  revert n. induction l as [| a t IH]; intros [| n] Hn; simpl in *;
    try lia; auto. apply IH. lia.
Qed.

Lemma upd_nth_other {A} (l : list A) (n m : nat) (x d : A) :
  n <> m -> nth m (upd l n x) d = nth m l d.
Proof.
  revert n m. induction l as [| a t IH]; intros [| n] [| m] Hnm; simpl;
    try congruence; auto.
Qed.

Lemma byte_sum_app (l1 l2 : list uchar) :
  byte_sum (l1 ++ l2) = byte_sum l1 + byte_sum l2.
Proof.
  induction l1 as [| b t IH]; simpl; [reflexivity | rewrite IH; lia].
Qed.

Lemma byte_sum_bound (l : list uchar) :
  0 <= byte_sum l <= 255 * Z.of_nat (length l).
Proof.
  induction l as [| b t IH]; simpl length; simpl byte_sum; [lia |].
  pose proof (uc_range b). lia.
Qed.

(** ** The monad *)

Lemma bind_Val {A B} (c : M A) (k : A -> M B) (w w' : wmr200) (a : A) :
  c w = (Val a, w') -> bind c k w = k a w'.
Proof.
  intros Hc. unfold bind. now rewrite Hc.
Qed.

Lemma bind_gets {A B} (f : wmr200 -> A) (k : A -> M B) (w : wmr200) :
  bind (gets f) k w = k (f w) w.
Proof. reflexivity. Qed.

Lemma bind_modify {B} (f : wmr200 -> wmr200) (k : unit -> M B) (w : wmr200) :
  bind (modify f) k w = k tt (f w).
Proof. reflexivity. Qed.

Lemma bind_ret {A B} (a : A) (k : A -> M B) (w : wmr200) :
  bind (ret a) k w = k a w.
Proof. reflexivity. Qed.

Lemma bind_emit {B} (e : event) (k : unit -> M B) (w : wmr200) :
  bind (emit e) k w = k tt (set_out (out w ++ [e]) w).
Proof. reflexivity. Qed.

Lemma bind_assoc {A B C} (c : M A) (k : A -> M B) (k' : B -> M C) (w : wmr200) :
  bind (bind c k) k' w = bind c (fun a => bind (k a) k') w.
Proof.
  unfold bind. destruct (c w) as [[a | code | |] w']; reflexivity.
Qed.

Lemma packet_at_in (w : wmr200) (i : Z) :
  0 <= i < Z.of_nat (length (packet w)) ->
  packet_at i w = (Val (byte_at (packet w) i), w).
Proof.
  intros Hi. unfold packet_at, bind, gets, elem. cbv beta iota.
  rewrite (at_Z_Some _ _ Byte.x00 Hi). reflexivity.
Qed.

Lemma packet_at_out (w : wmr200) (i : Z) :
  i < 0 \/ Z.of_nat (length (packet w)) <= i ->
  packet_at i w = (Undefined, w).
Proof.
  intros Hi. unfold packet_at, bind, gets, elem. cbv beta iota.
  rewrite (at_Z_None _ _ Hi). reflexivity.
Qed.

(* ================================================================= *)
(** ** update_if_newer *)

Lemma update_if_newer_newer (old new : wmr_reading) :
  time new >= time old -> update_if_newer old new = new.
Proof.
  intros Ht. unfold update_if_newer.
  destruct (Z.geb_spec (time new) (time old)); [reflexivity | lia].
Qed.

Lemma update_if_newer_older (old new : wmr_reading) :
  time new < time old -> update_if_newer old new = old.
Proof.
  intros Ht. unfold update_if_newer.
  destruct (Z.geb_spec (time new) (time old)); [lia | reflexivity].
Qed.

(** C3, as amended. After update_if_newer the slot holds the incoming
    reading if and only if T2 >= T1; it still holds the old reading if
    and only if T2 < T1 or the incoming reading is the very reading
    already stored. *)
Theorem update_if_newer_holds (old new : wmr_reading) :
  (update_if_newer old new = new <-> time new >= time old) /\
  (update_if_newer old new = old <-> time new < time old \/ new = old).
Proof.
  split; split.
  - intros Hnew. destruct (Z_lt_ge_dec (time new) (time old)) as [Hlt | Hge];
      [| exact Hge].
    rewrite (update_if_newer_older _ _ Hlt) in Hnew. subst old. lia.
  - apply update_if_newer_newer.
  - intros Hold. destruct (Z_lt_ge_dec (time new) (time old)) as [Hlt | Hge];
      [now left | right].
    now rewrite (update_if_newer_newer _ _ Hge) in Hold.
  - intros [Hlt | Heq].
    + now apply update_if_newer_older.
    + subst new. apply update_if_newer_newer. lia.
Qed.

(** C3, as stated, fails when the incoming reading equals the stored one:
    T2 >= T1 and the slot ends as it began. *)
Lemma update_if_newer_same_reading :
  ~ (update_if_newer uvi_reading_750 uvi_reading_750 = uvi_reading_750 <->
     time uvi_reading_750 < time uvi_reading_750).
Proof.
  intros [Hunchanged _].
  assert (Hlt : time uvi_reading_750 < time uvi_reading_750)
    by (apply Hunchanged; reflexivity).
  lia.
Qed.

(* ================================================================= *)
(** ** verify_packet *)

Lemma skipn_nth_cons {A} (l : list A) (n : nat) (d : A) :
  (n < length l)%nat -> skipn n l = nth n l d :: skipn (S n) l.
Proof.
  revert n. induction l as [| a t IH]; intros [| n] Hn; simpl in *;
    try lia; auto. apply IH. lia.
Qed.

Lemma verify_packet_sum_spec (n : nat) :
  forall (i sum : Z) (w : wmr200),
    0 <= i ->
    i + Z.of_nat n <= Z.of_nat (length (packet w)) ->
    i + Z.of_nat n < 2 ^ 32 ->
    0 <= sum ->
    sum + 255 * Z.of_nat n < 2 ^ 32 ->
    verify_packet_sum n i sum w =
    (Val (sum + byte_sum (firstn n (skipn (Z.to_nat i) (packet w)))), w).
Proof.
  induction n as [| n IH]; intros i sum w Hi Hlen Hi32 Hsum Hsum32.
  - simpl. unfold ret. now rewrite Z.add_0_r.
  - cbn [verify_packet_sum].
    assert (Hin : 0 <= i < Z.of_nat (length (packet w))) by lia.
    rewrite (bind_Val _ _ _ _ _ (packet_at_in w i Hin)).
    pose proof (uc_range (nth (Z.to_nat i) (packet w) Byte.x00)) as Hb.
    fold (byte_at (packet w) i) in Hb.
    rewrite (uint_small (i + 1)) by lia.
    rewrite (uint_small (sum + byte_at (packet w) i)) by lia.
    rewrite IH by lia.
    rewrite (skipn_nth_cons (packet w) (Z.to_nat i) Byte.x00) by lia.
    replace (Z.to_nat (i + 1)) with (S (Z.to_nat i)) by lia.
    cbn [firstn]. unfold byte_at.
    change (byte_sum (?b :: ?t)) with (uc b + byte_sum t).
    now rewrite Z.add_assoc.
Qed.

(** C2. For a packet buffer of [packet_len] bytes (below 2^24, which
    every length read from the wire is), verify_packet returns 0 (valid)
    if and only if [packet_len > 2] and the plain sum of the bytes
    [0 .. packet_len-3] equals the little-endian value of the last two
    bytes; so it returns non-zero whenever [packet_len <= 2]. *)
Theorem verify_packet_iff (w : wmr200) :
  Z.of_nat (length (packet w)) = packet_len w ->
  packet_len w < 2 ^ 24 ->
  exists v : Z,
    verify_packet w = (Val v, w) /\
    (v = 0 <->
     packet_len w > 2 /\
     byte_sum (firstn (Z.to_nat (packet_len w - 2)) (packet w)) =
     byte_at (packet w) (packet_len w - 2)
     + 256 * byte_at (packet w) (packet_len w - 1)).
Proof.
  intros Hbuf Hsmall. unfold verify_packet. rewrite bind_gets.
  destruct (Z.leb_spec (packet_len w) 2) as [Hle | Hgt].
  - exists (uint (-1)). split; [reflexivity |].
    split; [intros Hv; vm_compute in Hv; discriminate | intros [Hgt _]; lia].
  - assert (H24 : 2 ^ 24 = 16777216) by reflexivity.
    assert (H32 : 2 ^ 32 = 4294967296) by reflexivity.
    rewrite (uint_small (packet_len w - 2)) by lia.
    rewrite (uint_small (packet_len w - 1)) by lia.
    pose proof (byte_sum_bound (firstn (Z.to_nat (packet_len w - 2)) (packet w)))
      as Hs.
    rewrite length_firstn in Hs.
    rewrite (bind_Val _ _ _ _ _
      (verify_packet_sum_spec (Z.to_nat (packet_len w - 2)) 0 0 w
         ltac:(lia) ltac:(lia) ltac:(lia) ltac:(lia) ltac:(lia))).
    rewrite (bind_Val _ _ _ _ _
      (packet_at_in w (packet_len w - 1) ltac:(lia))).
    rewrite (bind_Val _ _ _ _ _
      (packet_at_in w (packet_len w - 2) ltac:(lia))).
    change (Z.to_nat 0) with 0%nat. cbn [skipn].
    set (s := byte_sum (firstn (Z.to_nat (packet_len w - 2)) (packet w))) in *.
    set (lo := byte_at (packet w) (packet_len w - 2)).
    set (hi := byte_at (packet w) (packet_len w - 1)).
    assert (Hlo : 0 <= lo < 256) by apply uc_range.
    assert (Hhi : 0 <= hi < 256) by apply uc_range.
    rewrite (uint_small (256 * hi + lo)) by lia.
    rewrite Z.add_0_l.
    destruct (Z.eqb_spec s (256 * hi + lo)) as [Heq | Hne]; cbn [negb].
    + exists 0. split; [reflexivity |]. split; [intros _ | reflexivity].
      split; lia.
    + exists (uint (-1)). split; [reflexivity |].
      split; [intros Hv; vm_compute in Hv; discriminate | intros [_ Hs']; lia].
Qed.

(** The wind packet of the examples is valid. *)
Lemma verify_packet_iff_witness :
  verify_packet (example_session wind_packet) =
  (Val 0, example_session wind_packet).
Proof.
  destruct (verify_packet_iff (example_session wind_packet))
    as (v & Hrun & Hvalid).
  - vm_compute. reflexivity.
  - vm_compute. reflexivity.
  - rewrite Hrun.
    assert (Hv : v = 0) by (apply Hvalid; vm_compute; split; reflexivity).
    rewrite Hv. reflexivity.
Defined.

(* ================================================================= *)
(** ** What the decoders read and deliver *)

Lemma bind_data_at {B} (data i : Z) (k : Z -> M B) (w : wmr200) :
  0 <= data + i < Z.of_nat (length (packet w)) ->
  bind (data_at data i) k w = k (byte_at (packet w) (data + i)) w.
Proof.
  intros Hi. apply bind_Val. unfold data_at. now apply packet_at_in.
Qed.

Lemma bind_data_at_out {B} (data i : Z) (k : Z -> M B) (w : wmr200) :
  data + i < 0 \/ Z.of_nat (length (packet w)) <= data + i ->
  bind (data_at data i) k w = (Undefined, w).
Proof.
  intros Hi. unfold bind, data_at. now rewrite packet_at_out.
Qed.

Lemma bind_elem {A B} (l : list A) (i : Z) (d : A) (k : A -> M B) (w : wmr200) :
  0 <= i < Z.of_nat (length l) ->
  bind (elem l i) k w = k (nth (Z.to_nat i) l d) w.
Proof.
  intros Hi. unfold bind, elem. now rewrite (at_Z_Some l i d Hi).
Qed.

Lemma bind_elem_out {A B} (l : list A) (i : Z) (k : A -> M B) (w : wmr200) :
  i < 0 \/ Z.of_nat (length l) <= i ->
  bind (elem l i) k w = (Undefined, w).
Proof.
  intros Hi. unfold bind, elem. now rewrite (at_Z_None l i Hi).
Qed.

Lemma set_out_same (w : wmr200) : set_out (out w) w = w.
Proof. now destruct w. Qed.

Lemma invoke_list_spec (r : wmr_reading) (hs : list wmr_handler) :
  forall w : wmr200,
    invoke_list hs r w =
    (Val tt, set_out (out w ++ map (fun hd => Invoke hd r) hs) w).
Proof.
  induction hs as [| hd next IH]; intros w.
  - cbn [invoke_list map]. rewrite app_nil_r, set_out_same. reflexivity.
  - cbn [invoke_list map]. rewrite bind_emit, IH.
    cbn [out set_out]. rewrite <- app_assoc. reflexivity.
Qed.

Lemma invoke_handlers_spec (r : wmr_reading) (w : wmr200) :
  invoke_handlers r w = (Val tt, deliver r w).
Proof.
  unfold invoke_handlers. rewrite bind_gets. apply invoke_list_spec.
Qed.

Section Decoders.

Variable h : header.
Variable env : libc.

Lemma bind_get_reading_time {B} (k : time_t -> M B) (w : wmr200) :
  6 < Z.of_nat (length (packet w)) ->
  bind (get_reading_time_from_packet env) k w = k (reading_time env (packet w)) w.
Proof.
  intros Hlen. apply bind_Val. unfold get_reading_time_from_packet.
  rewrite (bind_Val _ _ _ _ _ (packet_at_in w 6 ltac:(lia))).
  rewrite (bind_Val _ _ _ _ _ (packet_at_in w 5 ltac:(lia))).
  rewrite (bind_Val _ _ _ _ _ (packet_at_in w 4 ltac:(lia))).
  rewrite (bind_Val _ _ _ _ _ (packet_at_in w 3 ltac:(lia))).
  rewrite (bind_Val _ _ _ _ _ (packet_at_in w 2 ltac:(lia))).
  reflexivity.
Qed.

Lemma bind_get_reading_time_out {B} (k : time_t -> M B) (w : wmr200) :
  Z.of_nat (length (packet w)) <= 6 ->
  bind (get_reading_time_from_packet env) k w = (Undefined, w).
Proof.
  intros Hlen. unfold bind at 1, get_reading_time_from_packet.
  unfold bind at 1. rewrite packet_at_out by lia. reflexivity.
Qed.

Lemma process_wind_data_spec (data : Z) (w : wmr200) :
  0 <= data ->
  data + 12 < Z.of_nat (length (packet w)) ->
  process_wind_data h env data w =
  (Val tt, commit_wind (wind_reading h env (packet w) data) w).
Proof.
  intros Hdata Hlen. unfold process_wind_data.
  rewrite (bind_data_at data 7) by lia.
  rewrite (bind_data_at data 10) by lia.
  rewrite (bind_data_at data 9) by lia.
  rewrite (bind_data_at data 11) by lia.
  rewrite (bind_data_at data 12) by lia.
  rewrite bind_get_reading_time by lia.
  pose proof (LOW_range (byte_at (packet w) (data + 7))) as Hdir.
  rewrite (uint_small (LOW _)) by lia.
  rewrite (bind_elem _ _ EmptyString) by (cbn [length WIND_DIR_STRING]; lia).
  rewrite bind_modify. apply invoke_handlers_spec.
Qed.

Lemma process_rain_data_spec (data : Z) (w : wmr200) :
  0 <= data ->
  data + 14 < Z.of_nat (length (packet w)) ->
  process_rain_data h env data w =
  (Val tt, commit_rain (rain_reading h env (packet w) data) w).
Proof.
  intros Hdata Hlen. unfold process_rain_data.
  rewrite (bind_data_at data 8) by lia.
  rewrite (bind_data_at data 7) by lia.
  rewrite (bind_data_at data 10) by lia.
  rewrite (bind_data_at data 9) by lia.
  rewrite (bind_data_at data 12) by lia.
  rewrite (bind_data_at data 11) by lia.
  rewrite (bind_data_at data 14) by lia.
  rewrite (bind_data_at data 13) by lia.
  rewrite bind_get_reading_time by lia.
  rewrite bind_modify. apply invoke_handlers_spec.
Qed.

Lemma process_uvi_data_spec (data : Z) (w : wmr200) :
  0 <= data ->
  data + 7 < Z.of_nat (length (packet w)) ->
  process_uvi_data h env data w =
  (Val tt, commit_uvi (uvi_reading h env (packet w) data) w).
Proof.
  intros Hdata Hlen. unfold process_uvi_data.
  rewrite (bind_data_at data 7) by lia.
  rewrite bind_get_reading_time by lia.
  pose proof (LOW_range (byte_at (packet w) (data + 7))) as Hlow.
  rewrite (uint_small (LOW _)) by lia.
  rewrite bind_modify. apply invoke_handlers_spec.
Qed.

Lemma process_baro_data_spec (data : Z) (w : wmr200) :
  0 <= data ->
  data + 10 < Z.of_nat (length (packet w)) ->
  HIGH (byte_at (packet w) (data + 8)) < 7 ->
  process_baro_data h env data w =
  (Val tt, commit_baro (baro_reading h env (packet w) data) w).
Proof.
  intros Hdata Hlen Hflag. unfold process_baro_data.
  rewrite (bind_data_at data 8) by lia.
  rewrite (bind_data_at data 7) by lia.
  rewrite (bind_data_at data 10) by lia.
  rewrite (bind_data_at data 9) by lia.
  rewrite bind_get_reading_time by lia.
  pose proof (HIGH_range (byte_at (packet w) (data + 8))) as Hhigh.
  pose proof (LOW_range (byte_at (packet w) (data + 8))) as Hl8.
  pose proof (LOW_range (byte_at (packet w) (data + 10))) as Hl10.
  pose proof (uc_range (nth (Z.to_nat (data + 7)) (packet w) Byte.x00)) as H7.
  pose proof (uc_range (nth (Z.to_nat (data + 9)) (packet w) Byte.x00)) as H9.
  fold (byte_at (packet w) (data + 7)) in H7.
  fold (byte_at (packet w) (data + 9)) in H9.
  rewrite (uint_small (HIGH _)) by lia.
  rewrite (uint_small (256 * LOW (byte_at (packet w) (data + 8)) + _)) by lia.
  rewrite (uint_small (256 * LOW (byte_at (packet w) (data + 10)) + _)) by lia.
  rewrite (bind_elem _ _ EmptyString) by (cbn [length FORECAST_STRING]; lia).
  rewrite bind_modify. apply invoke_handlers_spec.
Qed.

(** A forecast nibble of 7 or more indexes FORECAST_STRING past its end. *)
Lemma process_baro_data_overrun (data : Z) (w : wmr200) :
  0 <= data ->
  data + 10 < Z.of_nat (length (packet w)) ->
  7 <= HIGH (byte_at (packet w) (data + 8)) ->
  process_baro_data h env data w = (Undefined, w).
Proof.
  intros Hdata Hlen Hflag. unfold process_baro_data.
  rewrite (bind_data_at data 8) by lia.
  rewrite (bind_data_at data 7) by lia.
  rewrite (bind_data_at data 10) by lia.
  rewrite (bind_data_at data 9) by lia.
  rewrite bind_get_reading_time by lia.
  pose proof (HIGH_range (byte_at (packet w) (data + 8))) as Hhigh.
  rewrite (uint_small (HIGH _)) by lia.
  apply bind_elem_out. cbn [length FORECAST_STRING]. lia.
Qed.

Lemma process_temp_data_spec (data : Z) (w : wmr200) :
  0 <= data ->
  data + 13 < Z.of_nat (length (packet w)) ->
  LOW (byte_at (packet w) (data + 7)) <= 1 ->
  LOW (byte_at (packet w) (data + 7))
    < Z.of_nat (length (latest_temp (latest w))) ->
  process_temp_data h env data w =
  (Val tt, commit_temp (LOW (byte_at (packet w) (data + 7)))
                       (temp_reading h env (packet w) data) w).
Proof.
  intros Hdata Hlen Hid Hslot. unfold process_temp_data.
  rewrite (bind_data_at data 7) by lia.
  destruct (Z.gtb_spec (LOW (byte_at (packet w) (data + 7))) 1) as [Hgt | _];
    [lia |].
  unfold when. rewrite bind_ret.
  rewrite (bind_data_at data 10) by lia.
  rewrite (bind_data_at data 13) by lia.
  rewrite (bind_data_at data 9) by lia.
  rewrite (bind_data_at data 8) by lia.
  rewrite (bind_data_at data 12) by lia.
  rewrite (bind_data_at data 11) by lia.
  rewrite bind_get_reading_time by lia.
  rewrite bind_gets.
  pose proof (LOW_range (byte_at (packet w) (data + 7))) as Hlow.
  rewrite (bind_elem _ _ zero_reading) by lia.
  rewrite bind_modify.
  pose proof (uc_range (nth (Z.to_nat (data + 10)) (packet w) Byte.x00)) as H10.
  pose proof (uc_range (nth (Z.to_nat (data + 13)) (packet w) Byte.x00)) as H13.
  fold (byte_at (packet w) (data + 10)) in H10.
  fold (byte_at (packet w) (data + 13)) in H13.
  rewrite (uint_small (byte_at (packet w) (data + 10))) by lia.
  rewrite (uint_small (byte_at (packet w) (data + 13))) by lia.
  apply invoke_handlers_spec.
Qed.

(** An unknown sensor ends the process before anything is decoded. *)
Lemma process_temp_data_unknown (data : Z) (w : wmr200) :
  0 <= data + 7 < Z.of_nat (length (packet w)) ->
  LOW (byte_at (packet w) (data + 7)) > 1 ->
  process_temp_data h env data w =
  (Exited 1,
   set_out (out w ++ [Stderr "Unknown sensor, ID: %i\n"
                        [LOW (byte_at (packet w) (data + 7))]]) w).
Proof.
  intros Hlen Hid. unfold process_temp_data.
  rewrite (bind_data_at data 7) by lia.
  destruct (Z.gtb_spec (LOW (byte_at (packet w) (data + 7))) 1) as [_ | Hle];
    [| lia].
  reflexivity.
Qed.

Lemma bind_level_flag {B} (n val : Z) (k : string -> M B) (w : wmr200) :
  0 <= n ->
  bind (elem LEVEL_STRING (uint (NTH_BIT n val))) k w =
  k (nth (Z.to_nat (NTH_BIT n val)) LEVEL_STRING EmptyString) w.
Proof.
  intros Hn. pose proof (NTH_BIT_range n val Hn) as Hbit.
  rewrite uint_small by lia.
  apply bind_elem. cbn [length LEVEL_STRING]. lia.
Qed.

Lemma bind_status_flag {B} (n val : Z) (k : string -> M B) (w : wmr200) :
  0 <= n ->
  bind (elem STATUS_STRING (uint (NTH_BIT n val))) k w =
  k (nth (Z.to_nat (NTH_BIT n val)) STATUS_STRING EmptyString) w.
Proof.
  intros Hn. pose proof (NTH_BIT_range n val Hn) as Hbit.
  rewrite uint_small by lia.
  apply bind_elem. cbn [length STATUS_STRING]. lia.
Qed.

Lemma process_status_data_spec (data : Z) (w : wmr200) :
  0 <= data ->
  data + 5 < Z.of_nat (length (packet w)) ->
  6 < Z.of_nat (length (packet w)) ->
  process_status_data h env data w =
  (Val tt, commit_status (status_reading h env (packet w) data) w).
Proof.
  intros Hdata Hlen Htime. unfold process_status_data.
  rewrite (bind_data_at data 4) by lia.
  rewrite (bind_data_at data 5) by lia.
  rewrite (bind_data_at data 2) by lia.
  rewrite (bind_data_at data 3) by lia.
  rewrite bind_get_reading_time by lia.
  do 4 (rewrite bind_level_flag by lia).
  do 4 (rewrite bind_status_flag by lia).
  rewrite bind_level_flag by lia.
  rewrite bind_modify. apply invoke_handlers_spec.
Qed.

End Decoders.

(* ================================================================= *)
(** ** Temperature: sign and magnitude *)

Lemma float_12_3_nearest :
  (Qabs (float_value float_12_3 - (123 # 10)) <= (1 # 2 ^ 24) * (123 # 10))%Q.
Proof.
  apply Qle_bool_iff. vm_compute. reflexivity.
Qed.







(* ================================================================= *)
(** ** Wind *)

Lemma float_rounds_b_true (f : float) (q : Q) :
  float_rounds_b f q = true -> float_rounds f q.
Proof.
  unfold float_rounds_b, float_rounds. apply Qle_bool_iff.
Qed.

Lemma Z_range_in_seq (n bound : Z) :
  0 <= n < bound -> In n (map Z.of_nat (seq 0 (Z.to_nat bound))).
Proof.
  intros Hn. apply in_map_iff. exists (Z.to_nat n).
  split; [lia | apply in_seq; lia].
Qed.

(** Every twelve-bit count of tenths is divided by ten as exactly as a
    float allows: checked for each of the 4096 values. *)
Lemma float_div10_rounds (n : Z) :
  0 <= n < 4096 -> float_rounds (float_div10 n) (n # 10).
Proof.
  intros Hn. apply float_rounds_b_true.
  assert (Hall : forallb (fun n => float_rounds_b (float_div10 n) (n # 10))
                   (map Z.of_nat (seq 0 (Z.to_nat 4096))) = true)
    by (vm_compute; reflexivity).
  rewrite forallb_forall in Hall. apply Hall. now apply Z_range_in_seq.
Qed.

(** A byte converts to float without rounding. *)
Lemma int_to_float_byte (n : Z) :
  0 <= n < 256 -> (float_value (int_to_float n) == inject_Z n)%Q.
Proof.
  intros Hn. apply Qeq_bool_iff.
  assert (Hall : forallb (fun n => Qeq_bool (float_value (int_to_float n))
                                            (inject_Z n))
                   (map Z.of_nat (seq 0 (Z.to_nat 256))) = true)
    by (vm_compute; reflexivity).
  rewrite forallb_forall in Hall. apply Hall. now apply Z_range_in_seq.
Qed.

(** C7. A wind packet decodes to: the entry of WIND_DIR_STRING at the
    low nibble of byte 7 ("N" for nibble 0); the gust speed
    (256 * low nibble of byte 10 + byte 9) / 10 and the average speed
    (16 * low nibble of byte 11 + high nibble of byte 10) / 10, each
    computed in double and rounded to float; and byte 12 itself as the
    wind chill. *)
Theorem process_wind_data_fields (h : header) (env : libc) (data : Z)
    (w : wmr200) :
  0 <= data ->
  data + 12 < Z.of_nat (length (packet w)) ->
  let b i := byte_at (packet w) (data + i) in
  exists x : wmr_wind,
    process_wind_data h env data w =
    (Val tt, commit_wind
               {| type := WMR_WIND h; time := reading_time env (packet w);
                  body := Wind x |} w) /\
    nth_error WIND_DIR_STRING (Z.to_nat (b 7 mod 16)) = Some (dir x) /\
    (b 7 mod 16 = 0 -> dir x = "N") /\
    gust_speed x = float_div10 (256 * (b 10 mod 16) + b 9) /\
    float_rounds (gust_speed x) ((256 * (b 10 mod 16) + b 9) # 10) /\
    avg_speed x = float_div10 (16 * (b 11 mod 16) + b 10 / 16) /\
    float_rounds (avg_speed x) ((16 * (b 11 mod 16) + b 10 / 16) # 10) /\
    chill x = int_to_float (b 12) /\
    (float_value (chill x) == inject_Z (b 12%Z))%Q.
Proof.
  intros Hdata Hlen b.
  rewrite (process_wind_data_spec h env data w Hdata Hlen).
  unfold wind_reading. eexists. split; [reflexivity |].
  cbn [dir gust_speed avg_speed chill]. fold (b 7) (b 9) (b 10) (b 11) (b 12).
  assert (Hb : forall i, 0 <= b i < 256) by (intros i; apply uc_range).
  pose proof (Hb 9) as H9. pose proof (Hb 10) as H10. pose proof (Hb 12) as H12.
  assert (Hhigh : HIGH (b 10) = b 10 / 16).
  { rewrite HIGH_div. apply Z.mod_small.
    split; [apply Z.div_pos | apply Z.div_lt_upper_bound]; lia. }
  rewrite !LOW_mod, Hhigh.
  pose proof (Z.mod_pos_bound (b 7) 16 ltac:(lia)) as H7m.
  pose proof (Z.mod_pos_bound (b 10) 16 ltac:(lia)) as H10m.
  pose proof (Z.mod_pos_bound (b 11) 16 ltac:(lia)) as H11m.
  assert (H10d : 0 <= b 10 / 16 < 16)
    by (split; [apply Z.div_pos | apply Z.div_lt_upper_bound]; lia).
  repeat split.
  - apply nth_error_nth'. cbn [length WIND_DIR_STRING]. lia.
  - intros ->. reflexivity.
  - apply float_div10_rounds. lia.
  - apply float_div10_rounds. lia.
  - now apply int_to_float_byte.
Qed.

Lemma process_wind_data_fields_witness :
  exists x : wmr_wind,
    process_wind_data example_header example_libc 0
      (example_session wind_packet) =
    (Val tt, commit_wind
               {| type := 0xD3;
                  time := reading_time example_libc (map to_uchar wind_packet);
                  body := Wind x |} (example_session wind_packet)) /\
    dir x = "N" /\
    gust_speed x = float_div10 868 /\
    avg_speed x = float_div10 16 /\
    chill x = int_to_float 5.
Proof.
  destruct (process_wind_data_fields example_header example_libc 0
              (example_session wind_packet))
    as (x & Hrun & _ & Hdir & Hgust & _ & Havg & _ & Hchill & _).
  - lia.
  - vm_compute. reflexivity.
  - exists x. split; [exact Hrun |].
    split; [apply Hdir; vm_compute; reflexivity |].
    split; [exact Hgust |]. split; [exact Havg | exact Hchill].
Defined.

(* ================================================================= *)
(** ** Temperature: unknown sensors *)

(** C8. A temperature record whose sensor id (low nibble of byte 7) is
    greater than 1 ends the process with exit(1): the only thing done is
    the message on stderr; the store is as before and no handler is
    called. *)
Theorem process_temp_data_unknown_sensor (h : header) (env : libc)
    (data : Z) (w : wmr200) :
  0 <= data + 7 < Z.of_nat (length (packet w)) ->
  LOW (byte_at (packet w) (data + 7)) > 1 ->
  exists w' : wmr200,
    process_temp_data h env data w = (Exited 1, w') /\
    latest w' = latest w /\
    out w' = out w ++ [Stderr "Unknown sensor, ID: %i\n"
                         [LOW (byte_at (packet w) (data + 7))]] /\
    (forall hd r, In (Invoke hd r) (out w') -> In (Invoke hd r) (out w)).
Proof.
  intros Hlen Hid.
  rewrite (process_temp_data_unknown h env data w Hlen Hid).
  eexists. split; [reflexivity |]. cbn [latest out set_out].
  repeat split. intros hd r Hin. apply in_app_or in Hin.
  destruct Hin as [Hin | [Hin | []]]; [exact Hin | discriminate].
Qed.

Lemma process_temp_data_unknown_sensor_witness :
  exists w' : wmr200,
    process_temp_data example_header example_libc 0
      (example_session temp_packet_sensor_2) = (Exited 1, w') /\
    latest w' = latest (example_session temp_packet_sensor_2) /\
    out w' = out (example_session temp_packet_sensor_2)
             ++ [Stderr "Unknown sensor, ID: %i\n" [2]] /\
    (forall hd r, In (Invoke hd r) (out w') ->
                  In (Invoke hd r) (out (example_session temp_packet_sensor_2))).
Proof.
  apply (process_temp_data_unknown_sensor example_header example_libc 0
           (example_session temp_packet_sensor_2)).
  - vm_compute. split; [discriminate | reflexivity].
  - vm_compute. reflexivity.
Defined.

(* ================================================================= *)
(** ** Barometer: the forecast table *)

(** C9 fails on the code. The forecast index is the high nibble of byte
    8, any of 0..15; FORECAST_STRING has 7 entries. At byte 8 = 0x73 the
    index is 7, there is no such entry, and process_baro_data reads past
    the end of the table. *)
Theorem process_baro_data_forecast_7 :
  HIGH (byte_at (map to_uchar baro_packet_forecast_7) 8) = 7 /\
  at_Z FORECAST_STRING 7 = None /\
  process_baro_data example_header example_libc 0
    (example_session baro_packet_forecast_7) =
  (Undefined, example_session baro_packet_forecast_7).
Proof.
  repeat split.
Qed.

(* ================================================================= *)
(** ** Status: the RTC flag *)

(** C10. Whatever the bytes of a status packet, the reading's
    rtc_signal_level is "ok": the flag is bit 8 of the promoted byte 4,
    which is 0. So the readings of any two status packets agree on it. *)
Theorem process_status_data_rtc_ok (h : header) (env : libc)
    (data1 data2 : Z) (w1 w2 : wmr200) :
  0 <= data1 ->
  data1 + 5 < Z.of_nat (length (packet w1)) ->
  6 < Z.of_nat (length (packet w1)) ->
  0 <= data2 ->
  data2 + 5 < Z.of_nat (length (packet w2)) ->
  6 < Z.of_nat (length (packet w2)) ->
  exists x1 x2 : wmr_status,
    process_status_data h env data1 w1 =
    (Val tt, commit_status
               {| type := WMR_STATUS h; time := reading_time env (packet w1);
                  body := Status x1 |} w1) /\
    process_status_data h env data2 w2 =
    (Val tt, commit_status
               {| type := WMR_STATUS h; time := reading_time env (packet w2);
                  body := Status x2 |} w2) /\
    rtc_signal_level x1 = "ok" /\
    rtc_signal_level x2 = "ok" /\
    rtc_signal_level x1 = rtc_signal_level x2.
Proof.
  intros Hd1 Hl1 Ht1 Hd2 Hl2 Ht2.
  rewrite (process_status_data_spec h env data1 w1 Hd1 Hl1 Ht1).
  rewrite (process_status_data_spec h env data2 w2 Hd2 Hl2 Ht2).
  unfold status_reading. do 2 eexists.
  split; [reflexivity |]. split; [reflexivity |].
  cbn [rtc_signal_level]. unfold byte_at.
  rewrite !NTH_BIT_beyond_byte by lia.
  repeat split.
Qed.

Lemma process_status_data_rtc_ok_witness :
  exists x1 x2 : wmr_status,
    process_status_data example_header example_libc 0
      (example_session status_packet_clear) =
    (Val tt, commit_status
               {| type := 0xD9;
                  time := reading_time example_libc (map to_uchar status_packet_clear);
                  body := Status x1 |} (example_session status_packet_clear)) /\
    process_status_data example_header example_libc 0
      (example_session status_packet_set) =
    (Val tt, commit_status
               {| type := 0xD9;
                  time := reading_time example_libc (map to_uchar status_packet_set);
                  body := Status x2 |} (example_session status_packet_set)) /\
    rtc_signal_level x1 = "ok" /\
    rtc_signal_level x2 = "ok" /\
    rtc_signal_level x1 = rtc_signal_level x2.
Proof.
  apply (process_status_data_rtc_ok example_header example_libc 0 0
           (example_session status_packet_clear)
           (example_session status_packet_set)).
  - lia.
  - vm_compute. reflexivity.
  - vm_compute. reflexivity.
  - lia.
  - vm_compute. reflexivity.
  - vm_compute. reflexivity.
Defined.

(* ================================================================= *)
(** ** Historic records *)

Lemma same_session_refl (w : wmr200) : same_session w w.
Proof. repeat split. Qed.

Lemma same_session_trans (w1 w2 w3 : wmr200) :
  same_session w1 w2 -> same_session w2 w3 -> same_session w1 w3.
Proof.
  intros (Hp & Hh & Hl) (Hp' & Hh' & Hl'). repeat split; congruence.
Qed.

Lemma calls_one (hs : list wmr_handler) (r : wmr_reading) :
  calls hs [r] = map (fun hd => Invoke hd r) hs.
Proof. unfold calls. cbn [flat_map]. apply app_nil_r. Qed.

Lemma calls_app (hs : list wmr_handler) (rs rs' : list wmr_reading) :
  calls hs (rs ++ rs') = calls hs rs ++ calls hs rs'.
Proof. unfold calls. apply flat_map_app. Qed.

Section Historic.

Variable h : header.
Variable env : libc.

Lemma decodes_rain (data : Z) (w : wmr200) :
  0 <= data ->
  data + 14 < Z.of_nat (length (packet w)) ->
  exists w', decodes (process_rain_data h env data)
                     (rain_reading h env (packet w) data) w w'.
Proof.
  intros Hdata Hlen. eexists. split; [now apply process_rain_data_spec |].
  split; [repeat split |]. rewrite calls_one. reflexivity.
Qed.

Lemma decodes_wind (data : Z) (w : wmr200) :
  0 <= data ->
  data + 12 < Z.of_nat (length (packet w)) ->
  exists w', decodes (process_wind_data h env data)
                     (wind_reading h env (packet w) data) w w'.
Proof.
  intros Hdata Hlen. eexists. split; [now apply process_wind_data_spec |].
  split; [repeat split |]. rewrite calls_one. reflexivity.
Qed.

Lemma decodes_uvi (data : Z) (w : wmr200) :
  0 <= data ->
  data + 7 < Z.of_nat (length (packet w)) ->
  exists w', decodes (process_uvi_data h env data)
                     (uvi_reading h env (packet w) data) w w'.
Proof.
  intros Hdata Hlen. eexists. split; [now apply process_uvi_data_spec |].
  split; [repeat split |]. rewrite calls_one. reflexivity.
Qed.

Lemma decodes_baro (data : Z) (w : wmr200) :
  0 <= data ->
  data + 10 < Z.of_nat (length (packet w)) ->
  HIGH (byte_at (packet w) (data + 8)) < 7 ->
  exists w', decodes (process_baro_data h env data)
                     (baro_reading h env (packet w) data) w w'.
Proof.
  intros Hdata Hlen Hflag. eexists.
  split; [now apply process_baro_data_spec |].
  split; [repeat split |]. rewrite calls_one. reflexivity.
Qed.

Lemma decodes_temp (data : Z) (w : wmr200) :
  0 <= data ->
  data + 13 < Z.of_nat (length (packet w)) ->
  LOW (byte_at (packet w) (data + 7)) <= 1 ->
  (2 <= length (latest_temp (latest w)))%nat ->
  exists w', decodes (process_temp_data h env data)
                     (temp_reading h env (packet w) data) w w'.
Proof.
  intros Hdata Hlen Hid Hslots. eexists.
  split; [apply process_temp_data_spec; lia |].
  split; [| rewrite calls_one; reflexivity].
  repeat split. cbn [commit_temp deliver latest set_out set_latest
                     latest_temp set_latest_temp].
  apply upd_length.
Qed.

(** The loop over the external sensors: [n] records from the [i]-th. *)
Lemma for_loop_temp (data : Z) (n : nat) :
  forall (i : Z) (w : wmr200),
    0 <= data -> 0 <= i ->
    data + 39 + 7 * (i + Z.of_nat n) < Z.of_nat (length (packet w)) ->
    (forall j, i <= j < i + Z.of_nat n ->
               LOW (byte_at (packet w) (data + 33 + 7 * j + 7)) <= 1) ->
    (2 <= length (latest_temp (latest w)))%nat ->
    exists w',
      for_loop n i (fun j => process_temp_data h env (data + 33 + 7 * j)) w
      = (Val tt, w') /\
      same_session w w' /\
      out w' = out w ++ calls (handler w)
        (map (fun j => temp_reading h env (packet w) (data + 33 + 7 * j))
             (Zseq i n)).
Proof.
  induction n as [| n IH]; intros i w Hdata Hi Hlen Hids Hslots.
  - exists w. split; [reflexivity |]. split; [apply same_session_refl |].
    cbn. now rewrite app_nil_r.
  - destruct (decodes_temp (data + 33 + 7 * i) w) as (w1 & Hrun & Hsame & Hout);
      [lia | lia | apply Hids; lia | exact Hslots |].
    destruct Hsame as (Hp & Hh & Hl).
    destruct (IH (i + 1) w1) as (w2 & Hrun2 & Hsame2 & Hout2);
      [lia | lia | rewrite Hp; lia | | lia |].
    { intros j Hj. rewrite Hp. apply Hids. lia. }
    exists w2. split; [| split].
    + cbn [for_loop]. rewrite (bind_Val _ _ _ _ _ Hrun). exact Hrun2.
    + apply (same_session_trans w w1 w2); [repeat split; assumption | exact Hsame2].
    + rewrite Hout2, Hout, Hh, Hp, <- app_assoc, <- calls_app. do 2 f_equal.
      unfold Zseq. cbn [seq map app]. f_equal; [do 2 f_equal; lia |].
      rewrite <- seq_shift, !map_map. apply map_ext. intros k.
      do 2 f_equal. lia.
Qed.

(** The same loop when the record after [k] readable ones is of an
    unknown sensor: the process exits there, [k] readings delivered. *)
Lemma for_loop_temp_exit (data : Z) (k m : nat) :
  forall (i : Z) (w : wmr200),
    0 <= data -> 0 <= i ->
    data + 40 + 7 * (i + Z.of_nat k) < Z.of_nat (length (packet w)) ->
    (forall j, i <= j < i + Z.of_nat k ->
               LOW (byte_at (packet w) (data + 33 + 7 * j + 7)) <= 1) ->
    LOW (byte_at (packet w) (data + 33 + 7 * (i + Z.of_nat k) + 7)) > 1 ->
    (2 <= length (latest_temp (latest w)))%nat ->
    exists w',
      for_loop (k + S m) i (fun j => process_temp_data h env (data + 33 + 7 * j)) w
      = (Exited 1, w') /\
      out w' = out w
        ++ calls (handler w)
             (map (fun j => temp_reading h env (packet w) (data + 33 + 7 * j))
                  (Zseq i k))
        ++ [Stderr "Unknown sensor, ID: %i\n"
              [LOW (byte_at (packet w) (data + 33 + 7 * (i + Z.of_nat k) + 7))]].
Proof.
  induction k as [| k IH]; intros i w Hdata Hi Hlen Hids Hbad Hslots.
  - eexists. cbn [Nat.add for_loop]. unfold bind at 1.
    rewrite Z.add_0_r in *.
    rewrite process_temp_data_unknown by lia.
    split; [reflexivity |]. cbn [out set_out Zseq seq map calls flat_map app].
    reflexivity.
  - destruct (decodes_temp (data + 33 + 7 * i) w) as (w1 & Hrun & Hsame & Hout);
      [lia | lia | apply Hids; lia | exact Hslots |].
    destruct Hsame as (Hp & Hh & Hl).
    destruct (IH (i + 1) w1) as (w2 & Hrun2 & Hout2);
      [lia | lia | rewrite Hp; lia | | | lia |].
    { intros j Hj. rewrite Hp. apply Hids. lia. }
    { rewrite Hp. replace (i + 1 + Z.of_nat k) with (i + Z.of_nat (S k)) by lia.
      exact Hbad. }
    exists w2. split.
    + cbn [Nat.add for_loop]. rewrite (bind_Val _ _ _ _ _ Hrun). exact Hrun2.
    + rewrite Hout2, Hout, Hh, Hp, <- !app_assoc. f_equal.
      rewrite app_assoc, <- calls_app. f_equal.
      * f_equal. unfold Zseq. cbn [seq map app]. f_equal; [do 2 f_equal; lia |].
        rewrite <- seq_shift, !map_map. apply map_ext. intros j.
        do 2 f_equal. lia.
      * replace (i + 1 + Z.of_nat k) with (i + Z.of_nat (S k)) by lia.
        reflexivity.
Qed.

End Historic.

(** The first four records of a historic packet: rain, wind, UV index
    and barometer. *)
Ltac historic_head h env data w Hflag :=
  let Hrun := fresh "Hrun" in
  destruct (decodes_rain h env data w)
    as (?w1 & Hrun & (?Hp1 & ?Hh1 & ?Hl1) & ?Hout1); [lia | lia |];
  rewrite (bind_Val _ _ _ _ _ Hrun); clear Hrun;
  destruct (decodes_wind h env (data + 13) w1)
    as (?w2 & Hrun & (?Hp2 & ?Hh2 & ?Hl2) & ?Hout2); [lia | rewrite Hp1; lia |];
  rewrite (bind_Val _ _ _ _ _ Hrun); clear Hrun;
  destruct (decodes_uvi h env (data + 20) w2)
    as (?w3 & Hrun & (?Hp3 & ?Hh3 & ?Hl3) & ?Hout3);
    [lia | rewrite Hp2, Hp1; lia |];
  rewrite (bind_Val _ _ _ _ _ Hrun); clear Hrun;
  destruct (decodes_baro h env (data + 21) w3)
    as (?w4 & Hrun & (?Hp4 & ?Hh4 & ?Hl4) & ?Hout4);
    [lia | rewrite Hp3, Hp2, Hp1; lia | rewrite Hp3, Hp2, Hp1; exact Hflag |];
  rewrite (bind_Val _ _ _ _ _ Hrun); clear Hrun.

(** C6, as amended. A historic record whose external-sensor count byte
    (offset +32) exceeds WMR200_MAX_TEMP_SENSORS, whose buffer holds
    every record up to that maximum and whose forecast nibble is below 7,
    in a session whose store has the temperature slots 0 and 1.

    When the primary record and the first WMR200_MAX_TEMP_SENSORS
    external records carry a sensor id of 0 or 1, the decoder delivers
    the rain, wind, UV, barometric and primary temperature readings,
    logs one warning, and then delivers the temperature readings of
    exactly WMR200_MAX_TEMP_SENSORS external records, at stride 7 from
    offset +33, and nothing else.

    When one of these records carries a sensor id above 1, the process
    ends with exit(1) at the first such record: the readings of the
    records before it have been delivered - with the warning, when the
    record is an external one - and no later record is decoded. *)
Theorem process_historic_data_clamps (h : header) (env : libc) (data : Z)
    (w : wmr200) :
  let p := packet w in
  let max := WMR200_MAX_TEMP_SENSORS h in
  0 <= data ->
  0 <= max < 2 ^ 32 ->
  max < byte_at p (data + 32) ->
  data + 39 + 7 * max < Z.of_nat (length p) ->
  HIGH (byte_at p (data + 21 + 8)) < 7 ->
  (2 <= length (latest_temp (latest w)))%nat ->
  let run := process_historic_data h env data w in
  let id0 := LOW (byte_at p (data + 26 + 7)) in
  let id j := LOW (byte_at p (data + 33 + 7 * j + 7)) in
  let first :=
    [rain_reading h env p data; wind_reading h env p (data + 13);
     uvi_reading h env p (data + 20); baro_reading h env p (data + 21)] in
  let primary := temp_reading h env p (data + 26) in
  let external n :=
    map (fun j => temp_reading h env p (data + 33 + 7 * j)) (Zseq 0 n) in
  let warning :=
    Log Warning
      "process_historic_data: too many external sensors, skipping extraneous sensors"
      [] in
  let unknown i := Stderr "Unknown sensor, ID: %i\n" [i] in
  (id0 <= 1 ->
   (forall j, 0 <= j < max -> id j <= 1) ->
   exists w' : wmr200,
     run = (Val tt, w') /\
     out w' =
       out w ++ calls (handler w) (first ++ [primary]) ++ [warning]
             ++ calls (handler w) (external (Z.to_nat max)) /\
     Z.of_nat (length (external (Z.to_nat max))) = max) /\
  (forall k,
     id0 <= 1 ->
     0 <= k < max ->
     (forall j, 0 <= j < k -> id j <= 1) ->
     1 < id k ->
     exists w' : wmr200,
       run = (Exited 1, w') /\
       out w' =
         out w ++ calls (handler w) (first ++ [primary]) ++ [warning]
               ++ calls (handler w) (external (Z.to_nat k))
               ++ [unknown (id k)]) /\
  (1 < id0 ->
   exists w' : wmr200,
     run = (Exited 1, w') /\
     out w' = out w ++ calls (handler w) first ++ [unknown id0]).
Proof.
  intros p max Hdata Hmax Hcount Hlen Hflag Hslots run id0 id first primary
    external warning unknown.
  subst p max run id0 id first primary external warning unknown.
  pose proof (uc_range (nth (Z.to_nat (data + 32)) (packet w) Byte.x00)) as H32.
  fold (byte_at (packet w) (data + 32)) in H32.
  assert (Hcalls : forall a b c d l,
             calls (handler w) ([a; b; c; d] ++ l) =
             calls (handler w) [a] ++ calls (handler w) [b]
             ++ calls (handler w) [c] ++ calls (handler w) [d]
             ++ calls (handler w) l).
  { intros a b c d l.
    change ([a; b; c; d] ++ l) with ([a] ++ [b] ++ [c] ++ [d] ++ l).
    now rewrite !calls_app. }
  split; [| split].
  - (* every record is of a known sensor *)
    intros Hid0 Hids. unfold process_historic_data.
    historic_head h env data w Hflag.
    destruct (decodes_temp h env (data + 26) w4)
      as (w5 & Hrun5 & (Hp5 & Hh5 & Hl5) & Hout5);
      [lia | rewrite Hp4, Hp3, Hp2, Hp1; lia
       | rewrite Hp4, Hp3, Hp2, Hp1; exact Hid0 | lia |].
    rewrite (bind_Val _ _ _ _ _ Hrun5).
    assert (Hp : packet w5 = packet w) by congruence.
    assert (Hh : handler w5 = handler w) by congruence.
    rewrite (bind_data_at data 32) by (rewrite Hp; lia).
    rewrite Hp.
    rewrite (uint_small (byte_at (packet w) (data + 32))) by lia.
    rewrite (uint_small (WMR200_MAX_TEMP_SENSORS h)) by lia.
    destruct (Z.gtb_spec (byte_at (packet w) (data + 32))
                         (WMR200_MAX_TEMP_SENSORS h)) as [_ | Hle]; [| lia].
    unfold when, log_warning. rewrite bind_emit.
    unfold MIN.
    destruct (Z.ltb_spec (byte_at (packet w) (data + 32))
                         (WMR200_MAX_TEMP_SENSORS h)) as [Hlt | _]; [lia |].
    unfold for_lt. rewrite Z.sub_0_r.
    set (w6 := set_out _ w5).
    destruct (for_loop_temp h env data (Z.to_nat (WMR200_MAX_TEMP_SENSORS h)) 0 w6)
      as (w7 & Hrun7 & _ & Hout7).
    + lia.
    + lia.
    + subst w6. cbn [packet set_out]. rewrite Hp. lia.
    + intros j Hj. subst w6. cbn [packet set_out]. rewrite Hp. apply Hids. lia.
    + subst w6. cbn [latest set_out]. lia.
    + exists w7. split; [exact Hrun7 |]. split.
      * rewrite Hout7. subst w6. cbn [out handler packet set_out].
        rewrite Hout5, Hout4, Hout3, Hout2, Hout1.
        rewrite Hh, Hp, Hh4, Hh3, Hh2, Hh1, Hp4, Hp3, Hp2, Hp1.
        rewrite Hcalls, <- !app_assoc. reflexivity.
      * unfold Zseq. rewrite !length_map, length_seq. lia.
  - (* an external record of an unknown sensor *)
    intros k Hid0 Hk Hids Hbad. unfold process_historic_data.
    historic_head h env data w Hflag.
    destruct (decodes_temp h env (data + 26) w4)
      as (w5 & Hrun5 & (Hp5 & Hh5 & Hl5) & Hout5);
      [lia | rewrite Hp4, Hp3, Hp2, Hp1; lia
       | rewrite Hp4, Hp3, Hp2, Hp1; exact Hid0 | lia |].
    rewrite (bind_Val _ _ _ _ _ Hrun5).
    assert (Hp : packet w5 = packet w) by congruence.
    assert (Hh : handler w5 = handler w) by congruence.
    rewrite (bind_data_at data 32) by (rewrite Hp; lia).
    rewrite Hp.
    rewrite (uint_small (byte_at (packet w) (data + 32))) by lia.
    rewrite (uint_small (WMR200_MAX_TEMP_SENSORS h)) by lia.
    destruct (Z.gtb_spec (byte_at (packet w) (data + 32))
                         (WMR200_MAX_TEMP_SENSORS h)) as [_ | Hle]; [| lia].
    unfold when, log_warning. rewrite bind_emit.
    unfold MIN.
    destruct (Z.ltb_spec (byte_at (packet w) (data + 32))
                         (WMR200_MAX_TEMP_SENSORS h)) as [Hlt | _]; [lia |].
    unfold for_lt. rewrite Z.sub_0_r.
    set (w6 := set_out _ w5).
    replace (Z.to_nat (WMR200_MAX_TEMP_SENSORS h))
      with (Z.to_nat k + S (Z.to_nat (WMR200_MAX_TEMP_SENSORS h - k - 1)))%nat
      by lia.
    destruct (for_loop_temp_exit h env data (Z.to_nat k)
                (Z.to_nat (WMR200_MAX_TEMP_SENSORS h - k - 1)) 0 w6)
      as (w7 & Hrun7 & Hout7).
    + lia.
    + lia.
    + subst w6. cbn [packet set_out]. rewrite Hp. lia.
    + intros j Hj. subst w6. cbn [packet set_out]. rewrite Hp. apply Hids. lia.
    + subst w6. cbn [packet set_out]. rewrite Hp, Z.add_0_l, Z2Nat.id by lia. lia.
    + subst w6. cbn [latest set_out]. lia.
    + exists w7. split; [exact Hrun7 |].
      rewrite Hout7. subst w6. cbn [out handler packet set_out].
      rewrite Hout5, Hout4, Hout3, Hout2, Hout1.
      rewrite Hh, Hp, Hh4, Hh3, Hh2, Hh1, Hp4, Hp3, Hp2, Hp1.
      rewrite Z.add_0_l, Z2Nat.id by lia.
      rewrite Hcalls, <- !app_assoc. reflexivity.
  - (* the primary record is of an unknown sensor *)
    intros Hbad. unfold process_historic_data.
    historic_head h env data w Hflag.
    assert (Hp : packet w4 = packet w) by congruence.
    assert (Hh : handler w4 = handler w) by congruence.
    unfold bind at 1.
    rewrite process_temp_data_unknown by (rewrite Hp; lia).
    eexists. split; [reflexivity |].
    cbn [out set_out]. rewrite Hout4, Hout3, Hout2, Hout1.
    rewrite Hp, Hh3, Hh2, Hh1, Hp3, Hp2, Hp1.
    change [rain_reading h env (packet w) data;
            wind_reading h env (packet w) (data + 13);
            uvi_reading h env (packet w) (data + 20);
            baro_reading h env (packet w) (data + 21)]
      with ([rain_reading h env (packet w) data;
             wind_reading h env (packet w) (data + 13);
             uvi_reading h env (packet w) (data + 20);
             baro_reading h env (packet w) (data + 21)] ++ []).
    rewrite Hcalls, <- !app_assoc. cbn [calls flat_map app].
    reflexivity.
Qed.

Lemma process_historic_data_clamps_witness :
  exists w' : wmr200,
    process_historic_data example_header example_libc 0
      (example_session (historic_packet 1)) = (Val tt, w') /\
    count_events is_warning (out w') = 1%nat /\
    count_events (is_call_of 0xD7) (out w') = 3%nat.
Proof.
  destruct (process_historic_data_clamps example_header example_libc 0
              (example_session (historic_packet 1)))
    as [Hall _].
  - lia.
  - vm_compute. split; [discriminate | reflexivity].
  - vm_compute. reflexivity.
  - vm_compute. reflexivity.
  - vm_compute. reflexivity.
  - vm_compute. lia.
  - destruct Hall as (w' & Hrun & Hout & _).
    + vm_compute. discriminate.
    + intros j Hj. change (WMR200_MAX_TEMP_SENSORS example_header) with 2 in Hj.
      assert (Hcases : j = 0 \/ j = 1) by lia.
      destruct Hcases as [-> | ->]; vm_compute; discriminate.
    + exists w'. split; [exact Hrun |]. rewrite Hout.
      split; vm_compute; reflexivity.
Defined.

(** C6, as stated, fails when a record carries a sensor id above 1. With
    a count byte of 200, a maximum of 2 and the second external record of
    sensor 2, the process exits at that record: one external reading was
    delivered after the primary one, not two. *)
Lemma process_historic_data_unknown_sensor :
  let w := example_session (historic_packet 2) in
  let run := process_historic_data example_header example_libc 0 w in
  byte_at (packet w) 32 = 200 /\
  WMR200_MAX_TEMP_SENSORS example_header = 2 /\
  fst run = Exited 1 /\
  count_events is_warning (out (snd run)) = 1%nat /\
  count_events (is_call_of 0xD7) (out (snd run)) = 2%nat.
Proof.
  vm_compute. repeat split.
Qed.

(* ================================================================= *)
(** ** The store: slots are overwritten by newer readings only *)

Lemma kept_or_newer_refl (r : wmr_reading) : kept_or_newer r r.
Proof. now left. Qed.

Lemma kept_or_newer_trans (r1 r2 r3 : wmr_reading) :
  kept_or_newer r1 r2 -> kept_or_newer r2 r3 -> kept_or_newer r1 r3.
Proof.
  unfold kept_or_newer. intros [-> | H12] [-> | H23]; auto. right. lia.
Qed.

Lemma kept_or_newer_update (old new : wmr_reading) :
  kept_or_newer old (update_if_newer old new).
Proof.
  unfold kept_or_newer, update_if_newer.
  destruct (Z.geb_spec (time new) (time old)); [right; lia | now left].
Qed.

Lemma Forall2_kept_refl (l : list wmr_reading) : Forall2 kept_or_newer l l.
Proof.
  induction l; constructor; auto using kept_or_newer_refl.
Qed.

Lemma Forall2_kept_trans (l1 l2 l3 : list wmr_reading) :
  Forall2 kept_or_newer l1 l2 -> Forall2 kept_or_newer l2 l3 ->
  Forall2 kept_or_newer l1 l3.
Proof.
  intros H12. revert l3. induction H12 as [| a b t1 t2 Hab _ IH]; intros l3 H23.
  - inversion H23. constructor.
  - inversion H23 as [| b' c t2' t3 Hbc Ht]; subst. constructor.
    + eapply kept_or_newer_trans; eassumption.
    + now apply IH.
Qed.

Lemma Forall2_kept_upd (l : list wmr_reading) (n : nat) (r d : wmr_reading) :
  kept_or_newer (nth n l d) r -> Forall2 kept_or_newer l (upd l n r).
Proof.
  revert n. induction l as [| a t IH]; intros [| n] Hr; cbn [upd nth] in *;
    constructor; auto using kept_or_newer_refl, Forall2_kept_refl.
Qed.

Lemma store_kept_refl (l : wmr_latest_data) : store_kept_or_newer l l.
Proof.
  unfold store_kept_or_newer.
  repeat split; auto using kept_or_newer_refl, Forall2_kept_refl.
Qed.

Lemma store_kept_trans (l1 l2 l3 : wmr_latest_data) :
  store_kept_or_newer l1 l2 -> store_kept_or_newer l2 l3 ->
  store_kept_or_newer l1 l3.
Proof.
  intros (Hw & Hr & Hu & Hb & Ht & Hs & Hm) (Hw' & Hr' & Hu' & Hb' & Ht' & Hs' & Hm').
  repeat split;
    eauto using kept_or_newer_trans, Forall2_kept_trans.
Qed.

Lemma keeps_ret {A} (a : A) : keeps_store_order (ret a).
Proof. intros w. apply store_kept_refl. Qed.

Lemma keeps_gets {A} (f : wmr200 -> A) : keeps_store_order (gets f).
Proof. intros w. apply store_kept_refl. Qed.

Lemma keeps_exit {A} (code : Z) : keeps_store_order (@exit A code).
Proof. intros w. apply store_kept_refl. Qed.

Lemma keeps_undefined {A} : keeps_store_order (@undefined A).
Proof. intros w. apply store_kept_refl. Qed.

Lemma keeps_modify (f : wmr200 -> wmr200) :
  (forall w, store_kept_or_newer (latest w) (latest (f w))) ->
  keeps_store_order (modify f).
Proof. intros Hf w. apply Hf. Qed.

(** A change outside wmr->latest. *)
Lemma keeps_modify_elsewhere (f : wmr200 -> wmr200) :
  (forall w, latest (f w) = latest w) -> keeps_store_order (modify f).
Proof.
  intros Hf. apply keeps_modify. intros w. rewrite Hf. apply store_kept_refl.
Qed.

Lemma keeps_bind {A B} (c : M A) (k : A -> M B) :
  keeps_store_order c -> (forall a, keeps_store_order (k a)) ->
  keeps_store_order (bind c k).
Proof.
  intros Hc Hk w. specialize (Hc w). unfold bind.
  destruct (c w) as [[a | code | |] w']; cbn [snd] in *; try exact Hc.
  eapply store_kept_trans; [exact Hc | apply Hk].
Qed.

Lemma keeps_when (b : bool) (c : M unit) :
  keeps_store_order c -> keeps_store_order (when b c).
Proof.
  intros Hc. destruct b; [exact Hc | apply keeps_ret].
Qed.

Lemma keeps_emit (e : event) : keeps_store_order (emit e).
Proof. apply keeps_modify_elsewhere. reflexivity. Qed.

Lemma keeps_elem {A} (l : list A) (i : Z) : keeps_store_order (elem l i).
Proof.
  unfold elem. destruct (at_Z l i); [apply keeps_ret | apply keeps_undefined].
Qed.

Create HintDb store_order discriminated.

#[local] Hint Resolve keeps_ret keeps_gets keeps_exit keeps_undefined
  keeps_emit keeps_elem keeps_when : store_order.
#[local] Hint Extern 1 (keeps_store_order (modify _)) =>
  (apply keeps_modify_elsewhere; reflexivity) : store_order.
#[local] Hint Extern 2 (keeps_store_order (bind _ _)) =>
  (apply keeps_bind; [| intro]) : store_order.
#[local] Hint Extern 3 (keeps_store_order (if ?b then _ else _)) =>
  destruct b : store_order.
#[local] Hint Extern 3 (keeps_store_order (match ?x with _ => _ end)) =>
  destruct x : store_order.

Ltac keeps := cbv zeta; auto 60 with store_order.

Lemma keeps_packet_at (i : Z) : keeps_store_order (packet_at i).
Proof. unfold packet_at. keeps. Qed.

Lemma keeps_data_at (data i : Z) : keeps_store_order (data_at data i).
Proof. apply keeps_packet_at. Qed.

Lemma keeps_packet_store (i : Z) (b : uchar) :
  keeps_store_order (packet_store i b).
Proof. unfold packet_store. keeps. Qed.

Lemma keeps_log (l : level) (fmt : string) (args : list Z) :
  keeps_store_order (emit (Log l fmt args)).
Proof. apply keeps_emit. Qed.

#[local] Hint Resolve keeps_packet_at keeps_data_at keeps_packet_store
  : store_order.
#[local] Hint Unfold log_debug log_info log_warning log_error fprintf_stderr
  : store_order.

Lemma keeps_invoke_handlers (r : wmr_reading) :
  keeps_store_order (invoke_handlers r).
Proof.
  intros w. rewrite invoke_handlers_spec. apply store_kept_refl.
Qed.

#[local] Hint Resolve keeps_invoke_handlers : store_order.

Lemma keeps_update_slot (f : wmr200 -> wmr200) :
  (forall w, store_kept_or_newer (latest w) (latest (f w))) ->
  forall r : wmr_reading,
    keeps_store_order (modify f ;; invoke_handlers r).
Proof.
  intros Hf r. apply keeps_bind; [now apply keeps_modify | intros _].
  apply keeps_invoke_handlers.
Qed.

Ltac slot_updated :=
  intro; unfold store_kept_or_newer;
  cbn [latest set_latest latest_wind latest_rain latest_uvi latest_baro
       latest_temp latest_status latest_meta set_latest_wind set_latest_rain
       set_latest_uvi set_latest_baro set_latest_temp set_latest_status];
  repeat split;
  auto using kept_or_newer_refl, kept_or_newer_update, Forall2_kept_refl.

Section StoreOrder.

Variable h : header.
Variable env : libc.

Lemma keeps_time_now : keeps_store_order (time_now env).
Proof. unfold time_now. keeps. Qed.

Lemma keeps_hid_read : keeps_store_order (hid_read h).
Proof.
  intros w. unfold hid_read.
  destruct (dev w) as [| [report |] rest]; apply store_kept_refl.
Qed.

Lemma keeps_hid_write (data : list uchar) : keeps_store_order (hid_write env data).
Proof. unfold hid_write. keeps. Qed.

Lemma keeps_malloc_safe (n : Z) : keeps_store_order (malloc_safe n).
Proof. unfold malloc_safe. keeps. Qed.

Lemma keeps_free_packet : keeps_store_order free_packet.
Proof. unfold free_packet. keeps. Qed.

Hint Resolve keeps_time_now keeps_hid_read keeps_hid_write keeps_malloc_safe
  keeps_free_packet : store_order.

Lemma keeps_read_byte : keeps_store_order (read_byte h).
Proof. unfold read_byte. keeps. Qed.

Lemma keeps_send_cmd_frame (cmd : Z) : keeps_store_order (send_cmd_frame h env cmd).
Proof. unfold send_cmd_frame. keeps. Qed.

Lemma keeps_get_reading_time :
  keeps_store_order (get_reading_time_from_packet env).
Proof. unfold get_reading_time_from_packet. keeps. Qed.

Hint Resolve keeps_read_byte keeps_send_cmd_frame keeps_get_reading_time
  : store_order.

Lemma keeps_process_wind_data (data : Z) :
  keeps_store_order (process_wind_data h env data).
Proof.
  unfold process_wind_data.
  do 7 (apply keeps_bind; [solve [keeps] | intro]); cbv zeta.
  apply keeps_update_slot. slot_updated.
Qed.

Lemma keeps_process_rain_data (data : Z) :
  keeps_store_order (process_rain_data h env data).
Proof.
  unfold process_rain_data.
  do 9 (apply keeps_bind; [solve [keeps] | intro]); cbv zeta.
  apply keeps_update_slot. slot_updated.
Qed.

Lemma keeps_process_uvi_data (data : Z) :
  keeps_store_order (process_uvi_data h env data).
Proof.
  unfold process_uvi_data.
  do 2 (apply keeps_bind; [solve [keeps] | intro]); cbv zeta.
  apply keeps_update_slot. slot_updated.
Qed.

Lemma keeps_process_baro_data (data : Z) :
  keeps_store_order (process_baro_data h env data).
Proof.
  unfold process_baro_data.
  do 6 (apply keeps_bind; [solve [keeps] | intro]); cbv zeta.
  apply keeps_update_slot. slot_updated.
Qed.

Lemma keeps_process_status_data (data : Z) :
  keeps_store_order (process_status_data h env data).
Proof.
  unfold process_status_data.
  do 14 (apply keeps_bind; [solve [keeps] | intro]); cbv zeta.
  apply keeps_update_slot. slot_updated.
Qed.

(** update_if_newer(&wmr->latest.temp[id], &reading) and the calls. *)
Lemma keeps_temp_slot (id : Z) (r : wmr_reading) :
  keeps_store_order (
    slots <- gets (fun w => latest_temp (latest w)) ;;
    old <- elem slots id ;;
    modify (fun w => set_latest (set_latest_temp
      (upd slots (Z.to_nat id) (update_if_newer old r)) (latest w)) w) ;;
    invoke_handlers r).
Proof.
  intros w. rewrite bind_gets. unfold bind at 1, elem.
  destruct (at_Z (latest_temp (latest w)) id) as [old |] eqn:Hold;
    [| apply store_kept_refl].
  unfold ret. rewrite bind_modify, invoke_handlers_spec.
  cbn [snd deliver latest set_out set_latest]. unfold store_kept_or_newer.
  cbn [latest_wind latest_rain latest_uvi latest_baro latest_temp
       latest_status latest_meta set_latest_temp].
  repeat split; auto using kept_or_newer_refl.
  apply (Forall2_kept_upd _ _ _ zero_reading).
  pose proof (at_Z_inv _ _ _ Hold) as Hin.
  rewrite (at_Z_Some _ _ zero_reading Hin) in Hold.
  injection Hold as <-. apply kept_or_newer_update.
Qed.

Lemma keeps_process_temp_data (data : Z) :
  keeps_store_order (process_temp_data h env data).
Proof.
  unfold process_temp_data.
  do 9 (apply keeps_bind; [solve [keeps] | intro]); cbv zeta.
  apply keeps_temp_slot.
Qed.

Hint Resolve keeps_process_wind_data keeps_process_rain_data
  keeps_process_uvi_data keeps_process_baro_data keeps_process_status_data
  keeps_process_temp_data : store_order.

Lemma keeps_for_loop (body : Z -> M unit) (n : nat) :
  (forall i, keeps_store_order (body i)) ->
  forall i, keeps_store_order (for_loop n i body).
Proof.
  intros Hbody. induction n as [| n IH]; intros i; cbn [for_loop].
  - apply keeps_ret.
  - apply keeps_bind; [apply Hbody | intros _; apply IH].
Qed.

Lemma keeps_process_historic_data (data : Z) :
  keeps_store_order (process_historic_data h env data).
Proof.
  unfold process_historic_data.
  do 7 (apply keeps_bind; [solve [keeps] | intro]); cbv zeta.
  unfold for_lt. apply keeps_for_loop. intros i. apply keeps_process_temp_data.
Qed.

Hint Resolve keeps_process_historic_data : store_order.

Lemma keeps_dispatch_packet : keeps_store_order (dispatch_packet h env).
Proof. unfold dispatch_packet. keeps. Qed.

Lemma keeps_verify_packet_sum (n : nat) :
  forall i sum, keeps_store_order (verify_packet_sum n i sum).
Proof.
  induction n as [| n IH]; intros i sum; cbn [verify_packet_sum]; keeps.
Qed.

Hint Resolve keeps_dispatch_packet keeps_verify_packet_sum : store_order.

Lemma keeps_verify_packet : keeps_store_order verify_packet.
Proof. unfold verify_packet. keeps. Qed.

Hint Resolve keeps_verify_packet : store_order.

Lemma keeps_mainloop_step (l : label) :
  keeps_store_order (mainloop_step h env l).
Proof. destruct l; cbn [mainloop_step]; keeps. Qed.

Lemma keeps_mainloop_from (fuel : nat) :
  forall l, keeps_store_order (mainloop_from h env fuel l).
Proof.
  induction fuel as [| fuel IH]; intros l; cbn [mainloop_from].
  - apply keeps_ret.
  - apply keeps_bind; [apply keeps_mainloop_step | exact IH].
Qed.

End StoreOrder.

Lemma emit_meta_packet_spec (h : header) (env : libc) (w : wmr200) :
  let reading := {| type := WMR_META h;
                    time := time_NULL env (S (clock w));
                    body := Meta (set_uptime (time_NULL env (clock w) - conn_since w)
                                             (meta w)) |} in
  fst (emit_meta_packet h env w) = Val tt /\
  latest (snd (emit_meta_packet h env w)) = set_latest_meta reading (latest w).
Proof.
  unfold emit_meta_packet, log_debug, time_now.
  rewrite bind_emit, bind_assoc, bind_gets, bind_assoc, bind_modify, bind_ret,
    bind_modify, bind_assoc, bind_gets, bind_assoc, bind_modify, bind_ret,
    bind_gets, bind_modify, invoke_handlers_spec.
  split; reflexivity.
Qed.

(** C4, as amended. Every operation of the framing loop - each decoder
    at any offset, dispatch_packet, each move of mainloop - leaves in
    every slot either the reading it found or one whose timestamp is not
    older. The heartbeat's emit_meta_packet overwrites the ConnectionMeta
    slot unconditionally with a reading stamped by the wall clock and
    leaves the other slots alone; that respects the rule whenever this
    clock reading is not older than the stored timestamp. *)
Theorem store_overwritten_by_newer (h : header) (env : libc) :
  (forall data, keeps_store_order (process_wind_data h env data)) /\
  (forall data, keeps_store_order (process_rain_data h env data)) /\
  (forall data, keeps_store_order (process_uvi_data h env data)) /\
  (forall data, keeps_store_order (process_baro_data h env data)) /\
  (forall data, keeps_store_order (process_temp_data h env data)) /\
  (forall data, keeps_store_order (process_status_data h env data)) /\
  (forall data, keeps_store_order (process_historic_data h env data)) /\
  keeps_store_order (dispatch_packet h env) /\
  (forall l, keeps_store_order (mainloop_step h env l)) /\
  (forall w : wmr200,
     let now := time_NULL env (S (clock w)) in
     let w' := snd (emit_meta_packet h env w) in
     latest w' =
       set_latest_meta
         {| type := WMR_META h; time := now;
            body := Meta (set_uptime (time_NULL env (clock w) - conn_since w)
                                     (meta w)) |}
         (latest w) /\
     (now >= time (latest_meta (latest w)) ->
      store_kept_or_newer (latest w) (latest w'))).
Proof.
  split; [exact (keeps_process_wind_data h env) |].
  split; [exact (keeps_process_rain_data h env) |].
  split; [exact (keeps_process_uvi_data h env) |].
  split; [exact (keeps_process_baro_data h env) |].
  split; [exact (keeps_process_temp_data h env) |].
  split; [exact (keeps_process_status_data h env) |].
  split; [exact (keeps_process_historic_data h env) |].
  split; [exact (keeps_dispatch_packet h env) |].
  split; [exact (keeps_mainloop_step h env) |].
  intros w now w'. subst now w'.
  destruct (emit_meta_packet_spec h env w) as [_ Hstore].
  split; [exact Hstore |].
  intros Hnow. rewrite Hstore. unfold store_kept_or_newer.
  cbn [latest_wind latest_rain latest_uvi latest_baro latest_temp
       latest_status latest_meta set_latest_meta time].
  repeat split; auto using kept_or_newer_refl, Forall2_kept_refl.
  right. exact Hnow.
Qed.

(** C4, as stated, fails for the ConnectionMeta slot. Two turns of the
    heartbeat loop on a fresh session, the clock set back between them:
    the second emission overwrites the reading stamped 1000 with one
    stamped 940. *)
Lemma emit_meta_packet_overwrites_newer :
  let w0 := wmr_opened example_header libc_clock_set_back [] in
  let w1 := snd (heartbeat_loop_turn example_header libc_clock_set_back w0) in
  let w2 := snd (heartbeat_loop_turn example_header libc_clock_set_back w1) in
  time (latest_meta (latest w1)) = 1000 /\
  time (latest_meta (latest w2)) = 940 /\
  ~ kept_or_newer (latest_meta (latest w1)) (latest_meta (latest w2)).
Proof.
  cbv zeta. split; [reflexivity |]. split; [reflexivity |].
  intros [Hsame | Hnewer].
  - apply (f_equal time) in Hsame. vm_compute in Hsame. discriminate.
  - vm_compute in Hnewer. apply Hnewer. reflexivity.
Qed.

(* ================================================================= *)
(** ** The framer: a length byte or a packet type *)

Lemma uc_to_uchar (z : Z) : uc (to_uchar z) = z mod 256.
Proof.
  unfold uc, to_uchar.
  pose proof (Z.mod_pos_bound z 256 ltac:(lia)) as Hz.
  destruct (Byte.of_N (Z.to_N (z mod 256))) as [b |] eqn:Hb.
  - apply Byte.to_of_N in Hb. rewrite Hb. lia.
  - apply Byte.of_N_None_iff in Hb. lia.
Qed.

Lemma packet_store_in (i : Z) (b : uchar) (w : wmr200) :
  0 <= i < Z.of_nat (length (packet w)) ->
  packet_store i b w = (Val tt, set_packet (upd (packet w) (Z.to_nat i) b) w).
Proof.
  intros Hi. unfold packet_store. rewrite bind_gets.
  now rewrite (at_Z_Some _ _ Byte.x00 Hi).
Qed.

Lemma packet_store_out (i : Z) (b : uchar) (w : wmr200) :
  i < 0 \/ Z.of_nat (length (packet w)) <= i ->
  packet_store i b w = (Undefined, w).
Proof.
  intros Hi. unfold packet_store. rewrite bind_gets.
  now rewrite (at_Z_None _ _ Hi).
Qed.

(** What send_cmd_frame does: the frame is written, and the process
    exits when the write does not take the whole frame. *)
Lemma send_cmd_frame_spec (h : header) (env : libc) (cmd : Z) (w : wmr200) :
  let data := [Byte.x01; to_uchar cmd]
              ++ repeat Byte.x00 (Z.to_nat (WMR200_FRAME_SIZE h - 2)) in
  let ret_ := hid_write_ret env (writes w) in
  let w' := set_out (out w ++ [HidWrite data]) (set_writes (S (writes w)) w) in
  send_cmd_frame h env cmd w =
  if negb (ret_ =? WMR200_FRAME_SIZE h)
  then (Exited 1,
        set_out (out w' ++ [Stderr "hid_write: cannot send %02x command frame, return was %i"
                              [cmd; ret_]]) w')
  else (Val tt, w').
Proof.
  cbv zeta. unfold send_cmd_frame, hid_write.
  rewrite bind_assoc, bind_gets, bind_assoc, bind_modify, bind_assoc, bind_emit,
    bind_ret.
  cbn [writes set_out set_writes out].
  destruct (negb (hid_write_ret env (writes w) =? WMR200_FRAME_SIZE h));
    reflexivity.
Qed.

(** The immediate-action check itself: whatever the packet type, the
    move from act_on_packet_type reads nothing from the device, leaves
    the buffer pointer alone and allocates nothing; it ends at the top of
    the loop, at the read of the length byte, or in exit(1) when the
    command frame cannot be written. *)
Lemma act_on_packet_type_reads_nothing (h : header) (env : libc) (w : wmr200) :
  let run := mainloop_step h env act_on_packet_type w in
  (fst run = Val top \/ fst run = Val read_len \/ fst run = Exited 1) /\
  dev (snd run) = dev w /\
  buf_avail (snd run) = buf_avail w /\
  buf_pos (snd run) = buf_pos w /\
  packet (snd run) = packet w /\
  packet_type (snd run) = packet_type w /\
  (forall n, In (Malloc n) (out (snd run)) -> In (Malloc n) (out w)).
Proof.
  cbn [mainloop_step]. rewrite bind_gets.
  destruct (packet_type w =? HISTORIC_DATA_NOTIF).
  - unfold log_info. rewrite !bind_emit. unfold bind.
    rewrite send_cmd_frame_spec. cbv zeta.
    destruct (negb (_ =? WMR200_FRAME_SIZE h)); cbn;
      (repeat split; auto; intros n Hin;
       repeat (apply in_app_or in Hin; destruct Hin as [Hin | Hin]);
       try exact Hin; destruct Hin as [Hin | []]; discriminate).
  - destruct (packet_type w =? LOGGER_DATA_ERASE);
      [| destruct (packet_type w =? COMMUNICATION_STOP)];
      unfold log_info, log_debug; try rewrite bind_emit; cbn;
      repeat split; auto; intros n Hin;
      apply in_app_or in Hin; destruct Hin as [Hin | [Hin | []]];
      try exact Hin; discriminate.
Qed.

(** C1. The byte L that mainloop reads after a type byte. If L is in
    [0xD0, 0xDF], control is back at act_on_packet_type with L as the
    packet type: nothing was allocated (no event, same buffer pointer)
    and nothing more was read from the device. Otherwise L is the packet
    length: a buffer of L bytes is allocated and, when it can hold them,
    its first two bytes are the type and L, the payload loop starting at
    index 2; a buffer of fewer than two bytes is overrun by those two
    stores. *)
Theorem mainloop_length_or_type (h : header) (env : libc) (w w1 : wmr200)
    (b : uchar) :
  read_byte h w = (Val b, w1) ->
  let L := uc b in
  let run := mainloop_step h env read_len w in
  (is_packet_type_mark L ->
   run = (Val act_on_packet_type, set_packet_type L (set_packet_len L w1)) /\
   packet_type (snd run) = L /\
   out (snd run) = out w1 /\
   packet (snd run) = packet w1 /\
   dev (snd run) = dev w1 /\
   buf_avail (snd run) = buf_avail w1 /\
   buf_pos (snd run) = buf_pos w1) /\
  (~ is_packet_type_mark L ->
   packet_len (snd run) = L /\
   packet_type (snd run) = packet_type w1 /\
   out (snd run) = out w1 ++ [Malloc L] /\
   (2 <= L ->
    fst run = Val (payload 2) /\
    Z.of_nat (length (packet (snd run))) = L /\
    byte_at (packet (snd run)) 0 = packet_type w1 mod 256 /\
    byte_at (packet (snd run)) 1 = L) /\
   (L < 2 -> fst run = Undefined)).
Proof.
  intros Hread L run. subst run. cbn [mainloop_step].
  rewrite (bind_Val _ _ _ _ _ Hread), bind_modify, bind_gets.
  cbn [packet_len set_packet_len]. fold L.
  pose proof (uc_range b) as HL. fold L in HL.
  unfold is_packet_type_mark. split.
  - intros Hmark.
    destruct (Z.geb_spec L 0xD0) as [_ | Hlt]; [| lia].
    destruct (Z.leb_spec L 0xDF) as [_ | Hgt]; [| lia].
    cbn [andb]. rewrite bind_modify. repeat split.
  - intros Hlen.
    assert (Htest : (L >=? 0xD0) && (L <=? 0xDF) = false).
    { destruct (Z.geb_spec L 0xD0); destruct (Z.leb_spec L 0xDF);
        cbn [andb]; try reflexivity; lia. }
    rewrite Htest. unfold malloc_safe.
    rewrite bind_assoc, bind_emit, bind_ret, bind_modify, bind_gets.
    cbn [packet_type set_packet set_out set_packet_len].
    set (w2 := set_packet _ _).
    assert (Hbuf : Z.of_nat (length (packet w2)) = L)
      by (subst w2; cbn [packet set_packet]; rewrite repeat_length; lia).
    destruct (Z_lt_ge_dec L 2) as [Hsmall | Hbig].
    + assert (Hrun : exists w3,
                 bind (packet_store 0 (to_uchar (packet_type w1)))
                      (fun _ => bind (packet_store 1 (to_uchar L))
                                     (fun _ => ret (payload 2))) w2
                 = (Undefined, w3) /\
                 packet_len w3 = L /\ packet_type w3 = packet_type w1 /\
                 out w3 = out w1 ++ [Malloc L]).
      { destruct (Z.eq_dec L 0) as [Hzero | Hone].
        - exists w2. split; [| repeat split].
          unfold bind at 1. rewrite packet_store_out by lia. reflexivity.
        - eexists. split.
          + rewrite (bind_Val _ _ _ _ _ (packet_store_in 0 _ w2 ltac:(lia))).
            unfold bind at 1. rewrite packet_store_out; [reflexivity |].
            cbn [packet set_packet]. rewrite upd_length. lia.
          + repeat split. }
      destruct Hrun as (w3 & -> & Hl3 & Ht3 & Ho3). cbn [fst snd].
      repeat split; try assumption; lia.
    + rewrite (bind_Val _ _ _ _ _ (packet_store_in 0 _ w2 ltac:(lia))).
      set (w3 := set_packet _ w2).
      assert (Hbuf3 : Z.of_nat (length (packet w3)) = L)
        by (subst w3; cbn [packet set_packet]; rewrite upd_length; exact Hbuf).
      rewrite (bind_Val _ _ _ _ _ (packet_store_in 1 _ w3 ltac:(lia))).
      unfold ret. cbn [fst snd].
      split; [reflexivity |]. split; [reflexivity |]. split; [reflexivity |].
      split; [| lia]. intros _. split; [reflexivity |].
      cbn [packet set_packet]. split; [| split].
      * now rewrite upd_length.
      * unfold byte_at. change (Z.to_nat 0) with 0%nat. change (Z.to_nat 1) with 1%nat.
        rewrite upd_nth_other by lia. subst w3. cbn [packet set_packet].
        rewrite upd_nth_same by lia. apply uc_to_uchar.
      * unfold byte_at. change (Z.to_nat 1) with 1%nat.
        rewrite upd_nth_same by (rewrite <- (Nat2Z.id (length _)); lia).
        rewrite uc_to_uchar. apply Z.mod_small. lia.
Qed.

Lemma mainloop_length_or_type_witness :
  let w := framer_session [[1; 0xD1; 0; 0; 0; 0; 0; 0]] in
  let w1 := snd (read_byte example_header w) in
  let run := mainloop_step example_header example_libc read_len w in
  run = (Val act_on_packet_type, set_packet_type 0xD1 (set_packet_len 0xD1 w1)) /\
  packet_type (snd run) = 0xD1 /\
  out (snd run) = out w1 /\
  packet (snd run) = packet w1 /\
  dev (snd run) = dev w1 /\
  buf_avail (snd run) = buf_avail w1 /\
  buf_pos (snd run) = buf_pos w1.
Proof.
  cbv zeta.
  assert (Hread : read_byte example_header
                    (framer_session [[1; 0xD1; 0; 0; 0; 0; 0; 0]]) =
                  (Val Byte.xd1,
                   snd (read_byte example_header
                          (framer_session [[1; 0xD1; 0; 0; 0; 0; 0; 0]]))))
    by (vm_compute; reflexivity).
  assert (Hmark : is_packet_type_mark (uc Byte.xd1))
    by (vm_compute; split; discriminate).
  exact (proj1 (mainloop_length_or_type example_header example_libc _ _ _ Hread)
               Hmark).
Defined.

(** The other case: 0x10 after the type byte is a length; sixteen bytes
    are allocated and the payload loop starts. *)
Example mainloop_length_16 :
  let w := framer_session [[1; 0x10; 0; 0; 0; 0; 0; 0]] in
  let run := mainloop_step example_header example_libc read_len w in
  fst run = Val (payload 2) /\
  packet_len (snd run) = 16 /\
  map uc (packet (snd run)) = [0xD3; 16; 0; 0; 0; 0; 0; 0; 0; 0; 0; 0; 0; 0; 0; 0] /\
  count_events (fun e => match e with Malloc _ => true | _ => false end)
               (out (snd run)) = 1%nat.
Proof.
  vm_compute. repeat split.
Qed.

(** A whole turn: the type byte 0xD3 is followed by 0xD1, which is taken
    as the type HISTORIC_DATA_NOTIF and answered by a command frame; the
    wind packet after it is then framed, verified and delivered. Only
    that packet was allocated. *)
Example mainloop_resynchronises :
  let stream := [0xD3; 0xD1] ++ wind_packet in
  let w := set_handler [{| handler_fn := 1; arg := 0 |}]
             (wmr_opened example_header example_libc
                (map (fun r => Some (map to_uchar r)) (reports_of 10 stream))) in
  let run := mainloop_from example_header example_libc 23 top w in
  fst run = Val top /\
  filter (fun e => match e with Log _ _ _ => false | _ => true end)
         (skipn 1 (out (snd run))) =
  [HidWrite (map to_uchar [0x01; 0xDA; 0; 0; 0; 0; 0; 0]);
   Malloc 16;
   Invoke {| handler_fn := 1; arg := 0 |}
          (wind_reading example_header example_libc (map to_uchar wind_packet) 0);
   Free] /\
  latest_wind (latest (snd run)) =
    wind_reading example_header example_libc (map to_uchar wind_packet) 0 /\
  num_packets (meta (snd run)) = 1 /\
  num_failed (meta (snd run)) = 0.
Proof.
  vm_compute. repeat split.
Qed.

(* ================================================================= *)
(** * Further properties *)

(** ** read_byte: the cursor over the frames *)

Lemma uint_uint_add (a k : Z) : uint (uint a + k) = uint (a + k).
Proof.
  unfold uint. now rewrite Z.add_mod_idemp_l by (unfold UINT_BITS; lia).
Qed.

(** A byte is still buffered: it is handed out, nothing is fetched. *)
Lemma read_byte_buffered (h : header) (w : wmr200) :
  buf_avail w <> 0 ->
  0 <= buf_pos w < Z.of_nat (length (buf w)) ->
  read_byte h w = (Val (nth (Z.to_nat (buf_pos w)) (buf w) Byte.x00), consumed w).
Proof.
  intros Havail Hpos. unfold read_byte. rewrite bind_gets.
  destruct (Z.eqb_spec (buf_avail w) 0) as [Hz | _]; [contradiction |].
  unfold when. rewrite bind_ret, !bind_modify, bind_gets, bind_modify, bind_gets.
  unfold elem. cbn [buf buf_pos set_buf_pos set_buf_avail set_meta].
  rewrite (at_Z_Some _ _ Byte.x00 Hpos). reflexivity.
Qed.

(** The cursor is past the end of buf while bytes are still counted as
    available: the read is outside the array. *)
Lemma read_byte_overrun (h : header) (w : wmr200) :
  buf_avail w <> 0 ->
  Z.of_nat (length (buf w)) <= buf_pos w ->
  read_byte h w = (Undefined, consumed w).
Proof.
  intros Havail Hpos. unfold read_byte. rewrite bind_gets.
  destruct (Z.eqb_spec (buf_avail w) 0) as [Hz | _]; [contradiction |].
  unfold when. rewrite bind_ret, !bind_modify, bind_gets, bind_modify, bind_gets.
  unfold elem. cbn [buf buf_pos set_buf_pos set_buf_avail set_meta].
  rewrite at_Z_None by lia. reflexivity.
Qed.

Lemma hid_read_frame (h : header) (w : wmr200) (report : list uchar)
    (rest : list (option (list uchar))) :
  dev w = Some report :: rest ->
  Z.of_nat (length report) = WMR200_FRAME_SIZE h ->
  hid_read h w =
  (Val (WMR200_FRAME_SIZE h),
   set_dev rest (set_buf (report ++ skipn (length report) (buf w)) w)).
Proof.
  intros Hdev Hlen. unfold hid_read. rewrite Hdev.
  assert (Hgot : firstn (Z.to_nat (WMR200_FRAME_SIZE h)) report = report)
    by (apply firstn_all2; lia).
  rewrite Hgot, Hlen. reflexivity.
Qed.

(** The buffer is used up and the device delivers a whole frame: the
    frame is fetched without a warning and its second byte handed out. *)
Lemma read_byte_refill (h : header) (w : wmr200) (report : list uchar)
    (rest : list (option (list uchar))) :
  buf_avail w = 0 ->
  dev w = Some report :: rest ->
  Z.of_nat (length report) = WMR200_FRAME_SIZE h ->
  2 <= WMR200_FRAME_SIZE h ->
  read_byte h w = (Val (nth 1 report Byte.x00), consumed (refilled report rest w)).
Proof.
  intros Havail Hdev Hlen Hsize. unfold read_byte. rewrite bind_gets, Havail.
  cbn [Z.eqb when]. rewrite !bind_assoc.
  rewrite (bind_Val _ _ _ _ _ (hid_read_frame h w report rest Hdev Hlen)).
  rewrite bind_assoc, bind_modify, Z.eqb_refl. cbn [negb when].
  rewrite bind_assoc, bind_ret, bind_assoc, bind_gets, bind_assoc.
  cbn [buf set_meta set_dev set_buf].
  rewrite (bind_elem _ _ Byte.x00) by (rewrite length_app; lia).
  rewrite bind_assoc, !bind_modify, bind_gets, bind_modify, bind_gets.
  unfold elem. cbn [buf buf_pos set_buf_pos set_buf_avail set_meta set_dev set_buf].
  rewrite (at_Z_Some _ _ Byte.x00) by (rewrite length_app; lia).
  change (Z.to_nat 1) with 1%nat.
  rewrite app_nth1 by lia. reflexivity.
Qed.

Lemma uint_uint (a : Z) : uint (uint a) = uint a.
Proof. unfold uint. apply Z.mod_mod. unfold UINT_BITS. lia. Qed.

Lemma iter_consumed (k : nat) :
  forall w : wmr200,
    Z.of_nat k <= buf_avail w < 2 ^ 32 ->
    0 <= buf_pos w ->
    buf_pos w + Z.of_nat k < 2 ^ 32 ->
    let w' := Nat.iter k consumed w in
    buf_avail w' = buf_avail w - Z.of_nat k /\
    buf_pos w' = buf_pos w + Z.of_nat k /\
    buf w' = buf w /\ dev w' = dev w /\ out w' = out w /\
    latest w' = latest w /\ packet w' = packet w /\
    num_frames (meta w') = num_frames (meta w) /\
    uint (num_bytes (meta w')) = uint (num_bytes (meta w) + Z.of_nat k).
Proof.
  induction k as [| k IH]; intros w Havail Hpos Hpos32.
  - cbn [Nat.iter]. rewrite !Z.sub_0_r, !Z.add_0_r. repeat split.
  - cbv zeta. rewrite Nat.iter_succ.
    destruct (IH w ltac:(lia) Hpos ltac:(lia))
      as (Ha & Hp & Hb & Hd & Ho & Hl & Hpk & Hf & Hn).
    cbv zeta in Ha, Hp, Hb, Hd, Ho, Hl, Hpk, Hf, Hn.
    set (w1 := Nat.iter k consumed w) in *. clearbody w1.
    unfold consumed.
    cbn [buf_avail buf_pos buf dev out latest packet meta num_frames num_bytes
         set_buf_pos set_buf_avail set_meta set_num_bytes].
    rewrite Ha, Hp, Hb, Hd, Ho, Hl, Hpk, Hf.
    rewrite !uint_small by lia.
    repeat split; try lia.
    rewrite uint_uint, <- uint_uint_add, Hn, uint_uint_add. f_equal. lia.
Qed.

Lemma read_bytes_buffered (h : header) (k : nat) :
  forall w : wmr200,
    Z.of_nat k <= buf_avail w < 2 ^ 32 ->
    0 <= buf_pos w ->
    buf_pos w + Z.of_nat k <= Z.of_nat (length (buf w)) ->
    Z.of_nat (length (buf w)) < 2 ^ 32 ->
    read_bytes h k w =
    (Val (firstn k (skipn (Z.to_nat (buf_pos w)) (buf w))), Nat.iter k consumed w).
Proof.
  induction k as [| k IH]; intros w Havail Hpos Hend Hlen.
  - reflexivity.
  - cbn [read_bytes].
    rewrite (bind_Val _ _ _ _ _ (read_byte_buffered h w ltac:(lia) ltac:(lia))).
    assert (Hc : buf_avail (consumed w) = buf_avail w - 1 /\
                 buf_pos (consumed w) = buf_pos w + 1 /\
                 buf (consumed w) = buf w).
    { unfold consumed. cbn [buf_avail buf_pos buf set_buf_pos set_buf_avail set_meta].
      rewrite !uint_small by lia. repeat split. }
    destruct Hc as (Ha & Hp & Hb).
    rewrite (bind_Val _ _ _ _ _ (IH (consumed w) ltac:(lia) ltac:(lia)
                                    ltac:(rewrite Hb; lia) ltac:(rewrite Hb; lia))).
    unfold ret. rewrite Hp, Hb, Nat.iter_succ_r.
    rewrite (skipn_nth_cons (buf w) (Z.to_nat (buf_pos w)) Byte.x00) by lia.
    replace (Z.to_nat (buf_pos w + 1)) with (S (Z.to_nat (buf_pos w))) by lia.
    reflexivity.
Qed.

Lemma payload_of_length (h : header) (r : list uchar) :
  whole_frame h r -> length (payload_of r) = Z.to_nat (byte_at r 0).
Proof.
  intros [Hlen Hc]. unfold payload_of. rewrite length_firstn, length_skipn. lia.
Qed.

Lemma read_bytes_first (h : header) (n : nat) (w w0 : wmr200) :
  read_byte h w = read_byte h w0 ->
  read_bytes h (S n) w = read_bytes h (S n) w0.
Proof.
  intros Hfirst. cbn [read_bytes]. unfold bind at 1 3. now rewrite Hfirst.
Qed.

(** With the cursor on the first byte of a whole frame, the declared
    bytes are read and the buffer is used up. *)
Lemma read_bytes_positioned (h : header) (w0 : wmr200) :
  WMR200_FRAME_SIZE h < 2 ^ 32 ->
  whole_frame h (buf w0) ->
  buf_avail w0 = byte_at (buf w0) 0 ->
  buf_pos w0 = 1 ->
  let k := length (payload_of (buf w0)) in
  read_bytes h k w0 = (Val (payload_of (buf w0)), Nat.iter k consumed w0) /\
  buf_avail (Nat.iter k consumed w0) = 0 /\
  buf (Nat.iter k consumed w0) = buf w0 /\
  dev (Nat.iter k consumed w0) = dev w0 /\
  out (Nat.iter k consumed w0) = out w0 /\
  latest (Nat.iter k consumed w0) = latest w0 /\
  packet (Nat.iter k consumed w0) = packet w0 /\
  num_frames (meta (Nat.iter k consumed w0)) = num_frames (meta w0) /\
  uint (num_bytes (meta (Nat.iter k consumed w0))) =
    uint (num_bytes (meta w0) + Z.of_nat k).
Proof.
  intros Hsize Hframe Havail Hpos k. subst k.
  rewrite (payload_of_length h _ Hframe).
  destruct Hframe as [Hlen Hc].
  set (k := Z.to_nat (byte_at (buf w0) 0)).
  destruct (iter_consumed k w0 ltac:(lia) ltac:(lia) ltac:(lia))
    as (Ha & _ & Hb & Hd & Ho & Hl & Hpk & Hf & Hn).
  cbv zeta in Ha, Hb, Hd, Ho, Hl, Hpk, Hf, Hn.
  split.
  - rewrite (read_bytes_buffered h k w0) by lia.
    rewrite Hpos. reflexivity.
  - repeat split; try assumption. lia.
Qed.

(** A refill is the same as reading from the refilled state. *)
Lemma read_byte_refilled (h : header) (w : wmr200) (r : list uchar)
    (rest : list (option (list uchar))) :
  2 <= WMR200_FRAME_SIZE h ->
  buf_avail w = 0 ->
  Z.of_nat (length (buf w)) <= WMR200_FRAME_SIZE h ->
  dev w = Some r :: rest ->
  whole_frame h r ->
  read_byte h w = read_byte h (refilled r rest w) /\
  buf (refilled r rest w) = r.
Proof.
  intros Hsize Havail Hbuf Hdev [Hlen Hc].
  assert (Hbuf0 : buf (refilled r rest w) = r).
  { unfold refilled. cbn [buf set_buf_pos set_buf_avail set_meta set_dev set_buf].
    rewrite skipn_all2 by lia. apply app_nil_r. }
  split; [| exact Hbuf0].
  rewrite (read_byte_refill h w r rest Havail Hdev Hlen Hsize).
  rewrite (read_byte_buffered h (refilled r rest w)).
  - rewrite Hbuf0. reflexivity.
  - unfold refilled at 1.
    cbn [buf buf_avail set_buf_pos set_buf_avail set_meta set_dev set_buf].
    rewrite skipn_all2 by lia. rewrite app_nil_r. lia.
  - rewrite Hbuf0. unfold refilled. cbn [buf_pos set_buf_pos]. lia.
Qed.

(** One frame: its payload is read and the buffer is used up again. *)
Lemma read_bytes_frame (h : header) (r : list uchar)
    (rest : list (option (list uchar))) (w : wmr200) :
  2 <= WMR200_FRAME_SIZE h < 2 ^ 32 ->
  buf_avail w = 0 ->
  Z.of_nat (length (buf w)) <= WMR200_FRAME_SIZE h ->
  dev w = Some r :: rest ->
  whole_frame h r ->
  exists w' : wmr200,
    read_bytes h (length (payload_of r)) w = (Val (payload_of r), w') /\
    buf_avail w' = 0 /\
    Z.of_nat (length (buf w')) <= WMR200_FRAME_SIZE h /\
    dev w' = rest /\
    out w' = out w /\
    latest w' = latest w /\
    packet w' = packet w /\
    uint (num_frames (meta w')) = uint (num_frames (meta w) + 1) /\
    uint (num_bytes (meta w')) =
      uint (num_bytes (meta w) + Z.of_nat (length (payload_of r))).
Proof.
  intros Hsize Havail Hbuf Hdev Hframe.
  destruct (read_byte_refilled h w r rest ltac:(lia) Havail Hbuf Hdev Hframe)
    as [Hfirst Hbuf0].
  set (w0 := refilled r rest w) in *.
  assert (H0 : buf_avail w0 = byte_at (buf w0) 0 /\ buf_pos w0 = 1 /\
               dev w0 = rest /\ out w0 = out w /\ latest w0 = latest w /\
               packet w0 = packet w /\
               num_frames (meta w0) = uint (num_frames (meta w) + 1) /\
               num_bytes (meta w0) = num_bytes (meta w)).
  { subst w0. unfold refilled.
    cbn [buf buf_avail buf_pos dev out latest packet meta num_frames num_bytes
         set_buf_pos set_buf_avail set_meta set_dev set_buf set_num_frames].
    repeat split. }
  destruct H0 as (Ha0 & Hp0 & Hd0 & Ho0 & Hl0 & Hpk0 & Hf0 & Hn0).
  assert (Hframe0 : whole_frame h (buf w0)) by (rewrite Hbuf0; exact Hframe).
  destruct (read_bytes_positioned h w0 ltac:(lia) Hframe0 Ha0 Hp0)
    as (Hrun & Ha & Hb & Hd & Ho & Hl & Hpk & Hf & Hn).
  rewrite Hbuf0 in Hrun, Ha, Hb, Hd, Ho, Hl, Hpk, Hf, Hn.
  exists (Nat.iter (length (payload_of r)) consumed w0). split.
  - pose proof (payload_of_length h r Hframe) as Hk.
    destruct Hframe as [_ Hc].
    destruct (length (payload_of r)) as [| n]; [lia |].
    rewrite (read_bytes_first h n w w0 Hfirst). exact Hrun.
  - destruct Hframe as [Hlen _].
    rewrite Ha, Hb, Hd, Ho, Hl, Hpk, Hf, Hn.
    repeat split; try congruence; try lia.
    rewrite Hf0. apply uint_uint.
Qed.

Lemma read_bytes_app (h : header) (n m : nat) :
  forall (w w1 w2 : wmr200) (l1 l2 : list uchar),
    read_bytes h n w = (Val l1, w1) ->
    read_bytes h m w1 = (Val l2, w2) ->
    read_bytes h (n + m) w = (Val (l1 ++ l2), w2).
Proof.
  induction n as [| n IH]; intros w w1 w2 l1 l2 Hn Hm.
  - cbn in Hn. injection Hn as <- <-. exact Hm.
  - cbn [read_bytes Nat.add] in *. unfold bind at 1 in Hn. unfold bind at 1.
    destruct (read_byte h w) as [[b | code | |] w'] eqn:Hb; try discriminate.
    unfold bind at 1 in Hn.
    destruct (read_bytes h n w') as [[bs | code | |] w''] eqn:Hbs;
      try discriminate.
    unfold ret in Hn. injection Hn as <- <-.
    now rewrite (bind_Val _ _ _ _ _ (IH w' w'' w2 bs l2 Hbs Hm)).
Qed.

(** X1. The frame reader hands out the declared bytes of the frames
    and nothing else. With the buffer used up and the device delivering
    frames of WMR200_FRAME_SIZE bytes, each declaring between 1 and
    WMR200_FRAME_SIZE - 1 valid bytes and holding anything after them,
    as many calls of read_byte as there are declared bytes return
    exactly these bytes, frame after frame, fetch exactly these frames,
    log nothing, leave the buffer used up again and count the frames and
    the bytes (modulo 2^32). *)
Theorem read_bytes_frames (h : header) (frames : list (list uchar)) :
  forall (rest : list (option (list uchar))) (w : wmr200),
    2 <= WMR200_FRAME_SIZE h < 2 ^ 32 ->
    buf_avail w = 0 ->
    Z.of_nat (length (buf w)) <= WMR200_FRAME_SIZE h ->
    Forall (whole_frame h) frames ->
    dev w = map Some frames ++ rest ->
    let bytes := concat (map payload_of frames) in
    exists w' : wmr200,
      read_bytes h (length bytes) w = (Val bytes, w') /\
      buf_avail w' = 0 /\
      dev w' = rest /\
      out w' = out w /\
      latest w' = latest w /\
      packet w' = packet w /\
      uint (num_frames (meta w')) =
        uint (num_frames (meta w) + Z.of_nat (length frames)) /\
      uint (num_bytes (meta w')) =
        uint (num_bytes (meta w) + Z.of_nat (length bytes)).
Proof.
  induction frames as [| r rs IH]; intros rest w Hsize Havail Hbuf Hall Hdev;
    cbv zeta.
  - exists w. cbn [concat length read_bytes map app] in *. rewrite !Z.add_0_r.
    repeat split; assumption.
  - inversion Hall as [| r' rs' Hframe Hrs]; subst.
    cbn [map app] in Hdev.
    destruct (read_bytes_frame h r _ w Hsize Havail Hbuf Hdev Hframe)
      as (w1 & Hrun1 & Ha1 & Hb1 & Hd1 & Ho1 & Hl1 & Hpk1 & Hf1 & Hn1).
    destruct (IH rest w1 Hsize Ha1 Hb1 Hrs Hd1)
      as (w2 & Hrun2 & Ha2 & Hd2 & Ho2 & Hl2 & Hpk2 & Hf2 & Hn2).
    exists w2. cbn [map concat]. rewrite length_app.
    split; [exact (read_bytes_app h _ _ w w1 w2 _ _ Hrun1 Hrun2) |].
    repeat split; try congruence.
    + rewrite Hf2, <- uint_uint_add, Hf1, uint_uint_add. f_equal.
      cbn [length]. lia.
    + rewrite Hn2, <- uint_uint_add, Hn1, uint_uint_add. f_equal. lia.
Qed.

Lemma read_bytes_frames_witness :
  exists w' : wmr200,
    read_bytes example_header 9 two_frames_session =
    (Val (map to_uchar [0xD3; 0x10; 1; 2; 3; 4; 5; 6; 7]), w') /\
    buf_avail w' = 0 /\ dev w' = [] /\
    uint (num_frames (meta w')) = 2 /\ uint (num_bytes (meta w')) = 9.
Proof.
  destruct (read_bytes_frames example_header two_frames [] two_frames_session)
    as (w' & Hrun & Ha & Hd & _ & _ & _ & Hf & Hn).
  - vm_compute. split; [discriminate | reflexivity].
  - reflexivity.
  - vm_compute. discriminate.
  - repeat constructor; vm_compute; try reflexivity; discriminate.
  - unfold two_frames_session. cbn [dev wmr_opened]. now rewrite app_nil_r.
  - exists w'. repeat split; assumption.
Defined.

(** X2. A frame whose count byte is 0, or WMR200_FRAME_SIZE or more,
    makes the reader run off its buffer: the count is trusted (0 wraps
    around when decremented), the WMR200_FRAME_SIZE - 1 bytes after the
    count byte are handed out, and the next read_byte reads buf past its
    end without asking the device for a frame. *)
Theorem read_byte_bad_count (h : header) (report : list uchar)
    (rest : list (option (list uchar))) (w : wmr200) :
  2 <= WMR200_FRAME_SIZE h <= 2 ^ 31 ->
  buf_avail w = 0 ->
  Z.of_nat (length (buf w)) <= WMR200_FRAME_SIZE h ->
  dev w = Some report :: rest ->
  Z.of_nat (length report) = WMR200_FRAME_SIZE h ->
  byte_at report 0 = 0 \/ WMR200_FRAME_SIZE h <= byte_at report 0 ->
  exists w1 w2 : wmr200,
    read_bytes h (Z.to_nat (WMR200_FRAME_SIZE h - 1)) w = (Val (skipn 1 report), w1) /\
    read_byte h w1 = (Undefined, w2) /\
    dev w1 = rest /\ dev w2 = rest /\
    out w2 = out w.
Proof.
  intros Hsize Havail Hbuf Hdev Hlen Hcount.
  assert (H31 : 2 ^ 31 = 2147483648) by reflexivity.
  assert (H32 : 2 ^ 32 = 4294967296) by reflexivity.
  set (w0 := consumed (refilled report rest w)).
  pose proof (uc_range (nth (Z.to_nat 0) report Byte.x00)) as Hc.
  fold (byte_at report 0) in Hc.
  assert (H0 : buf w0 = report /\ buf_pos w0 = 2 /\ dev w0 = rest /\
               out w0 = out w /\
               WMR200_FRAME_SIZE h - 1 <= buf_avail w0 < 2 ^ 32).
  { subst w0. unfold consumed, refilled.
    cbn [buf buf_avail buf_pos dev out meta set_buf_pos set_buf_avail set_meta
         set_dev set_buf].
    rewrite skipn_all2 by lia. rewrite app_nil_r.
    split; [reflexivity |]. split; [reflexivity |]. split; [reflexivity |].
    split; [reflexivity |].
    destruct Hcount as [-> | Hbig].
    - change (uint (0 - 1)) with 4294967295. lia.
    - rewrite uint_small by lia. lia. }
  destruct H0 as (Hb0 & Hp0 & Hd0 & Ho0 & Ha0).
  set (k := Z.to_nat (WMR200_FRAME_SIZE h - 2)).
  destruct (iter_consumed k w0 ltac:(lia) ltac:(lia) ltac:(lia))
    as (Ha & Hp & Hb & Hd & Ho & _).
  cbv zeta in Ha, Hp, Hb, Hd, Ho.
  exists (Nat.iter k consumed w0), (consumed (Nat.iter k consumed w0)).
  split; [| split; [| split; [| split]]].
  - replace (Z.to_nat (WMR200_FRAME_SIZE h - 1)) with (S k) by lia.
    cbn [read_bytes].
    rewrite (bind_Val _ _ _ _ _
               (read_byte_refill h w report rest Havail Hdev Hlen ltac:(lia))).
    fold w0.
    rewrite (bind_Val _ _ _ _ _
               (read_bytes_buffered h k w0 ltac:(lia) ltac:(lia)
                  ltac:(rewrite Hb0; lia) ltac:(rewrite Hb0; lia))).
    unfold ret. rewrite Hp0, Hb0. change (Z.to_nat 2) with 2%nat.
    rewrite firstn_all2 by (rewrite length_skipn; lia).
    rewrite (skipn_nth_cons report 1 Byte.x00) by lia. reflexivity.
  - apply read_byte_overrun; [lia |]. rewrite Hb, Hb0, Hp, Hp0. lia.
  - congruence.
  - change (dev (Nat.iter k consumed w0) = rest). congruence.
  - change (out (Nat.iter k consumed w0) = out w). congruence.
Qed.

Lemma read_byte_bad_count_witness :
  exists w1 w2 : wmr200,
    read_bytes example_header 7 empty_frame_session =
    (Val (map to_uchar [1; 2; 3; 4; 5; 6; 7]), w1) /\
    read_byte example_header w1 = (Undefined, w2) /\
    dev w2 = [Some (map to_uchar [1; 9; 0; 0; 0; 0; 0; 0])].
Proof.
  destruct (read_byte_bad_count example_header
              (map to_uchar [0; 1; 2; 3; 4; 5; 6; 7])
              [Some (map to_uchar [1; 9; 0; 0; 0; 0; 0; 0])]
              empty_frame_session)
    as (w1 & w2 & Hrun & Hover & _ & Hd & _).
  - vm_compute. split; discriminate.
  - reflexivity.
  - vm_compute. discriminate.
  - reflexivity.
  - reflexivity.
  - left. reflexivity.
  - exists w1, w2. repeat split; assumption.
Defined.

(** A failed read is the same as reading from the state in which the
    failure was logged and the cursor set back. *)
Lemma read_byte_read_failed (h : header) (w : wmr200)
    (rest : list (option (list uchar))) :
  0 <= WMR200_FRAME_SIZE h ->
  buf_avail w = 0 ->
  dev w = None :: rest ->
  (1 <= length (buf w))%nat ->
  byte_at (buf w) 0 <> 0 ->
  read_byte h w = read_byte h (read_failed rest w).
Proof.
  intros Hsize Havail Hdev Hlen Hcount.
  unfold read_byte at 2. rewrite bind_gets.
  unfold read_failed at 1.
  cbn [buf buf_avail set_buf_pos set_buf_avail set_out set_meta set_dev].
  destruct (Z.eqb_spec (byte_at (buf w) 0) 0) as [Hz | _]; [contradiction |].
  unfold when at 1. rewrite bind_ret.
  unfold read_byte. rewrite bind_gets, Havail. cbn [Z.eqb when].
  rewrite !bind_assoc. unfold hid_read at 1. unfold bind at 1. rewrite Hdev.
  rewrite bind_assoc, bind_modify.
  destruct (Z.eqb_spec (-1) (WMR200_FRAME_SIZE h)) as [Heq | _]; [lia |].
  cbn [negb when]. unfold log_warning.
  rewrite bind_assoc, bind_emit, bind_assoc, bind_gets, bind_assoc.
  cbn [buf set_out set_meta set_dev].
  rewrite (bind_elem _ _ Byte.x00) by lia.
  rewrite bind_assoc, !bind_modify.
  reflexivity.
Qed.

(** X3. A failed hid_read is logged and then ignored: read_byte takes
    the count from the stale buf[0] and goes on. When the buffer holds a
    used-up frame - any frame of WMR200_FRAME_SIZE bytes declaring
    between 1 and WMR200_FRAME_SIZE - 1 bytes - a failed read makes the
    next calls of read_byte hand out its declared bytes a second time. *)
Theorem read_byte_failed_read_replays (h : header)
    (rest : list (option (list uchar))) (w : wmr200) :
  2 <= WMR200_FRAME_SIZE h < 2 ^ 32 ->
  buf_avail w = 0 ->
  whole_frame h (buf w) ->
  dev w = None :: rest ->
  let replayed := payload_of (buf w) in
  exists w' : wmr200,
    read_bytes h (length replayed) w = (Val replayed, w') /\
    out w' = out w ++ [Log Warning "Cannot read frame\n" []] /\
    dev w' = rest /\
    buf_avail w' = 0 /\
    buf w' = buf w.
Proof.
  intros Hsize Havail Hframe Hdev. cbv zeta.
  pose proof (payload_of_length h _ Hframe) as Hk.
  assert (Hfirst : read_byte h w = read_byte h (read_failed rest w)).
  { destruct Hframe as [Hlen Hc].
    apply read_byte_read_failed; try assumption; lia. }
  set (w0 := read_failed rest w) in *.
  assert (H0 : buf w0 = buf w /\ buf_avail w0 = byte_at (buf w0) 0 /\
               buf_pos w0 = 1 /\ dev w0 = rest /\
               out w0 = out w ++ [Log Warning "Cannot read frame\n" []]).
  { subst w0. unfold read_failed.
    cbn [buf buf_avail buf_pos dev out set_buf_pos set_buf_avail set_out
         set_meta set_dev].
    repeat split. }
  destruct H0 as (Hb0 & Ha0 & Hp0 & Hd0 & Ho0).
  assert (Hframe0 : whole_frame h (buf w0)) by (rewrite Hb0; exact Hframe).
  destruct (read_bytes_positioned h w0 ltac:(lia) Hframe0 Ha0 Hp0)
    as (Hrun & Ha & Hb & Hd & Ho & _).
  rewrite Hb0 in Hrun, Ha, Hb, Hd, Ho.
  exists (Nat.iter (length (payload_of (buf w))) consumed w0). split.
  - destruct Hframe as [_ Hc].
    destruct (length (payload_of (buf w))) as [| n]; [lia |].
    rewrite (read_bytes_first h n w w0 Hfirst). exact Hrun.
  - repeat split; congruence.
Qed.

Lemma read_byte_failed_read_replays_witness :
  exists w' : wmr200,
    read_bytes example_header 3 failed_read_session =
    (Val (map to_uchar [0xD3; 0x10; 1]), w') /\
    out w' = out failed_read_session ++ [Log Warning "Cannot read frame\n" []] /\
    dev w' = [].
Proof.
  destruct (read_byte_failed_read_replays example_header [] failed_read_session)
    as (w' & Hrun & Hout & Hd & _).
  - vm_compute. split; [discriminate | reflexivity].
  - reflexivity.
  - vm_compute. split; [reflexivity |]. split; discriminate.
  - reflexivity.
  - exists w'. repeat split; assumption.
Defined.

(* ================================================================= *)
(** ** send_cmd_frame and the handlers *)

(** X4. send_cmd_frame writes one frame and nothing else: a frame of
    WMR200_FRAME_SIZE bytes that starts with 0x01 and the command and is
    zero after them. It returns exactly when hid_write reports the whole
    frame written; any other result ends the process with exit(1) after
    a message on stderr. The store is not touched. *)
Theorem send_cmd_frame_writes (h : header) (env : libc) (cmd : Z) (w : wmr200) :
  2 <= WMR200_FRAME_SIZE h ->
  0 <= cmd < 256 ->
  let run := send_cmd_frame h env cmd w in
  let ret_ := hid_write_ret env (writes w) in
  exists data : list uchar,
    Z.of_nat (length data) = WMR200_FRAME_SIZE h /\
    byte_at data 0 = 1 /\
    byte_at data 1 = cmd /\
    (forall i, 2 <= i -> byte_at data i = 0) /\
    latest (snd run) = latest w /\
    writes (snd run) = S (writes w) /\
    (ret_ = WMR200_FRAME_SIZE h ->
     fst run = Val tt /\ out (snd run) = out w ++ [HidWrite data]) /\
    (ret_ <> WMR200_FRAME_SIZE h ->
     fst run = Exited 1 /\
     out (snd run) =
       out w ++ [HidWrite data;
                 Stderr "hid_write: cannot send %02x command frame, return was %i"
                        [cmd; ret_]]).
Proof.
  intros Hsize Hcmd run ret_. subst run ret_.
  rewrite send_cmd_frame_spec. cbv zeta.
  exists ([Byte.x01; to_uchar cmd]
          ++ repeat Byte.x00 (Z.to_nat (WMR200_FRAME_SIZE h - 2))).
  split; [| split; [| split; [| split]]].
  - rewrite length_app, repeat_length. cbn [length]. lia.
  - reflexivity.
  - unfold byte_at. change (Z.to_nat 1) with 1%nat. cbn [app nth].
    rewrite uc_to_uchar. now apply Z.mod_small.
  - intros i Hi. unfold byte_at.
    replace (Z.to_nat i) with (S (S (Z.to_nat (i - 2)))) by lia.
    cbn [app nth].
    now rewrite nth_repeat.
  - destruct (Z.eqb_spec (hid_write_ret env (writes w)) (WMR200_FRAME_SIZE h))
      as [Heq | Hne]; cbn [negb fst snd latest writes out set_out set_writes].
    + split; [reflexivity |]. split; [reflexivity |].
      split; [intros _; split; reflexivity | intros Hc; contradiction].
    + split; [reflexivity |]. split; [reflexivity |].
      split; [intros Hc; contradiction | intros _].
      split; [reflexivity |]. now rewrite <- app_assoc.
Qed.

Lemma send_cmd_frame_writes_witness :
  let run := send_cmd_frame example_header example_libc HEARTBEAT
               (wmr_opened example_header example_libc []) in
  fst run = Val tt /\
  out (snd run) =
    out (wmr_opened example_header example_libc [])
    ++ [HidWrite (map to_uchar [0x01; 0xD0; 0; 0; 0; 0; 0; 0])].
Proof.
  cbv zeta.
  destruct (send_cmd_frame_writes example_header example_libc HEARTBEAT
              (wmr_opened example_header example_libc []))
    as (data & _ & _ & _ & _ & _ & _ & Hok & _).
  - vm_compute. discriminate.
  - vm_compute. split; [discriminate | reflexivity].
  - destruct (Hok eq_refl) as [Hrun _]. split; [exact Hrun | reflexivity].
Defined.

Lemma add_handlers_spec (size : Z) (l : list (Z * Z)) :
  forall w : wmr200,
    add_handlers size l w =
    (Val tt,
     set_handler (rev (map handler_of l) ++ handler w)
       (set_out (out w ++ map (fun _ => Malloc size) l) w)).
Proof.
  induction l as [| [f a] l IH]; intros w.
  - cbn. rewrite app_nil_r. now destruct w.
  - cbn [add_handlers map rev]. unfold wmr_add_handler, malloc_safe.
    rewrite !bind_assoc, bind_emit, bind_ret, bind_modify, IH.
    cbn [handler out set_handler set_out].
    rewrite <- !app_assoc. reflexivity.
Qed.

(** X5. Handlers are called most recently registered first. After
    wmr_add_handler for a list of callbacks, in order - one allocation of
    a struct wmr_handler each - invoke_handlers calls each of them
    exactly once with the reading, in the reverse of that order, and
    then the handlers registered before. *)
Theorem handlers_called_in_reverse (size : Z) (l : list (Z * Z))
    (r : wmr_reading) (w : wmr200) :
  let run := (add_handlers size l ;; invoke_handlers r) w in
  fst run = Val tt /\
  out (snd run) =
    out w ++ map (fun _ => Malloc size) l
          ++ map (fun hd => Invoke hd r) (rev (map handler_of l))
          ++ map (fun hd => Invoke hd r) (handler w) /\
  latest (snd run) = latest w.
Proof.
  cbv zeta. rewrite (bind_Val _ _ _ _ _ (add_handlers_spec size l w)).
  rewrite invoke_handlers_spec. unfold deliver.
  cbn [fst snd out handler latest set_out set_handler].
  rewrite map_app, <- !app_assoc. repeat split.
Qed.

(* ================================================================= *)
(** ** The decoders *)

Lemma out_commit_wind (r : wmr_reading) (w : wmr200) :
  out (commit_wind r w) = out w ++ calls (handler w) [r].
Proof. rewrite calls_one. reflexivity. Qed.

Lemma out_commit_rain (r : wmr_reading) (w : wmr200) :
  out (commit_rain r w) = out w ++ calls (handler w) [r].
Proof. rewrite calls_one. reflexivity. Qed.

Lemma out_commit_uvi (r : wmr_reading) (w : wmr200) :
  out (commit_uvi r w) = out w ++ calls (handler w) [r].
Proof. rewrite calls_one. reflexivity. Qed.

Lemma out_commit_status (r : wmr_reading) (w : wmr200) :
  out (commit_status r w) = out w ++ calls (handler w) [r].
Proof. rewrite calls_one. reflexivity. Qed.

(** X6. Wind, rain, UV and status packets cannot make dispatch_packet
    fail, whatever their bytes: when the buffer holds at least 15 bytes,
    the packet is decoded (no table is indexed outside its bounds, the
    process does not exit) and every handler is called exactly once
    with one reading, whose type is the packet type and whose timestamp
    is the one of bytes 2-6. *)
Theorem dispatch_packet_cannot_fail (h : header) (env : libc) (w : wmr200) :
  15 <= Z.of_nat (length (packet w)) ->
  packet_type w <> HISTORIC_DATA ->
  packet_type w = WMR_WIND h \/ packet_type w = WMR_RAIN h \/
  packet_type w = WMR_UVI h \/
  (packet_type w = WMR_STATUS h /\ packet_type w <> WMR_BARO h /\
   packet_type w <> WMR_TEMP h) ->
  exists r : wmr_reading,
    fst (dispatch_packet h env w) = Val tt /\
    out (snd (dispatch_packet h env w)) = out w ++ calls (handler w) [r] /\
    type r = packet_type w /\
    time r = reading_time env (packet w).
Proof.
  intros Hlen Hhist Htype. unfold dispatch_packet. rewrite bind_gets.
  destruct (Z.eqb_spec (packet_type w) HISTORIC_DATA) as [Heq | _];
    [contradiction |].
  destruct (Z.eqb_spec (packet_type w) (WMR_WIND h)) as [Hwind | Hnwind].
  { rewrite process_wind_data_spec by lia. eexists.
    split; [reflexivity |]. split; [apply out_commit_wind |].
    split; [symmetry; exact Hwind | reflexivity]. }
  destruct (Z.eqb_spec (packet_type w) (WMR_RAIN h)) as [Hrain | Hnrain].
  { rewrite process_rain_data_spec by lia. eexists.
    split; [reflexivity |]. split; [apply out_commit_rain |].
    split; [symmetry; exact Hrain | reflexivity]. }
  destruct (Z.eqb_spec (packet_type w) (WMR_UVI h)) as [Huvi | Hnuvi].
  { rewrite process_uvi_data_spec by lia. eexists.
    split; [reflexivity |]. split; [apply out_commit_uvi |].
    split; [symmetry; exact Huvi | reflexivity]. }
  destruct Htype as [Hc | [Hc | [Hc | (Hstatus & Hnbaro & Hntemp)]]];
    try contradiction.
  destruct (Z.eqb_spec (packet_type w) (WMR_BARO h)) as [Hc | _];
    [contradiction |].
  destruct (Z.eqb_spec (packet_type w) (WMR_TEMP h)) as [Hc | _];
    [contradiction |].
  destruct (Z.eqb_spec (packet_type w) (WMR_STATUS h)) as [_ | Hc];
    [| contradiction].
  rewrite process_status_data_spec by lia. eexists.
  split; [reflexivity |]. split; [apply out_commit_status |].
  split; [symmetry; exact Hstatus | reflexivity].
Qed.

Lemma dispatch_packet_cannot_fail_witness :
  exists r : wmr_reading,
    fst (dispatch_packet example_header example_libc
           (set_packet_type 0xD3 (example_session wind_packet))) = Val tt /\
    out (snd (dispatch_packet example_header example_libc
                (set_packet_type 0xD3 (example_session wind_packet)))) =
      out (example_session wind_packet)
      ++ calls [{| handler_fn := 1; arg := 0 |}] [r] /\
    type r = 0xD3.
Proof.
  destruct (dispatch_packet_cannot_fail example_header example_libc
              (set_packet_type 0xD3 (example_session wind_packet)))
    as (r & Hrun & Hout & Htype & _).
  - vm_compute. discriminate.
  - vm_compute. discriminate.
  - left. reflexivity.
  - exists r. repeat split; assumption.
Defined.

Lemma NTH_BIT_testbit (n val : Z) :
  0 <= n -> NTH_BIT n val = Z.b2z (Z.testbit val n).
Proof.
  intros Hn. rewrite NTH_BIT_div by assumption.
  symmetry. now apply Z.testbit_spec'.
Qed.

Lemma level_of_bit (n val : Z) :
  0 <= n ->
  nth (Z.to_nat (NTH_BIT n val)) LEVEL_STRING EmptyString =
  if Z.testbit val n then "low" else "ok".
Proof.
  intros Hn. rewrite NTH_BIT_testbit by assumption.
  now destruct (Z.testbit val n).
Qed.

Lemma status_of_bit (n val : Z) :
  0 <= n ->
  nth (Z.to_nat (NTH_BIT n val)) STATUS_STRING EmptyString =
  if Z.testbit val n then "failed" else "ok".
Proof.
  intros Hn. rewrite NTH_BIT_testbit by assumption.
  now destruct (Z.testbit val n).
Qed.

(** X7. The eight flags of a status packet: the battery levels are bits
    0 and 1 of byte 4 (wind, temperature) and bits 4 and 5 of byte 5
    (rain, UV), "low" when the bit is set and "ok" when it is clear; the
    sensor states are bits 0 and 1 of byte 2 and bits 4 and 5 of byte 3,
    "failed" when set and "ok" when clear. *)
Theorem process_status_data_flags (h : header) (env : libc) (data : Z)
    (w : wmr200) :
  0 <= data ->
  data + 5 < Z.of_nat (length (packet w)) ->
  6 < Z.of_nat (length (packet w)) ->
  let b i := byte_at (packet w) (data + i) in
  exists x : wmr_status,
    process_status_data h env data w =
    (Val tt, commit_status
               {| type := WMR_STATUS h; time := reading_time env (packet w);
                  body := Status x |} w) /\
    wind_bat x = (if Z.testbit (b 4) 0 then "low" else "ok") /\
    temp_bat x = (if Z.testbit (b 4) 1 then "low" else "ok") /\
    rain_bat x = (if Z.testbit (b 5) 4 then "low" else "ok") /\
    uv_bat x = (if Z.testbit (b 5) 5 then "low" else "ok") /\
    wind_sensor x = (if Z.testbit (b 2) 0 then "failed" else "ok") /\
    temp_sensor x = (if Z.testbit (b 2) 1 then "failed" else "ok") /\
    rain_sensor x = (if Z.testbit (b 3) 4 then "failed" else "ok") /\
    uv_sensor x = (if Z.testbit (b 3) 5 then "failed" else "ok").
Proof.
  intros Hdata Hlen Htime b.
  rewrite (process_status_data_spec h env data w Hdata Hlen Htime).
  unfold status_reading. eexists. split; [reflexivity |].
  cbn [wind_bat temp_bat rain_bat uv_bat wind_sensor temp_sensor rain_sensor
       uv_sensor].
  fold (b 2) (b 3) (b 4) (b 5).
  rewrite !level_of_bit, !status_of_bit by lia.
  repeat split.
Qed.

Lemma process_status_data_flags_witness :
  exists x : wmr_status,
    process_status_data example_header example_libc 0
      (example_session status_packet_flags) =
    (Val tt, commit_status
               {| type := 0xD9;
                  time := reading_time example_libc (map to_uchar status_packet_flags);
                  body := Status x |} (example_session status_packet_flags)) /\
    wind_bat x = "low" /\ temp_bat x = "ok" /\
    rain_sensor x = "failed" /\ uv_sensor x = "ok".
Proof.
  destruct (process_status_data_flags example_header example_libc 0
              (example_session status_packet_flags))
    as (x & Hrun & Hwb & Htb & _ & _ & _ & _ & Hrs & Hus).
  - lia.
  - vm_compute. reflexivity.
  - vm_compute. reflexivity.
  - exists x. split; [exact Hrun |]. repeat split; assumption.
Defined.

(** X8. A barometric packet whose forecast nibble is below 7 decodes to
    two twelve-bit pressures - byte 7 plus 256 times the low nibble of
    byte 8, and byte 9 plus 256 times the low nibble of byte 10, both
    below 4096 - and to the entry of FORECAST_STRING at the high nibble
    of byte 8. *)
Theorem process_baro_data_fields (h : header) (env : libc) (data : Z)
    (w : wmr200) :
  0 <= data ->
  data + 10 < Z.of_nat (length (packet w)) ->
  let b i := byte_at (packet w) (data + i) in
  b 8 / 16 < 7 ->
  exists x : wmr_baro,
    process_baro_data h env data w =
    (Val tt, commit_baro
               {| type := WMR_BARO h; time := reading_time env (packet w);
                  body := Baro x |} w) /\
    pressure x = b 7 + 256 * (b 8 mod 16) /\
    alt_pressure x = b 9 + 256 * (b 10 mod 16) /\
    0 <= pressure x < 4096 /\
    0 <= alt_pressure x < 4096 /\
    nth_error FORECAST_STRING (Z.to_nat (b 8 / 16)) = Some (forecast x).
Proof.
  intros Hdata Hlen b Hflag.
  assert (Hb : forall i, 0 <= b i < 256) by (intros i; apply uc_range).
  pose proof (Hb 7) as H7. pose proof (Hb 8) as H8. pose proof (Hb 9) as H9.
  assert (Hhigh : HIGH (b 8) = b 8 / 16).
  { rewrite HIGH_div. apply Z.mod_small.
    split; [apply Z.div_pos | apply Z.div_lt_upper_bound]; lia. }
  rewrite (process_baro_data_spec h env data w Hdata Hlen)
    by (fold (b 8); lia).
  unfold baro_reading. eexists. split; [reflexivity |].
  cbn [pressure alt_pressure forecast]. fold (b 7) (b 8) (b 9) (b 10).
  rewrite !LOW_mod, Hhigh.
  pose proof (Z.mod_pos_bound (b 8) 16 ltac:(lia)) as H8m.
  pose proof (Z.mod_pos_bound (b 10) 16 ltac:(lia)) as H10m.
  assert (H8d : 0 <= b 8 / 16) by (apply Z.div_pos; lia).
  repeat split; try lia.
  apply nth_error_nth'. cbn [length FORECAST_STRING]. lia.
Qed.

Lemma process_baro_data_fields_witness :
  exists x : wmr_baro,
    process_baro_data example_header example_libc 0 (example_session baro_packet) =
    (Val tt, commit_baro
               {| type := 0xD6;
                  time := reading_time example_libc (map to_uchar baro_packet);
                  body := Baro x |} (example_session baro_packet)) /\
    pressure x = 0x3F5 /\ alt_pressure x = 0x3F0 /\ forecast x = "cloudy".
Proof.
  destruct (process_baro_data_fields example_header example_libc 0
              (example_session baro_packet))
    as (x & Hrun & Hp & Ha & _ & _ & Hf).
  - lia.
  - vm_compute. reflexivity.
  - vm_compute. reflexivity.
  - exists x. split; [exact Hrun |]. split; [exact Hp |]. split; [exact Ha |].
    vm_compute in Hf. injection Hf as Hf. symmetry. exact Hf.
Defined.

(** X9. A temperature reading goes to the slot of its sensor and to no
    other: after process_temp_data for sensor [id] (0 or 1), slot [id]
    of latest.temp holds the newer of its old content and the reading,
    every other temperature slot and every other slot of the store is
    as before, and the handlers were called once with the reading. *)
Theorem process_temp_data_slot (h : header) (env : libc) (data : Z)
    (w : wmr200) :
  0 <= data ->
  data + 13 < Z.of_nat (length (packet w)) ->
  let id := byte_at (packet w) (data + 7) mod 16 in
  id <= 1 ->
  id < Z.of_nat (length (latest_temp (latest w))) ->
  let r := temp_reading h env (packet w) data in
  let run := process_temp_data h env data w in
  let slots := latest_temp (latest w) in
  let slots' := latest_temp (latest (snd run)) in
  fst run = Val tt /\
  length slots' = length slots /\
  nth (Z.to_nat id) slots' zero_reading =
    update_if_newer (nth (Z.to_nat id) slots zero_reading) r /\
  (forall j, j <> Z.to_nat id ->
             nth j slots' zero_reading = nth j slots zero_reading) /\
  set_latest_temp slots (latest (snd run)) = latest w /\
  out (snd run) = out w ++ calls (handler w) [r].
Proof.
  intros Hdata Hlen id Hid Hslot r run slots slots'.
  subst id r run slots slots'. rewrite <- LOW_mod in *.
  pose proof (LOW_range (byte_at (packet w) (data + 7))) as Hlow.
  rewrite (process_temp_data_spec h env data w Hdata Hlen Hid Hslot).
  unfold commit_temp, deliver.
  cbn [fst snd latest out handler set_out set_latest latest_temp set_latest_temp].
  split; [reflexivity |]. split; [apply upd_length |].
  split; [apply upd_nth_same; lia |].
  split; [intros j Hj; apply upd_nth_other; intros Hc; apply Hj;
          symmetry; exact Hc |].
  split; [now destruct (latest w) |].
  rewrite calls_one. reflexivity.
Qed.

Lemma process_temp_data_slot_witness :
  let w := example_session temp_packet_12_3 in
  let run := process_temp_data example_header example_libc 0 w in
  fst run = Val tt /\
  nth 1 (latest_temp (latest (snd run))) zero_reading =
    temp_reading example_header example_libc (packet w) 0 /\
  nth 0 (latest_temp (latest (snd run))) zero_reading = zero_reading.
Proof.
  cbv zeta.
  destruct (process_temp_data_slot example_header example_libc 0
              (example_session temp_packet_12_3))
    as (Hrun & _ & Hslot & Hothers & _).
  - lia.
  - vm_compute. reflexivity.
  - vm_compute. discriminate.
  - vm_compute. reflexivity.
  - split; [exact Hrun |]. split.
    + exact Hslot.
    + exact (Hothers 0%nat ltac:(vm_compute; discriminate)).
Defined.

Lemma all_from_spec (fuel : nat) :
  forall (n : Z) (f : Z -> bool),
    all_from fuel n f = true ->
    forall k, n <= k < n + Z.of_nat fuel -> f k = true.
Proof.
  induction fuel as [| fuel IH]; intros n f Hall k Hk; [lia |].
  cbn [all_from] in Hall. apply andb_prop in Hall. destruct Hall as [Hn Hrest].
  destruct (Z.eq_dec k n) as [-> | Hne]; [exact Hn |].
  apply (IH (n + 1) f Hrest). lia.
Qed.

(** Every 16-bit count is multiplied by 0.0254 as exactly as a float
    allows: checked for each of the 65536 values. *)
Lemma float_tenths_of_inch_rounds (n : Z) :
  0 <= n < 65536 ->
  float_rounds (float_tenths_of_inch n) (n * 254 # 10000).
Proof.
  intros Hn. apply float_rounds_b_true.
  assert (Hall : all_from (Z.to_nat 65536) 0
                   (fun n => float_rounds_b (float_tenths_of_inch n)
                                            (n * 254 # 10000)) = true)
    by (vm_compute; reflexivity).
  apply (all_from_spec _ _ _ Hall). lia.
Qed.

(** X10. A rain reading older than the stored one is delivered but not
    stored. process_rain_data always returns and calls every handler
    once with the reading, whose four amounts are the 16-bit
    little-endian values of bytes 7-8, 9-10, 11-12 and 13-14 times
    TENTH_OF_INCH, 0.0254: computed in double and rounded to float, each
    within a relative error of 2^-24 of the exact product. The store
    changes only when the reading's timestamp is not older than that of
    the stored rain reading, and then only in the rain slot. *)
Theorem process_rain_data_stale (h : header) (env : libc) (data : Z)
    (w : wmr200) :
  0 <= data ->
  data + 14 < Z.of_nat (length (packet w)) ->
  let b i := byte_at (packet w) (data + i) in
  let run := process_rain_data h env data w in
  exists x : wmr_rain,
    let r := {| type := WMR_RAIN h; time := reading_time env (packet w);
                body := Rain x |} in
    fst run = Val tt /\
    out (snd run) = out w ++ calls (handler w) [r] /\
    rate x = float_tenths_of_inch (b 7 + 256 * b 8) /\
    accum_hour x = float_tenths_of_inch (b 9 + 256 * b 10) /\
    accum_24h x = float_tenths_of_inch (b 11 + 256 * b 12) /\
    accum_2007 x = float_tenths_of_inch (b 13 + 256 * b 14) /\
    float_rounds (rate x) ((b 7 + 256 * b 8) * 254 # 10000) /\
    float_rounds (accum_hour x) ((b 9 + 256 * b 10) * 254 # 10000) /\
    float_rounds (accum_24h x) ((b 11 + 256 * b 12) * 254 # 10000) /\
    float_rounds (accum_2007 x) ((b 13 + 256 * b 14) * 254 # 10000) /\
    (time r < time (latest_rain (latest w)) -> latest (snd run) = latest w) /\
    (time r >= time (latest_rain (latest w)) ->
     latest (snd run) = set_latest_rain r (latest w)).
Proof.
  intros Hdata Hlen b run. subst run.
  rewrite (process_rain_data_spec h env data w Hdata Hlen).
  unfold rain_reading. eexists. cbv zeta.
  cbn [fst snd rate accum_hour accum_24h accum_2007 time].
  fold (b 7) (b 8) (b 9) (b 10) (b 11) (b 12) (b 13) (b 14).
  split; [reflexivity |]. split; [apply out_commit_rain |].
  rewrite !Z.shiftl_mul_pow2 by lia. change (2 ^ 8) with 256.
  assert (Hb : forall i, 0 <= b i < 256) by (intros i; apply uc_range).
  replace (b 8 * 256 + b 7) with (b 7 + 256 * b 8) by lia.
  replace (b 10 * 256 + b 9) with (b 9 + 256 * b 10) by lia.
  replace (b 12 * 256 + b 11) with (b 11 + 256 * b 12) by lia.
  replace (b 14 * 256 + b 13) with (b 13 + 256 * b 14) by lia.
  do 4 (split; [reflexivity |]).
  split; [apply float_tenths_of_inch_rounds;
          pose proof (Hb 7); pose proof (Hb 8); lia |].
  split; [apply float_tenths_of_inch_rounds;
          pose proof (Hb 9); pose proof (Hb 10); lia |].
  split; [apply float_tenths_of_inch_rounds;
          pose proof (Hb 11); pose proof (Hb 12); lia |].
  split; [apply float_tenths_of_inch_rounds;
          pose proof (Hb 13); pose proof (Hb 14); lia |].
  unfold commit_rain, deliver. cbn [latest set_out set_latest].
  split; intros Ht.
  - rewrite update_if_newer_older by exact Ht. now destruct (latest w).
  - rewrite update_if_newer_newer by exact Ht. reflexivity.
Qed.

Lemma process_rain_data_stale_witness :
  let run := process_rain_data example_header example_libc 0 late_rain_session in
  fst run = Val tt /\
  latest (snd run) = latest late_rain_session /\
  count_events (is_call_of 0xD4) (out (snd run)) = 1%nat.
Proof.
  cbv zeta.
  destruct (process_rain_data_stale example_header example_libc 0 late_rain_session)
    as (x & Hrun & Hout & _ & _ & _ & _ & _ & _ & _ & _ & Hstale & _).
  - lia.
  - vm_compute. reflexivity.
  - split; [exact Hrun |]. split.
    + apply Hstale. vm_compute. reflexivity.
    + rewrite Hout. vm_compute. reflexivity.
Defined.

(* ================================================================= *)
(** ** dispatch_packet *)

(** X11. A packet of a type that is none of the seven dispatched ones
    is ignored: dispatch_packet logs one warning with the type and does
    nothing else - no handler is called and the store is as before. *)
Theorem dispatch_packet_unknown (h : header) (env : libc) (w : wmr200) :
  ~ In (packet_type w)
       [HISTORIC_DATA; WMR_WIND h; WMR_RAIN h; WMR_UVI h; WMR_BARO h;
        WMR_TEMP h; WMR_STATUS h] ->
  dispatch_packet h env w =
  (Val tt,
   set_out (out w ++ [Log Warning "Ignoring unknown packet 0x%02X" [packet_type w]])
           w).
Proof.
  intros Hnot. unfold dispatch_packet. rewrite bind_gets.
  repeat match goal with
         | |- context [?a =? ?b] =>
             destruct (Z.eqb_spec a b) as [Heq | _];
             [exfalso; apply Hnot; rewrite Heq; cbn; tauto |]
         end.
  reflexivity.
Qed.

Lemma dispatch_packet_unknown_witness :
  dispatch_packet example_header example_libc
    (set_packet_type 0xD8 (example_session wind_packet)) =
  (Val tt,
   set_out (out (example_session wind_packet)
            ++ [Log Warning "Ignoring unknown packet 0x%02X" [0xD8]])
           (set_packet_type 0xD8 (example_session wind_packet))).
Proof.
  apply (dispatch_packet_unknown example_header example_libc
           (set_packet_type 0xD8 (example_session wind_packet))).
  vm_compute. intuition discriminate.
Defined.

Lemma process_status_data_short (h : header) (env : libc) (w : wmr200) :
  Z.of_nat (length (packet w)) <= 6 ->
  process_status_data h env 0 w = (Undefined, w).
Proof.
  intros Hlen. unfold process_status_data.
  destruct (Z_lt_ge_dec 4 (Z.of_nat (length (packet w)))) as [H4 | H4];
    [| now apply bind_data_at_out; lia].
  rewrite (bind_data_at 0 4) by lia.
  destruct (Z_lt_ge_dec 5 (Z.of_nat (length (packet w)))) as [H5 | H5];
    [| now apply bind_data_at_out; lia].
  rewrite (bind_data_at 0 5), (bind_data_at 0 2), (bind_data_at 0 3) by lia.
  apply bind_get_reading_time_out. lia.
Qed.

(** X12. The length of a packet is not checked against its type. For a
    packet of any of the seven dispatched types whose buffer has fewer
    than seven bytes, dispatch_packet reads the buffer past its end: it
    ends in undefined behaviour before anything is stored or delivered. *)
Theorem dispatch_packet_short (h : header) (env : libc) (w : wmr200) :
  Z.of_nat (length (packet w)) <= 6 ->
  In (packet_type w)
     [HISTORIC_DATA; WMR_WIND h; WMR_RAIN h; WMR_UVI h; WMR_BARO h;
      WMR_TEMP h; WMR_STATUS h] ->
  dispatch_packet h env w = (Undefined, w).
Proof.
  intros Hlen Hin. unfold dispatch_packet. rewrite bind_gets.
  destruct (Z.eqb_spec (packet_type w) HISTORIC_DATA) as [_ | Hn1].
  { unfold process_historic_data, process_rain_data.
    unfold bind at 1. now rewrite bind_data_at_out by lia. }
  destruct (Z.eqb_spec (packet_type w) (WMR_WIND h)) as [_ | Hn2].
  { unfold process_wind_data. apply bind_data_at_out. lia. }
  destruct (Z.eqb_spec (packet_type w) (WMR_RAIN h)) as [_ | Hn3].
  { unfold process_rain_data. apply bind_data_at_out. lia. }
  destruct (Z.eqb_spec (packet_type w) (WMR_UVI h)) as [_ | Hn4].
  { unfold process_uvi_data. apply bind_data_at_out. lia. }
  destruct (Z.eqb_spec (packet_type w) (WMR_BARO h)) as [_ | Hn5].
  { unfold process_baro_data. apply bind_data_at_out. lia. }
  destruct (Z.eqb_spec (packet_type w) (WMR_TEMP h)) as [_ | Hn6].
  { unfold process_temp_data. apply bind_data_at_out. lia. }
  destruct (Z.eqb_spec (packet_type w) (WMR_STATUS h)) as [_ | Hn7].
  { now apply process_status_data_short. }
  exfalso. cbn [In] in Hin. intuition congruence.
Qed.

Lemma dispatch_packet_short_witness :
  verify_packet (set_packet_type 0xD3 (example_session wind_packet_short)) =
    (Val 0, set_packet_type 0xD3 (example_session wind_packet_short)) /\
  dispatch_packet example_header example_libc
    (set_packet_type 0xD3 (example_session wind_packet_short)) =
  (Undefined, set_packet_type 0xD3 (example_session wind_packet_short)).
Proof.
  split; [reflexivity |].
  apply (dispatch_packet_short example_header example_libc
           (set_packet_type 0xD3 (example_session wind_packet_short))).
  - vm_compute. discriminate.
  - right. left. reflexivity.
Defined.

(* ================================================================= *)
(** ** The checksum and the end of the payload loop *)

Lemma verify_packet_value (w : wmr200) :
  Z.of_nat (length (packet w)) = packet_len w ->
  packet_len w < 2 ^ 24 ->
  verify_packet w =
  (Val (if checksum_ok (packet w) then 0 else uint (-1)), w).
Proof.
  intros Hbuf Hsmall. unfold verify_packet, checksum_ok. rewrite bind_gets, Hbuf.
  destruct (Z.leb_spec (packet_len w) 2) as [Hle | Hgt];
    destruct (Z.ltb_spec 2 (packet_len w)) as [Hlt | Hge]; try lia.
  - reflexivity.
  - assert (H24 : 2 ^ 24 = 16777216) by reflexivity.
    assert (H32 : 2 ^ 32 = 4294967296) by reflexivity.
    rewrite (uint_small (packet_len w - 2)) by lia.
    rewrite (uint_small (packet_len w - 1)) by lia.
    pose proof (byte_sum_bound (firstn (Z.to_nat (packet_len w - 2)) (packet w)))
      as Hs.
    rewrite length_firstn in Hs.
    rewrite (bind_Val _ _ _ _ _
      (verify_packet_sum_spec (Z.to_nat (packet_len w - 2)) 0 0 w
         ltac:(lia) ltac:(lia) ltac:(lia) ltac:(lia) ltac:(lia))).
    rewrite (bind_Val _ _ _ _ _
      (packet_at_in w (packet_len w - 1) ltac:(lia))).
    rewrite (bind_Val _ _ _ _ _
      (packet_at_in w (packet_len w - 2) ltac:(lia))).
    change (Z.to_nat 0) with 0%nat. cbn [skipn andb].
    pose proof (uc_range (nth (Z.to_nat (packet_len w - 2)) (packet w) Byte.x00)) as Hlo.
    pose proof (uc_range (nth (Z.to_nat (packet_len w - 1)) (packet w) Byte.x00)) as Hhi.
    fold (byte_at (packet w) (packet_len w - 2)) in Hlo.
    fold (byte_at (packet w) (packet_len w - 1)) in Hhi.
    rewrite (uint_small (256 * _ + _)) by lia.
    rewrite Z.add_0_l.
    destruct (byte_sum _ =? _); reflexivity.
Qed.

(** X13. A packet that fails the checksum is dropped and the loop goes
    on: the move from the end of the payload loop counts the packet as
    received and as failed, logs one warning and is back at the top of
    the loop. No handler is called, the store and latest_packet are as
    before - and the buffer is not freed on this path. *)
Theorem mainloop_drops_bad_packet (h : header) (env : libc) (w : wmr200) :
  Z.of_nat (length (packet w)) = packet_len w ->
  packet_len w < 2 ^ 24 ->
  checksum_ok (packet w) = false ->
  let run := mainloop_step h env received w in
  fst run = Val top /\
  out (snd run) = out w ++ [Log Warning "Received incorrect packet, dropping" []] /\
  latest (snd run) = latest w /\
  packet (snd run) = packet w /\
  num_packets (meta (snd run)) = uint (num_packets (meta w) + 1) /\
  num_failed (meta (snd run)) = uint (num_failed (meta w) + 1) /\
  latest_packet (meta (snd run)) = latest_packet (meta w) /\
  clock (snd run) = clock w.
Proof.
  intros Hbuf Hsmall Hbad. cbv zeta. cbn [mainloop_step].
  rewrite bind_modify.
  set (w1 := set_meta _ w).
  rewrite (bind_Val _ _ _ _ _ (verify_packet_value w1 Hbuf Hsmall)).
  subst w1. cbn [packet set_meta]. rewrite Hbad.
  change (negb (uint (-1) =? 0)) with true. cbv iota.
  unfold log_warning. rewrite bind_emit, bind_modify.
  repeat split.
Qed.

Lemma mainloop_drops_bad_packet_witness :
  let run := mainloop_step example_header example_libc received
               (example_session wind_packet_corrupted) in
  fst run = Val top /\
  num_failed (meta (snd run)) = 1 /\
  packet (snd run) = map to_uchar wind_packet_corrupted.
Proof.
  cbv zeta.
  destruct (mainloop_drops_bad_packet example_header example_libc
              (example_session wind_packet_corrupted))
    as (Hrun & _ & _ & Hpacket & _ & Hfailed & _).
  - reflexivity.
  - vm_compute. reflexivity.
  - vm_compute. reflexivity.
  - split; [exact Hrun |]. split; [exact Hfailed | exact Hpacket].
Defined.

(** X14. A packet that passes the checksum is dispatched once and its
    buffer is freed afterwards. The move from the end of the payload loop
    counts the packet, records the time, runs dispatch_packet on the
    unchanged buffer and, when that returns, frees the buffer and is back
    at the top of the loop; the count of failed packets does not change.
    When dispatch_packet does not return, neither does the move, and the
    buffer has not been freed. *)
Theorem mainloop_dispatches_verified_packet (h : header) (env : libc)
    (w : wmr200) :
  Z.of_nat (length (packet w)) = packet_len w ->
  packet_len w < 2 ^ 24 ->
  checksum_ok (packet w) = true ->
  let w1 := counted env w in
  let run := mainloop_step h env received w in
  packet w1 = packet w /\
  packet_type w1 = packet_type w /\
  latest w1 = latest w /\
  handler w1 = handler w /\
  num_failed (meta w1) = num_failed (meta w) /\
  match dispatch_packet h env w1 with
  | (Val _, w2) => run = (Val top, set_packet [] (set_out (out w2 ++ [Free]) w2))
  | (Exited code, w2) => run = (Exited code, w2)
  | (Blocked, w2) => run = (Blocked, w2)
  | (Undefined, w2) => run = (Undefined, w2)
  end.
Proof.
  intros Hbuf Hsmall Hgood. cbv zeta.
  do 5 (split; [reflexivity |]).
  cbn [mainloop_step]. rewrite bind_modify.
  set (wa := set_meta _ w).
  rewrite (bind_Val _ _ _ _ _ (verify_packet_value wa Hbuf Hsmall)).
  subst wa. cbn [packet set_meta]. rewrite Hgood.
  change (negb (0 =? 0)) with false. cbv iota.
  unfold log_debug, time_now.
  rewrite !bind_gets, bind_emit, bind_assoc, bind_gets, bind_assoc,
    bind_modify, bind_ret, bind_modify.
  fold (counted env w). unfold bind.
  destruct (dispatch_packet h env (counted env w)) as [[[] | code | |] w2];
    reflexivity.
Qed.

Lemma mainloop_dispatches_verified_packet_witness :
  let run := mainloop_step example_header example_libc received
               (set_packet_type 0xD3 (example_session wind_packet)) in
  fst run = Val top /\
  packet (snd run) = [] /\
  count_events (is_call_of 0xD3) (out (snd run)) = 1%nat.
Proof.
  cbv zeta.
  destruct (mainloop_dispatches_verified_packet example_header example_libc
              (set_packet_type 0xD3 (example_session wind_packet)))
    as (_ & _ & _ & _ & _ & Hrun).
  - reflexivity.
  - vm_compute. reflexivity.
  - vm_compute. reflexivity.
  - destruct (dispatch_packet example_header example_libc
                (counted example_libc
                   (set_packet_type 0xD3 (example_session wind_packet))))
      as [[[] | code | |] w2] eqn:Hd;
      try (vm_compute in Hd; discriminate).
    rewrite Hrun. cbn [fst snd packet set_packet out set_out].
    split; [reflexivity |]. split; [reflexivity |].
    vm_compute in Hd. injection Hd as <-. vm_compute. reflexivity.
Defined.

Lemma uc_inj (a b : uchar) : uc a = uc b -> a = b.
Proof.
  unfold uc. intros Hab. apply N2Z.inj in Hab.
  pose proof (Byte.of_to_N a) as Ha. pose proof (Byte.of_to_N b) as Hb.
  rewrite Hab in Ha. congruence.
Qed.

Lemma firstn_upd_ge {A} (l : list A) (n i : nat) (x : A) :
  (n <= i)%nat -> firstn n (upd l i x) = firstn n l.
Proof.
  revert n i. induction l as [| a t IH]; intros [| n] [| i] Hni; cbn;
    try reflexivity; try lia.
  f_equal. apply IH. lia.
Qed.

Lemma firstn_upd_lt {A} (l : list A) (n i : nat) (x : A) :
  (i < n)%nat -> firstn n (upd l i x) = upd (firstn n l) i x.
Proof.
  revert n i. induction l as [| a t IH]; intros [| n] [| i] Hni; cbn;
    try reflexivity; try lia.
  f_equal. apply IH. lia.
Qed.

Lemma byte_sum_upd (l : list uchar) (i : nat) (b : uchar) :
  (i < length l)%nat ->
  byte_sum (upd l i b) = byte_sum l - uc (nth i l Byte.x00) + uc b.
Proof.
  revert i. induction l as [| a t IH]; intros [| i] Hi; cbn [length] in Hi;
    try lia; cbn [upd nth];
    change (byte_sum (?x :: ?y)) with (uc x + byte_sum y).
  - lia.
  - rewrite IH by lia. lia.
Qed.

Lemma nth_firstn_lt {A} (l : list A) (n i : nat) (d : A) :
  (i < n)%nat -> nth i (firstn n l) d = nth i l d.
Proof.
  revert n i. induction l as [| a t IH]; intros [| n] [| i] Hi; cbn;
    try reflexivity; try lia.
  apply IH. lia.
Qed.

(** X15. The checksum detects every corruption of a single byte. If
    verify_packet accepts a buffer, it rejects the buffer in which one
    byte, at any index, has any other value. *)
Theorem verify_packet_detects_corruption (w : wmr200) (i : nat) (b' : uchar) :
  Z.of_nat (length (packet w)) = packet_len w ->
  packet_len w < 2 ^ 24 ->
  verify_packet w = (Val 0, w) ->
  (i < length (packet w))%nat ->
  b' <> nth i (packet w) Byte.x00 ->
  let w' := set_packet (upd (packet w) i b') w in
  verify_packet w' = (Val (uint (-1)), w').
Proof.
  intros Hbuf Hsmall Hok Hi Hb w'.
  rewrite (verify_packet_value w Hbuf Hsmall) in Hok.
  destruct (checksum_ok (packet w)) eqn:Hsum; [clear Hok | discriminate].
  assert (Hbuf' : Z.of_nat (length (packet w')) = packet_len w')
    by (subst w'; cbn [packet packet_len set_packet]; now rewrite upd_length).
  rewrite (verify_packet_value w' Hbuf' Hsmall).
  replace (checksum_ok (packet w')) with false; [reflexivity |].
  symmetry. subst w'. cbn [packet set_packet].
  unfold checksum_ok in *. rewrite upd_length.
  apply andb_prop in Hsum. destruct Hsum as [Hlen Hsum].
  apply Z.ltb_lt in Hlen. apply Z.eqb_eq in Hsum.
  apply andb_false_intro2. apply Z.eqb_neq.
  set (p := packet w) in *. set (len := Z.of_nat (length p)) in *.
  assert (Hne : uc b' <> uc (nth i p Byte.x00))
    by (intros Hc; apply Hb; now apply uc_inj).
  unfold byte_at in *.
  destruct (Nat.lt_ge_cases i (Z.to_nat (len - 2))) as [Hbody | Htrail].
  - rewrite firstn_upd_lt by exact Hbody.
    rewrite byte_sum_upd by (rewrite length_firstn; lia).
    rewrite nth_firstn_lt by exact Hbody.
    rewrite !upd_nth_other by lia. lia.
  - rewrite firstn_upd_ge by exact Htrail.
    destruct (Nat.eq_dec i (Z.to_nat (len - 2))) as [Hlo | Hhi].
    + rewrite (upd_nth_other _ i (Z.to_nat (len - 1))) by lia.
      rewrite <- Hlo in *. rewrite upd_nth_same by exact Hi. lia.
    + assert (Hi1 : i = Z.to_nat (len - 1)) by lia.
      rewrite (upd_nth_other _ i (Z.to_nat (len - 2))) by lia.
      rewrite <- Hi1 in *. rewrite upd_nth_same by exact Hi. lia.
Qed.

Lemma verify_packet_detects_corruption_witness :
  verify_packet
    (set_packet (upd (map to_uchar wind_packet) 9 Byte.x65)
                (example_session wind_packet)) =
  (Val (uint (-1)),
   set_packet (upd (map to_uchar wind_packet) 9 Byte.x65)
              (example_session wind_packet)).
Proof.
  apply (verify_packet_detects_corruption (example_session wind_packet) 9 Byte.x65).
  - reflexivity.
  - vm_compute. reflexivity.
  - reflexivity.
  - vm_compute. lia.
  - vm_compute. discriminate.
Defined.

(* ================================================================= *)
(** ** mainloop: from bytes to a packet *)

Section Ignores.

Context {X : Type} (set : X -> wmr200 -> wmr200).

Lemma ignores_ret {A} (a : A) : ignores set (ret a).
Proof. intros x w. reflexivity. Qed.

Lemma ignores_bind {A B} (c : M A) (k : A -> M B) :
  ignores set c -> (forall a, ignores set (k a)) -> ignores set (bind c k).
Proof.
  intros Hc Hk x w. unfold bind. rewrite Hc.
  destruct (c w) as [[a | code | |] w1]; cbn [fst snd]; try reflexivity.
  apply Hk.
Qed.

Lemma ignores_gets {A} (f : wmr200 -> A) :
  (forall x w, f (set x w) = f w) -> ignores set (gets f).
Proof. intros Hf x w. unfold gets. now rewrite Hf. Qed.

Lemma ignores_modify (f : wmr200 -> wmr200) :
  (forall x w, f (set x w) = set x (f w)) -> ignores set (modify f).
Proof. intros Hf x w. unfold modify. now rewrite Hf. Qed.

Lemma ignores_when (b : bool) (c : M unit) :
  ignores set c -> ignores set (when b c).
Proof. intros Hc. destruct b; [exact Hc | apply ignores_ret]. Qed.

Lemma ignores_elem {A} (l : list A) (i : Z) : ignores set (elem l i).
Proof. intros x w. unfold elem. now destruct (at_Z l i). Qed.

End Ignores.

Ltac ignores_field :=
  repeat first
    [ apply ignores_bind; [| intros ?]
    | apply ignores_when
    | apply ignores_elem
    | apply ignores_ret
    | apply ignores_gets; intros ? [? ? ? ? ? ? ? ? ? ? ? ? ? ?]; reflexivity
    | apply ignores_modify; intros ? [? ? ? ? ? ? ? ? ? ? ? ? ? ?];
      unfold log_before; cbn; rewrite ?app_assoc; reflexivity ].

Ltac ignores_hid_read :=
  intros ? [? ? ? ? ? ? ? ? ? ? d ? ? ?]; unfold hid_read, log_before;
  cbn; now destruct d as [| [? |] ?].

Lemma hid_read_ignores_packet (h : header) : ignores set_packet (hid_read h).
Proof. ignores_hid_read. Qed.

Lemma hid_read_ignores_packet_len (h : header) :
  ignores set_packet_len (hid_read h).
Proof. ignores_hid_read. Qed.

Lemma hid_read_ignores_packet_type (h : header) :
  ignores set_packet_type (hid_read h).
Proof. ignores_hid_read. Qed.

Lemma hid_read_ignores_log (h : header) : ignores log_before (hid_read h).
Proof. ignores_hid_read. Qed.

Ltac read_byte_ignores Hread :=
  unfold read_byte, log_warning, emit;
  apply ignores_bind; [ignores_field | intros ?];
  apply ignores_bind; [| intros _; ignores_field];
  apply ignores_when;
  apply ignores_bind; [apply Hread | intros ?];
  ignores_field.

Lemma read_byte_ignores_packet (h : header) : ignores set_packet (read_byte h).
Proof. read_byte_ignores (hid_read_ignores_packet h). Qed.

Lemma read_byte_ignores_packet_len (h : header) :
  ignores set_packet_len (read_byte h).
Proof. read_byte_ignores (hid_read_ignores_packet_len h). Qed.

Lemma read_byte_ignores_packet_type (h : header) :
  ignores set_packet_type (read_byte h).
Proof. read_byte_ignores (hid_read_ignores_packet_type h). Qed.

Lemma read_byte_ignores_log (h : header) : ignores log_before (read_byte h).
Proof. read_byte_ignores (hid_read_ignores_log h). Qed.

Lemma read_bytes_ignores {X} (set : X -> wmr200 -> wmr200) (h : header)
    (n : nat) :
  ignores set (read_byte h) -> ignores set (read_bytes h n).
Proof.
  intros Hbyte.
  induction n as [| n IH]; cbn [read_bytes]; [apply ignores_ret |].
  apply ignores_bind; [exact Hbyte | intros b].
  apply ignores_bind; [exact IH | intros bs]. apply ignores_ret.
Qed.

Lemma set_packet_same (w : wmr200) : set_packet (packet w) w = w.
Proof. now destruct w. Qed.

Lemma set_packet_twice (p q : list uchar) (w : wmr200) :
  set_packet p (set_packet q w) = set_packet p w.
Proof. now destruct w. Qed.

Lemma read_byte_keeps_packet (h : header) (w : wmr200) :
  packet (snd (read_byte h w)) = packet w.
Proof.
  pose proof (read_byte_ignores_packet h (packet w) w) as Hc.
  rewrite set_packet_same in Hc.
  destruct (read_byte h w) as [r w1]. cbn [fst snd] in *.
  injection Hc as Hc. rewrite Hc at 1. now destruct w1.
Qed.

Lemma read_byte_keeps_packet_len (h : header) (w : wmr200) :
  packet_len (snd (read_byte h w)) = packet_len w.
Proof.
  pose proof (read_byte_ignores_packet_len h (packet_len w) w) as Hc.
  replace (set_packet_len (packet_len w) w) with w in Hc by now destruct w.
  destruct (read_byte h w) as [r w1]. cbn [fst snd] in *.
  injection Hc as Hc. rewrite Hc at 1. now destruct w1.
Qed.

Lemma firstn_S_upd {A} (l : list A) (i : nat) (x : A) :
  (i < length l)%nat -> firstn (S i) (upd l i x) = firstn i l ++ [x].
Proof.
  revert i. induction l as [| a t IH]; intros [| i] Hi; cbn [length] in Hi;
    try lia.
  - reflexivity.
  - change (firstn (S (S i)) (upd (a :: t) (S i) x))
      with (a :: firstn (S i) (upd t i x)).
    rewrite IH by lia. reflexivity.
Qed.

(** The payload loop stores the bytes it reads in order, from index [i]
    to the end of the buffer. *)
Lemma payload_loop_run (h : header) (env : libc) (n : nat) :
  forall (bs : list uchar) (w wr : wmr200) (i : Z),
    0 <= i ->
    i + Z.of_nat n = packet_len w ->
    packet_len w < 2 ^ 32 ->
    Z.of_nat (length (packet w)) = packet_len w ->
    read_bytes h n w = (Val bs, wr) ->
    mainloop_from h env (S n) (payload i) w =
    (Val received, set_packet (firstn (Z.to_nat i) (packet w) ++ bs) wr).
Proof.
  induction n as [| n IH]; intros bs w wr i Hi Hend Hsmall Hbuf Hread.
  - cbn [read_bytes] in Hread. unfold ret in Hread. injection Hread as <- <-.
    cbn [mainloop_from mainloop_step]. rewrite bind_assoc, bind_gets.
    replace (i <? packet_len w) with false by (symmetry; apply Z.ltb_ge; lia).
    rewrite bind_ret. unfold ret.
    rewrite firstn_all2 by lia. now rewrite app_nil_r, set_packet_same.
  - cbn [read_bytes] in Hread. unfold bind at 1 in Hread.
    destruct (read_byte h w) as [[b | code | |] w1] eqn:Hb; try discriminate.
    unfold bind at 1 in Hread.
    destruct (read_bytes h n w1) as [[bs' | code | |] w2] eqn:Hbs;
      try discriminate.
    unfold ret in Hread. injection Hread as <- <-.
    assert (Hpk : packet w1 = packet w).
    { pose proof (read_byte_keeps_packet h w) as Hc. now rewrite Hb in Hc. }
    assert (Hpl : packet_len w1 = packet_len w).
    { pose proof (read_byte_keeps_packet_len h w) as Hc. now rewrite Hb in Hc. }
    change (mainloop_from h env (S (S n)) (payload i) w)
      with (bind (mainloop_step h env (payload i))
                 (mainloop_from h env (S n)) w).
    cbn [mainloop_step]. rewrite bind_assoc, bind_gets.
    replace (i <? packet_len w) with true by (symmetry; apply Z.ltb_lt; lia).
    rewrite bind_assoc, (bind_Val _ _ _ _ _ Hb).
    unfold packet_store. rewrite !bind_assoc, bind_gets, Hpk.
    assert (Hat : exists x, at_Z (packet w) i = Some x).
    { unfold at_Z. replace (i <? 0) with false by (symmetry; apply Z.ltb_ge; lia).
      destruct (nth_error (packet w) (Z.to_nat i)) eqn:Hn; [eauto |].
      apply nth_error_None in Hn. lia. }
    destruct Hat as [x Hat]. rewrite Hat, bind_modify, bind_ret.
    rewrite uint_small by lia.
    rewrite (IH bs' (set_packet (upd (packet w) (Z.to_nat i) b) w1)
                (set_packet (upd (packet w) (Z.to_nat i) b) w2) (i + 1)).
    + cbn [packet set_packet]. rewrite set_packet_twice.
      replace (Z.to_nat (i + 1)) with (S (Z.to_nat i)) by lia.
      rewrite firstn_S_upd by lia. now rewrite <- app_assoc.
    + lia.
    + cbn [packet_len set_packet]. lia.
    + cbn [packet_len set_packet]. lia.
    + cbn [packet packet_len set_packet]. rewrite upd_length. lia.
    + rewrite (read_bytes_ignores set_packet h n (read_byte_ignores_packet h)).
      now rewrite Hbs.
Qed.

Lemma to_uchar_uc (b : uchar) : to_uchar (uc b) = b.
Proof.
  apply uc_inj. rewrite uc_to_uchar. apply Z.mod_small. apply uc_range.
Qed.

Lemma read_bytes_S (h : header) (n : nat) (b : uchar) (bs : list uchar)
    (w w' : wmr200) :
  read_bytes h (S n) w = (Val (b :: bs), w') ->
  exists w1, read_byte h w = (Val b, w1) /\ read_bytes h n w1 = (Val bs, w').
Proof.
  intros Hread. cbn [read_bytes] in Hread. unfold bind at 1 in Hread.
  destruct (read_byte h w) as [[b1 | code | |] w1]; try discriminate.
  unfold bind at 1 in Hread.
  destruct (read_bytes h n w1) as [[bs1 | code | |] w2] eqn:Hbs;
    try discriminate.
  unfold ret in Hread. injection Hread as Hb Hl Hw. subst.
  exists w1. split; [reflexivity | exact Hbs].
Qed.

(** What a piece that ignores the lines before it adds to the log comes
    after them. *)
Lemma ignores_log_extends {A} (c : M A) (w : wmr200) :
  ignores log_before c -> exists l, out (snd (c w)) = out w ++ l.
Proof.
  intros Hc. exists (out (snd (c (set_out [] w)))).
  assert (Hw : w = log_before (out w) (set_out [] w))
    by (destruct w; unfold log_before; cbn; now rewrite app_nil_r).
  rewrite Hw at 1. rewrite Hc. reflexivity.
Qed.

(** A line added to the log before the bytes are read stays where it is:
    the reads neither see it nor move it. *)
Lemma read_bytes_logged (h : header) (n : nat) (w w' : wmr200)
    (bs : list uchar) (e : event) :
  read_bytes h n w = (Val bs, w') ->
  exists l,
    out w' = out w ++ l /\
    read_bytes h n (set_out (out w ++ [e]) w) =
    (Val bs, set_out (out w ++ [e] ++ l) w').
Proof.
  intros Hread.
  pose proof (read_bytes_ignores log_before h n (read_byte_ignores_log h))
    as Hign.
  assert (Hw : w = log_before (out w) (set_out [] w))
    by (destruct w; unfold log_before; cbn; now rewrite app_nil_r).
  assert (He : set_out (out w ++ [e]) w =
               log_before (out w ++ [e]) (set_out [] w))
    by (destruct w; unfold log_before; cbn; now rewrite app_nil_r).
  rewrite Hw, Hign in Hread. rewrite He, Hign.
  destruct (read_bytes h n (set_out [] w)) as [r s0]. cbn [fst snd] in *.
  injection Hread as -> <-. exists (out s0).
  destruct s0; unfold log_before; cbn. split; [reflexivity |].
  now rewrite <- !app_assoc.
Qed.

Lemma mainloop_from_S (h : header) (env : libc) (fuel : nat) (l : label)
    (w : wmr200) :
  mainloop_from h env (S fuel) l w =
  bind (mainloop_step h env l) (mainloop_from h env fuel) w.
Proof. reflexivity. Qed.

(** X16. mainloop puts a packet together from the bytes read_byte hands
    out. When the calls of read_byte return a type byte that asks for no
    immediate action, a length byte that is no type mark and equals the
    number of bytes, and then the payload, the loop allocates one buffer
    of that length and reaches the end of its payload loop with exactly
    these bytes in it, in order, and with the type and the length
    recorded. Apart from the buffer, the type, the length and the one
    allocation, the session is as the reads alone would have left it. *)
Theorem mainloop_frames_packet (h : header) (env : libc) (n : nat)
    (tb lb : uchar) (body : list uchar) (w w' : wmr200) :
  read_bytes h (S (S n)) w = (Val (tb :: lb :: body), w') ->
  ~ In (uc tb) [HISTORIC_DATA_NOTIF; LOGGER_DATA_ERASE; COMMUNICATION_STOP] ->
  ~ is_packet_type_mark (uc lb) ->
  uc lb = Z.of_nat (S (S n)) ->
  exists (w1 : wmr200) (l1 l2 : list event),
    mainloop_from h env (n + 4) top w = (Val received, w1) /\
    packet w1 = tb :: lb :: body /\
    packet_type w1 = uc tb /\
    packet_len w1 = uc lb /\
    out w' = out w ++ l1 ++ l2 /\
    out w1 = out w ++ l1 ++ [Malloc (uc lb)] ++ l2 /\
    set_out (out w') w1 =
    set_packet (tb :: lb :: body)
      (set_packet_len (uc lb) (set_packet_type (uc tb) w')).
Proof.
  intros Hread Hty Hmark Hlen.
  destruct (read_bytes_S h _ _ _ _ _ Hread) as (wa & Hb1 & Hread1).
  destruct (read_bytes_S h _ _ _ _ _ Hread1) as (wb & Hb2 & Hbs).
  set (T := uc tb) in *. set (L := uc lb) in *.
  pose proof (uc_range lb) as HL. fold L in HL.
  (* the log up to the second byte *)
  destruct (ignores_log_extends (read_byte h) w (read_byte_ignores_log h))
    as (la & Hla).
  destruct (ignores_log_extends (read_byte h) wa (read_byte_ignores_log h))
    as (lb' & Hlb).
  rewrite Hb1 in Hla. rewrite Hb2 in Hlb. cbn [snd] in Hla, Hlb.
  (* the type byte *)
  assert (H1 : mainloop_step h env top w =
               (Val act_on_packet_type, set_packet_type T wa)).
  { cbn [mainloop_step]. now rewrite (bind_Val _ _ _ _ _ Hb1), bind_modify. }
  (* no immediate action *)
  assert (H2 : mainloop_step h env act_on_packet_type (set_packet_type T wa) =
               (Val read_len, set_packet_type T wa)).
  { cbn [mainloop_step]. rewrite bind_gets. cbn [packet_type set_packet_type].
    destruct (Z.eqb_spec T HISTORIC_DATA_NOTIF) as [Heq | _];
      [exfalso; apply Hty; rewrite Heq; cbn; tauto |].
    destruct (Z.eqb_spec T LOGGER_DATA_ERASE) as [Heq | _];
      [exfalso; apply Hty; rewrite Heq; cbn; tauto |].
    destruct (Z.eqb_spec T COMMUNICATION_STOP) as [Heq | _];
      [exfalso; apply Hty; rewrite Heq; cbn; tauto |].
    reflexivity. }
  (* the length byte and the buffer *)
  set (wL := set_packet_len L (set_packet_type T wb)).
  set (wc := set_packet (tb :: lb :: repeat Byte.x00 n)
               (set_out (out wL ++ [Malloc L]) wL)).
  assert (H3 : mainloop_step h env read_len (set_packet_type T wa) =
               (Val (payload 2), wc)).
  { cbn [mainloop_step].
    assert (Hb2' : read_byte h (set_packet_type T wa) =
                   (Val lb, set_packet_type T wb))
      by (rewrite (read_byte_ignores_packet_type h), Hb2; reflexivity).
    rewrite (bind_Val _ _ _ _ _ Hb2'), bind_modify, bind_gets.
    cbn [packet_len set_packet_len]. fold L.
    assert (Htest : (L >=? 0xD0) && (L <=? 0xDF) = false).
    { unfold is_packet_type_mark in Hmark.
      destruct (Z.geb_spec L 0xD0); destruct (Z.leb_spec L 0xDF);
        cbn [andb]; try reflexivity; lia. }
    rewrite Htest. unfold malloc_safe.
    rewrite bind_assoc, bind_emit, bind_ret, bind_modify, bind_gets.
    cbn [packet_type set_packet set_out set_packet_len set_packet_type].
    set (w2 := set_packet _ _).
    assert (Hbuf : Z.of_nat (length (packet w2)) = L)
      by (subst w2; cbn [packet set_packet]; rewrite repeat_length; lia).
    rewrite (bind_Val _ _ _ _ _ (packet_store_in 0 _ w2 ltac:(lia))).
    set (w3 := set_packet _ w2).
    assert (Hbuf3 : Z.of_nat (length (packet w3)) = L)
      by (subst w3; cbn [packet set_packet]; rewrite upd_length; exact Hbuf).
    rewrite (bind_Val _ _ _ _ _ (packet_store_in 1 _ w3 ltac:(lia))).
    unfold ret. f_equal. subst w3 w2 wc wL.
    cbn [packet set_packet out set_out set_packet_len set_packet_type].
    rewrite !set_packet_twice. fold T. rewrite Hlen, Nat2Z.id.
    change (Z.to_nat 0) with 0%nat. change (Z.to_nat 1) with 1%nat.
    cbn [repeat upd]. unfold T. rewrite <- Hlen. unfold L.
    now rewrite !to_uchar_uc. }
  (* the payload *)
  assert (HbsL : read_bytes h n wL =
                 (Val body, set_packet_len L (set_packet_type T w'))).
  { subst wL.
    rewrite (read_bytes_ignores set_packet_len h n
               (read_byte_ignores_packet_len h)).
    rewrite (read_bytes_ignores set_packet_type h n
               (read_byte_ignores_packet_type h)).
    now rewrite Hbs. }
  destruct (read_bytes_logged h n wL _ body (Malloc L) HbsL) as (l2 & Hl2 & Hbsc).
  assert (Hbsc' : read_bytes h n wc =
                  (Val body,
                   set_packet (tb :: lb :: repeat Byte.x00 n)
                     (set_out (out wL ++ [Malloc L] ++ l2)
                        (set_packet_len L (set_packet_type T w'))))).
  { subst wc.
    rewrite (read_bytes_ignores set_packet h n (read_byte_ignores_packet h)).
    now rewrite Hbsc. }
  pose proof (payload_loop_run h env n body wc _ 2 ltac:(lia)
                ltac:(subst wc wL; cbn [packet_len set_packet set_out set_packet_len]; lia)
                ltac:(subst wc wL; cbn [packet_len set_packet set_out set_packet_len]; lia)
                ltac:(subst wc wL;
                      cbn [packet packet_len set_packet set_out set_packet_len length];
                      rewrite repeat_length; lia)
                Hbsc') as H4.
  eexists. exists (la ++ lb'), l2.
  split.
  { replace (n + 4)%nat with (S (S (S (S n)))) by lia.
    rewrite mainloop_from_S, (bind_Val _ _ _ _ _ H1).
    rewrite mainloop_from_S, (bind_Val _ _ _ _ _ H2).
    rewrite mainloop_from_S, (bind_Val _ _ _ _ _ H3).
    exact H4. }
  subst wc wL.
  cbn [packet packet_type packet_len out set_packet set_out set_packet_len
       set_packet_type] in *.
  change (Z.to_nat 2) with 2%nat. cbn [firstn app].
  rewrite set_packet_twice.
  split; [reflexivity |]. split; [reflexivity |]. split; [reflexivity |].
  split; [rewrite Hl2, Hlb, Hla, <- !app_assoc; reflexivity |].
  split; [rewrite Hlb, Hla, <- !app_assoc; reflexivity |].
  now destruct w'.
Qed.

Lemma mainloop_frames_packet_witness :
  exists w1 : wmr200,
    mainloop_from example_header example_libc 18 top wind_frames_session =
    (Val received, w1) /\
    packet w1 = map to_uchar wind_packet /\
    packet_type w1 = 0xD3 /\
    packet_len w1 = 16.
Proof.
  assert (Hread : read_bytes example_header 16 wind_frames_session =
                  (Val (map to_uchar wind_packet),
                   snd (read_bytes example_header 16 wind_frames_session)))
    by (vm_compute; reflexivity).
  destruct (mainloop_frames_packet example_header example_libc 14
              (to_uchar 0xD3) (to_uchar 16)
              (map to_uchar (skipn 2 wind_packet))
              wind_frames_session _ Hread)
    as (w1 & l1 & l2 & Hrun & Hpacket & Htype & Hlen & _).
  - vm_compute. intuition discriminate.
  - vm_compute. intros [Hlo _]. apply Hlo. reflexivity.
  - vm_compute. reflexivity.
  - exists w1. split; [exact Hrun |]. split; [exact Hpacket |].
    split; [exact Htype | exact Hlen].
Defined.

(* ================================================================= *)
(** ** The one-byte packets and the heartbeat *)

(** X17. A historic-data notification (type 0xD1) is answered at once:
    when the write succeeds, the move from act_on_packet_type logs two
    lines, writes one command frame carrying REQUEST_HISTORIC_DATA and is
    back at the top of the loop - the notification has no length byte -
    with nothing else changed. *)
Theorem mainloop_requests_historic_data (h : header) (env : libc)
    (w : wmr200) :
  packet_type w = HISTORIC_DATA_NOTIF ->
  hid_write_ret env (writes w) = WMR200_FRAME_SIZE h ->
  mainloop_step h env act_on_packet_type w =
  (Val top,
   set_out (out w ++
            [Log Info "Data logger contains some unprocessed historic records" [];
             Log Info "Issuing REQUEST_HISTORIC_DATA command" [];
             HidWrite ([Byte.x01; to_uchar REQUEST_HISTORIC_DATA]
                       ++ repeat Byte.x00 (Z.to_nat (WMR200_FRAME_SIZE h - 2)))])
     (set_writes (S (writes w)) w)).
Proof.
  intros Htype Hret. cbn [mainloop_step]. rewrite bind_gets, Htype.
  change (HISTORIC_DATA_NOTIF =? HISTORIC_DATA_NOTIF) with true. cbv iota.
  unfold log_info. rewrite !bind_emit. unfold bind.
  rewrite send_cmd_frame_spec. cbv zeta.
  cbn [writes set_out set_writes out]. rewrite Hret, Z.eqb_refl.
  cbn [negb]. unfold ret. rewrite <- !app_assoc. cbn [app].
  now destruct w.
Qed.

Lemma mainloop_requests_historic_data_witness :
  fst (mainloop_step example_header example_libc act_on_packet_type
         (set_packet_type 0xD1 (framer_session []))) = Val top /\
  writes (snd (mainloop_step example_header example_libc act_on_packet_type
                 (set_packet_type 0xD1 (framer_session [])))) = 2%nat.
Proof.
  rewrite (mainloop_requests_historic_data example_header example_libc
             (set_packet_type 0xD1 (framer_session []))
             ltac:(reflexivity) ltac:(reflexivity)).
  split; reflexivity.
Defined.

(** X18. No other packet type makes mainloop write to the device. For
    every type but the historic-data notification the move from
    act_on_packet_type writes nothing and adds at most one line to the
    log; it goes back to the top of the loop for LOGGER_DATA_ERASE (0xDB),
    which has no length byte either, and on to the length byte for every
    other type, COMMUNICATION_STOP included. *)
Theorem mainloop_writes_only_on_notification (h : header) (env : libc)
    (w : wmr200) :
  packet_type w <> HISTORIC_DATA_NOTIF ->
  let run := mainloop_step h env act_on_packet_type w in
  fst run = Val (if packet_type w =? LOGGER_DATA_ERASE then top else read_len) /\
  writes (snd run) = writes w /\
  latest (snd run) = latest w /\
  exists l : list event,
    out (snd run) = out w ++ l /\ (length l <= 1)%nat /\ forallb is_log l = true.
Proof.
  intros Htype. cbn [mainloop_step]. rewrite bind_gets.
  destruct (Z.eqb_spec (packet_type w) HISTORIC_DATA_NOTIF) as [Heq | _];
    [contradiction |].
  destruct (packet_type w =? LOGGER_DATA_ERASE);
    [| destruct (packet_type w =? COMMUNICATION_STOP)];
    unfold log_info, log_debug; try rewrite bind_emit;
    cbn [fst snd ret writes latest out set_out];
    (split; [reflexivity |]); (split; [reflexivity |]);
    (split; [reflexivity |]).
  - eexists. split; [reflexivity |]. split; [cbn; lia | reflexivity].
  - eexists. split; [reflexivity |]. split; [cbn; lia | reflexivity].
  - exists []. split; [now rewrite app_nil_r |]. split; [cbn; lia | reflexivity].
Qed.

Lemma mainloop_writes_only_on_notification_witness :
  let run := mainloop_step example_header example_libc act_on_packet_type
               (set_packet_type 0xDB (framer_session [])) in
  fst run = Val top /\ writes (snd run) = 1%nat.
Proof.
  cbv zeta.
  destruct (mainloop_writes_only_on_notification example_header example_libc
              (set_packet_type 0xDB (framer_session [])))
    as (Hrun & Hwrites & _).
  - vm_compute. discriminate.
  - split; [exact Hrun | exact Hwrites].
Defined.

(** X19. One turn of the heartbeat loop. When the write succeeds, the
    turn writes one HEARTBEAT frame and then delivers one ConnectionMeta
    reading to every handler: its counters are those of the session at
    that moment, its uptime is the first reading of the clock minus
    conn_since, and its timestamp is the second reading of the clock. The
    reading is also stored. When the write fails, the process ends with
    exit(1) and no reading is delivered or stored. *)
Theorem heartbeat_loop_turn_reports (h : header) (env : libc) (w : wmr200) :
  let run := heartbeat_loop_turn h env w in
  let frame := [Byte.x01; to_uchar HEARTBEAT]
               ++ repeat Byte.x00 (Z.to_nat (WMR200_FRAME_SIZE h - 2)) in
  let m := set_uptime (time_NULL env (clock w) - conn_since w) (meta w) in
  let r := {| type := WMR_META h; time := time_NULL env (S (clock w));
              body := Meta m |} in
  (hid_write_ret env (writes w) = WMR200_FRAME_SIZE h ->
   fst run = Val tt /\
   out (snd run) =
     out w ++ [Log Debug "Sending heartbeat to WMR200" []; HidWrite frame;
               Log Debug "Emitting system META packet 0x%02X" [WMR_META h]]
           ++ calls (handler w) [r] /\
   latest (snd run) = set_latest_meta r (latest w) /\
   meta (snd run) = m) /\
  (hid_write_ret env (writes w) <> WMR200_FRAME_SIZE h ->
   fst run = Exited 1 /\
   latest (snd run) = latest w /\
   meta (snd run) = meta w /\
   count_events (is_call_of (WMR_META h)) (out (snd run)) =
   count_events (is_call_of (WMR_META h)) (out w)).
Proof.
  cbv zeta. unfold heartbeat_loop_turn, send_heartbeat, log_debug.
  rewrite bind_assoc, bind_emit.
  set (w1 := set_out (out w ++ [Log Debug "Sending heartbeat to WMR200" []]) w).
  pose proof (send_cmd_frame_spec h env HEARTBEAT w1) as Hsend.
  cbv zeta in Hsend. subst w1. cbn [writes set_out set_writes out] in Hsend.
  destruct (Z.eqb_spec (hid_write_ret env (writes w)) (WMR200_FRAME_SIZE h))
    as [Heq | Hne]; cbn [negb] in Hsend; (split; [intros Hret | intros Hret]);
    try contradiction.
  - rewrite (bind_Val _ _ _ _ _ Hsend).
    unfold emit_meta_packet, log_debug, time_now.
    rewrite bind_emit, bind_assoc, bind_gets, bind_assoc, bind_modify, bind_ret,
      bind_modify, bind_assoc, bind_gets, bind_assoc, bind_modify, bind_ret,
      bind_gets, bind_modify, invoke_handlers_spec.
    unfold deliver, calls.
    cbn [fst snd out set_out latest set_latest meta set_meta clock set_clock
         handler set_writes conn_since flat_map].
    rewrite app_nil_r, <- !app_assoc. cbn [app]. repeat split; reflexivity.
  - unfold bind. rewrite Hsend.
    cbn [fst snd latest meta out set_out set_writes].
    split; [reflexivity |]. split; [reflexivity |]. split; [reflexivity |].
    unfold count_events. rewrite !filter_app. cbn [app filter is_call_of].
    now rewrite !app_nil_r.
Qed.

Lemma heartbeat_loop_turn_reports_witness :
  let run := heartbeat_loop_turn example_header example_libc
               (example_session wind_packet) in
  fst run = Val tt /\
  time (latest_meta (latest (snd run))) = 1002 /\
  uptime (meta (snd run)) = 1.
Proof.
  cbv zeta.
  destruct (heartbeat_loop_turn_reports example_header example_libc
              (example_session wind_packet)) as [Hok _].
  destruct (Hok ltac:(reflexivity)) as (Hrun & _ & Hlatest & Hmeta).
  split; [exact Hrun |]. rewrite Hlatest, Hmeta. split; reflexivity.
Defined.

(* ================================================================= *)
(** ** Historic records within the limit *)

(** X20. A historic record whose count byte does not exceed
    WMR200_MAX_TEMP_SENSORS is decoded in full and without a warning:
    the rain, wind, UV, barometric and primary temperature readings and
    then one temperature reading per counted external record, at stride
    7 from offset +33. All of them carry the one timestamp of the
    packet, bytes 2-6 of the buffer, wherever the record starts. *)
Theorem process_historic_data_within_limit (h : header) (env : libc)
    (data : Z) (w : wmr200) :
  let p := packet w in
  let count := byte_at p (data + 32) in
  0 <= data ->
  0 <= WMR200_MAX_TEMP_SENSORS h < 2 ^ 32 ->
  count <= WMR200_MAX_TEMP_SENSORS h ->
  data + 39 + 7 * count < Z.of_nat (length p) ->
  HIGH (byte_at p (data + 21 + 8)) < 7 ->
  LOW (byte_at p (data + 26 + 7)) <= 1 ->
  (forall j, 0 <= j < count -> LOW (byte_at p (data + 33 + 7 * j + 7)) <= 1) ->
  (2 <= length (latest_temp (latest w)))%nat ->
  let readings :=
    [rain_reading h env p data; wind_reading h env p (data + 13);
     uvi_reading h env p (data + 20); baro_reading h env p (data + 21);
     temp_reading h env p (data + 26)]
    ++ map (fun j => temp_reading h env p (data + 33 + 7 * j))
           (Zseq 0 (Z.to_nat count)) in
  exists w' : wmr200,
    process_historic_data h env data w = (Val tt, w') /\
    out w' = out w ++ calls (handler w) readings /\
    Z.of_nat (length readings) = 5 + count /\
    Forall (fun r => time r = reading_time env p) readings.
Proof.
  intros p count Hdata Hmax Hcount Hlen Hflag Hid0 Hids Hslots readings.
  subst p count readings. unfold process_historic_data.
  pose proof (uc_range (nth (Z.to_nat (data + 32)) (packet w) Byte.x00)) as H32.
  fold (byte_at (packet w) (data + 32)) in H32.
  destruct (decodes_rain h env data w) as (w1 & Hrun1 & (Hp1 & Hh1 & Hl1) & Hout1);
    [lia | lia |].
  rewrite (bind_Val _ _ _ _ _ Hrun1).
  destruct (decodes_wind h env (data + 13) w1)
    as (w2 & Hrun2 & (Hp2 & Hh2 & Hl2) & Hout2); [lia | rewrite Hp1; lia |].
  rewrite (bind_Val _ _ _ _ _ Hrun2).
  destruct (decodes_uvi h env (data + 20) w2)
    as (w3 & Hrun3 & (Hp3 & Hh3 & Hl3) & Hout3);
    [lia | rewrite Hp2, Hp1; lia |].
  rewrite (bind_Val _ _ _ _ _ Hrun3).
  destruct (decodes_baro h env (data + 21) w3)
    as (w4 & Hrun4 & (Hp4 & Hh4 & Hl4) & Hout4);
    [lia | rewrite Hp3, Hp2, Hp1; lia | rewrite Hp3, Hp2, Hp1; exact Hflag |].
  rewrite (bind_Val _ _ _ _ _ Hrun4).
  destruct (decodes_temp h env (data + 26) w4)
    as (w5 & Hrun5 & (Hp5 & Hh5 & Hl5) & Hout5);
    [lia | rewrite Hp4, Hp3, Hp2, Hp1; lia
     | rewrite Hp4, Hp3, Hp2, Hp1; exact Hid0 | lia |].
  rewrite (bind_Val _ _ _ _ _ Hrun5).
  assert (Hp : packet w5 = packet w) by congruence.
  assert (Hh : handler w5 = handler w) by congruence.
  rewrite (bind_data_at data 32) by (rewrite Hp; lia).
  rewrite Hp.
  rewrite (uint_small (byte_at (packet w) (data + 32))) by lia.
  rewrite (uint_small (WMR200_MAX_TEMP_SENSORS h)) by lia.
  destruct (Z.gtb_spec (byte_at (packet w) (data + 32))
                       (WMR200_MAX_TEMP_SENSORS h)) as [Hgt | _]; [lia |].
  unfold when. rewrite bind_ret.
  replace (MIN (byte_at (packet w) (data + 32)) (WMR200_MAX_TEMP_SENSORS h))
    with (byte_at (packet w) (data + 32))
    by (unfold MIN; destruct (Z.ltb_spec (byte_at (packet w) (data + 32))
                                         (WMR200_MAX_TEMP_SENSORS h)); lia).
  unfold for_lt. rewrite Z.sub_0_r.
  destruct (for_loop_temp h env data (Z.to_nat (byte_at (packet w) (data + 32)))
                          0 w5)
    as (w7 & Hrun7 & _ & Hout7).
  - lia.
  - lia.
  - rewrite Hp. lia.
  - intros j Hj. rewrite Hp. apply Hids. lia.
  - lia.
  - exists w7. split; [exact Hrun7 |]. split; [| split].
    + rewrite Hout7, Hout5, Hout4, Hout3, Hout2, Hout1.
      rewrite Hh, Hp, Hh4, Hh3, Hh2, Hh1, Hp4, Hp3, Hp2, Hp1.
      change ([?a; ?b; ?c; ?d; ?e] ++ ?l)
        with ([a] ++ [b] ++ [c] ++ [d] ++ [e] ++ l).
      rewrite !calls_app, <- !app_assoc. reflexivity.
    + rewrite length_app. unfold Zseq. rewrite !length_map, length_seq.
      cbn [length]. lia.
    + apply Forall_app. split.
      * repeat constructor.
      * apply Forall_forall. intros r Hr. apply in_map_iff in Hr.
        destruct Hr as (j & <- & _). reflexivity.
Qed.

Lemma process_historic_data_within_limit_witness :
  exists w' : wmr200,
    process_historic_data example_header example_libc 0
      (example_session historic_packet_one_sensor) = (Val tt, w') /\
    count_events is_warning (out w') = 0%nat /\
    count_events (is_call_of 0xD7) (out w') = 2%nat.
Proof.
  destruct (process_historic_data_within_limit example_header example_libc 0
              (example_session historic_packet_one_sensor))
    as (w' & Hrun & Hout & _).
  - lia.
  - vm_compute. split; [discriminate | reflexivity].
  - vm_compute. discriminate.
  - vm_compute. reflexivity.
  - vm_compute. reflexivity.
  - vm_compute. discriminate.
  - intros j Hj.
    assert (Hc : byte_at (packet (example_session historic_packet_one_sensor))
                         (0 + 32) = 1) by (vm_compute; reflexivity).
    rewrite Hc in Hj. assert (Hj0 : j = 0) by lia.
    subst j. vm_compute. discriminate.
  - vm_compute. lia.
  - exists w'. split; [exact Hrun |]. rewrite Hout.
    split; vm_compute; reflexivity.
Defined.
